(** * The jalgo live trader: candle window, trade lifecycle and reconnection

    A shallow embedding of the [LiveTrader] class of the live-trading script
    (constructor, [connectWebSocket], [attemptReconnect], [handleMessage],
    [processCandle], [stop]) and the properties of its candle window, of its
    trade-event derivation and of its reconnect logic.

    Conventions of the embedding.
    - JavaScript numbers that hold prices and amounts are IEEE binary64
      values: [float] of the standard library, with the JavaScript comparison
      and [Math] operators written out in [JS].  Timestamps, counters and
      delays are integers far below 2^53, held in [Z] or [nat].
    - The signal engine [jAlgo] is external: it is a parameter, a pure
      function that either returns a result or throws ([None]).
    - A method is a function from the instance ([Trader]) to the updated
      instance and the list of the effects it performs, in program order:
      notifications handed to [sendSignal] / [sendStatsPanel], console
      output, timers set, sockets created and terminated.
    - Synchronous code runs to completion before the next event is
      delivered.  [processCandle] is async: at each of its awaits the call is
      suspended, and other handlers, those of later messages included, run
      before it resumes.  It is modelled await by await
      ([beginProcessCandle], [resumeProcessCandle]); the function
      [processCandle] is the call that no other handler interrupts.
    - The values [Date.now()] returns are arguments, one per read.
    - [Trader] is an instance whose [initialize()] has stored the snapshot
      and the engine's first state, so [candles] and [state] are not null. *)

From Stdlib Require Import ZArith List Bool String Floats Sorted Lia.
Import ListNotations.

Local Open Scope string_scope.
Local Open Scope list_scope.

(** ** JavaScript number primitives *)

Module JS.

(** [a >= b] on numbers; false when either side is NaN. *)
Definition ge (a b : float) : bool := PrimFloat.leb b a.

(** [a <= b] on numbers. *)
Definition le (a b : float) : bool := PrimFloat.leb a b.

(** [a > b] on numbers. *)
Definition gt (a b : float) : bool := PrimFloat.ltb b a.

(** [a !== b] on numbers: NaN differs from itself, the two zeros are equal. *)
Definition strict_neq (a b : float) : bool := negb (PrimFloat.eqb a b).

(** [Math.min(x, y)]: NaN when an argument is NaN, and -0 below +0. *)
Definition Math_min (x y : float) : float :=
  if PrimFloat.is_nan x || PrimFloat.is_nan y then PrimFloat.nan
  else if PrimFloat.ltb x y then x
  else if PrimFloat.ltb y x then y
  else if PrimFloat.is_zero x && PrimFloat.get_sign x then x else y.

(** [Math.abs(x)]. *)
Definition Math_abs (x : float) : float := PrimFloat.abs x.

(** The number an array read yields in arithmetic and comparisons:
    [undefined] (a read past the end) converts to NaN. *)
Definition toNumber (v : option float) : float :=
  match v with Some f => f | None => PrimFloat.nan end.

(** [arr[arr.length - 1]]; [undefined] on an empty array. *)
Definition last_of {A : Type} (arr : list A) : option A :=
  nth_error arr (List.length arr - 1).

(** [arr.push(v)]. *)
Definition push {A : Type} (arr : list A) (v : A) : list A := arr ++ [v].

(** [arr.shift()], as to the array it leaves. *)
Definition shift {A : Type} (arr : list A) : list A := tl arr.

End JS.

(** ** Data model *)

(** The OHLC arrays [fetchBinanceData] returns and [handleMessage] updates. *)
Record Candles := mkCandles {
  openTime : list Z;
  open : list float;
  high : list float;
  low : list float;
  close : list float;
  volume : list float;
  closeTime : list Z
}.

(** The settings of [DEFAULT_CONFIG] that the trader itself reads; the
    algorithm parameters only the engine reads are left to the engine. *)
Record Config := mkConfig {
  symbol : string;
  interval : string;
  isFutures : bool;
  rewardMultiple : float;
  initialCapital : float;
  riskPerTrade : float;
  useLeverage : bool;
  leverageAmount : float
}.

(** The fields of the engine's state that the trader reads. *)
Record AlgorithmState := mkState {
  inLongTrade : bool;
  inShortTrade : bool;
  longEntryPrice : float;
  shortEntryPrice : float;
  longStopReference : float;
  shortStopReference : float;
  longTargetLevel : float;
  shortTargetLevel : float;
  riskAmount : float;
  currentCapital : float;
  totalProfitLoss : float
}.

(** [result.signal]: only its [position] is read. *)
Record Signal := mkSignal { position : string }.

(** [result.stats], passed on to [sendStatsPanel]. *)
Record Stats := mkStats {
  totalLongTrades : Z;
  totalShortTrades : Z;
  overallWinRate : float;
  efficiency : float
}.

(** [result.indicators], read by the debug output of [processCandle]. *)
Record Indicators := mkIndicators {
  defATR : list float;
  var_ma : list float;
  scalpLine : list float
}.

(** What [jAlgo] returns.  [indicators] is [None] when the object lacks the
    arrays the debug output slices, in which case that output throws. *)
Module Result.
Record t := mk {
  state : AlgorithmState;
  signal : option Signal;
  stats : Stats;
  indicators : option Indicators
}.
End Result.

(** The kline payload [event.k] of a stream message.  [o], [h], [l], [c] and
    [v] hold the values [parseFloat] gives for the payload's strings. *)
Module Kline.
Record payload := mk {
  t : Z;         (* k.t, open time *)
  T : Z;         (* k.T, close time *)
  o : float;
  h : float;
  l : float;
  c : float;
  v : float;
  x : bool       (* k.x, the candle is closed *)
}.
End Kline.

(** A raw stream message, as [handleMessage] tells them apart. *)
Inductive Message :=
| Unparseable                 (* JSON.parse, or reading [event.k], throws *)
| NotKline                    (* [event.k] is missing *)
| KlineEvent (k : Kline.payload).

(** [generateTradeId]'s string [symbol-Date.now()-counter], by components. *)
Record TradeId := mkTradeId {
  id_symbol : string;
  id_millis : Z;
  id_counter : Z
}.

(** The values [Date.now()] returns to one call of [processCandle].  A call
    reads the clock at most three times, each time in another stretch of its
    body: in [generateTradeId] for the id of a new trade, in the test of the
    daily stats panel, and, once the awaited panel has been sent, for
    [lastStatsUpdate]. *)
Module Clock.
Record t := mk {
  atId : Z;        (* the read of generateTradeId *)
  atCheck : Z;     (* the read of hoursSinceLastStatsUpdate *)
  atStore : Z      (* the read stored in lastStatsUpdate *)
}.
(** A clock that does not advance during the call. *)
Definition every (now : Z) : t := mk now now now.
End Clock.

(** [activeLongTrade] / [activeShortTrade].  [entryTime] is the close time
    whose local rendering the source stores. *)
Module ActiveTrade.
Record t := mk {
  id : TradeId;
  entryTime : option Z;
  entryPrice : option float;
  stopLevel : float;
  targetLevel : float;
  riskAmount : float
}.
Definition set_stopLevel (s : float) (a : t) : t :=
  mk (id a) (entryTime a) (entryPrice a) s (targetLevel a) (riskAmount a).
End ActiveTrade.

(** The payload of an exit notification. *)
Module ExitSignal.
Record t := mk {
  position : string;
  entryPrice : float;
  exitPrice : option float;
  profitLoss : float;
  riskedAmount : float;
  reason : string
}.
End ExitSignal.

(** The payload of an entry notification. *)
Module EntrySignal.
Record t := mk {
  position : string;
  price : option float;
  stopLevel : float;
  targetLevel : float
}.
End EntrySignal.

(** The payload of a stop-update notification. *)
Module StopUpdate.
Record t := mk {
  position : string;
  previousStop : float;
  newStop : float;
  entryPrice : option float;
  targetLevel : float
}.
End StopUpdate.

(** Callbacks handed to [setTimeout], with their delay in milliseconds. *)
Inductive Timer :=
| ConnectTimeout (ms : Z)      (* the 10 second guard of connectWebSocket *)
| ReconnectTimer (ms : Z).     (* the backoff wait of attemptReconnect *)

(** What a method does to the outside, in program order.  The payloads'
    [symbol], [interval], [isFutures] and [config] fields copy [this.config]
    and are not repeated; the state argument is the [this.state] handed to
    [sendSignal] / [sendStatsPanel].  Console output is kept by the fixed
    part of its text.  [CallJAlgo] records the call of the engine with its
    arguments. *)
Inductive Effect :=
| CallJAlgo (c : Candles) (st : AlgorithmState)
| SendExit (e : ExitSignal.t) (st : AlgorithmState)
| SendEntry (e : EntrySignal.t) (st : AlgorithmState)
| SendUpdate (u : StopUpdate.t) (st : AlgorithmState)
| SendStatsPanel (st : AlgorithmState) (s : Stats)
| ConsoleLog (msg : string)
| ConsoleError (msg : string)
| SetTimeout (tm : Timer)
| NewWebSocket (sock : nat)
| Terminate (sock : nat)
| UncaughtTypeError.

(** The instance fields of [LiveTrader]. *)
Record Trader := mkTrader {
  config : Config;
  candles : Candles;
  socket : option nat;
  isConnected : bool;
  reconnectAttempts : nat;
  maxReconnectAttempts : nat;
  reconnectDelay : Z;
  state : AlgorithmState;
  activeLongTrade : option ActiveTrade.t;
  activeShortTrade : option ActiveTrade.t;
  tradeIdCounter : Z;
  lastCandleTime : Z;
  lastStatsUpdate : option Z
}.

(** Field updates. *)
Definition set_candles (c : Candles) (tr : Trader) : Trader :=
  mkTrader (config tr) c (socket tr) (isConnected tr) (reconnectAttempts tr)
    (maxReconnectAttempts tr) (reconnectDelay tr) (state tr)
    (activeLongTrade tr) (activeShortTrade tr) (tradeIdCounter tr)
    (lastCandleTime tr) (lastStatsUpdate tr).

Definition set_socket (s : option nat) (tr : Trader) : Trader :=
  mkTrader (config tr) (candles tr) s (isConnected tr) (reconnectAttempts tr)
    (maxReconnectAttempts tr) (reconnectDelay tr) (state tr)
    (activeLongTrade tr) (activeShortTrade tr) (tradeIdCounter tr)
    (lastCandleTime tr) (lastStatsUpdate tr).

Definition set_isConnected (b : bool) (tr : Trader) : Trader :=
  mkTrader (config tr) (candles tr) (socket tr) b (reconnectAttempts tr)
    (maxReconnectAttempts tr) (reconnectDelay tr) (state tr)
    (activeLongTrade tr) (activeShortTrade tr) (tradeIdCounter tr)
    (lastCandleTime tr) (lastStatsUpdate tr).

Definition set_reconnectAttempts (n : nat) (tr : Trader) : Trader :=
  mkTrader (config tr) (candles tr) (socket tr) (isConnected tr) n
    (maxReconnectAttempts tr) (reconnectDelay tr) (state tr)
    (activeLongTrade tr) (activeShortTrade tr) (tradeIdCounter tr)
    (lastCandleTime tr) (lastStatsUpdate tr).

Definition set_reconnectDelay (d : Z) (tr : Trader) : Trader :=
  mkTrader (config tr) (candles tr) (socket tr) (isConnected tr)
    (reconnectAttempts tr) (maxReconnectAttempts tr) d (state tr)
    (activeLongTrade tr) (activeShortTrade tr) (tradeIdCounter tr)
    (lastCandleTime tr) (lastStatsUpdate tr).

Definition set_state (st : AlgorithmState) (tr : Trader) : Trader :=
  mkTrader (config tr) (candles tr) (socket tr) (isConnected tr)
    (reconnectAttempts tr) (maxReconnectAttempts tr) (reconnectDelay tr) st
    (activeLongTrade tr) (activeShortTrade tr) (tradeIdCounter tr)
    (lastCandleTime tr) (lastStatsUpdate tr).

Definition set_activeLongTrade (a : option ActiveTrade.t) (tr : Trader) : Trader :=
  mkTrader (config tr) (candles tr) (socket tr) (isConnected tr)
    (reconnectAttempts tr) (maxReconnectAttempts tr) (reconnectDelay tr)
    (state tr) a (activeShortTrade tr) (tradeIdCounter tr)
    (lastCandleTime tr) (lastStatsUpdate tr).

Definition set_activeShortTrade (a : option ActiveTrade.t) (tr : Trader) : Trader :=
  mkTrader (config tr) (candles tr) (socket tr) (isConnected tr)
    (reconnectAttempts tr) (maxReconnectAttempts tr) (reconnectDelay tr)
    (state tr) (activeLongTrade tr) a (tradeIdCounter tr)
    (lastCandleTime tr) (lastStatsUpdate tr).

Definition set_tradeIdCounter (n : Z) (tr : Trader) : Trader :=
  mkTrader (config tr) (candles tr) (socket tr) (isConnected tr)
    (reconnectAttempts tr) (maxReconnectAttempts tr) (reconnectDelay tr)
    (state tr) (activeLongTrade tr) (activeShortTrade tr) n
    (lastCandleTime tr) (lastStatsUpdate tr).

Definition set_lastCandleTime (t : Z) (tr : Trader) : Trader :=
  mkTrader (config tr) (candles tr) (socket tr) (isConnected tr)
    (reconnectAttempts tr) (maxReconnectAttempts tr) (reconnectDelay tr)
    (state tr) (activeLongTrade tr) (activeShortTrade tr) (tradeIdCounter tr)
    t (lastStatsUpdate tr).

Definition set_lastStatsUpdate (t : option Z) (tr : Trader) : Trader :=
  mkTrader (config tr) (candles tr) (socket tr) (isConnected tr)
    (reconnectAttempts tr) (maxReconnectAttempts tr) (reconnectDelay tr)
    (state tr) (activeLongTrade tr) (activeShortTrade tr) (tradeIdCounter tr)
    (lastCandleTime tr) t.

(** The constructor, followed by the two assignments of [initialize()] that
    store the fetched snapshot and the engine's first state. *)
Definition newTrader (cfg : Config) (snapshot : Candles) (st : AlgorithmState) : Trader :=
  {| config := cfg;
     candles := snapshot;
     socket := None;
     isConnected := false;
     reconnectAttempts := 0;
     maxReconnectAttempts := 10;
     reconnectDelay := 1000;
     state := st;
     activeLongTrade := None;
     activeShortTrade := None;
     tradeIdCounter := 0;
     lastCandleTime := 0;
     lastStatsUpdate := None |}.

(** ** The message and candle pipeline *)

(** [this.config.useLeverage ? this.config.leverageAmount : 1]. *)
Definition leverageFactor (cfg : Config) : float :=
  if useLeverage cfg then leverageAmount cfg else 1%float.

(** The seven [push] calls of [handleMessage], then the seven [shift] calls. *)
Definition appendCandle (k : Kline.payload) (cs : Candles) : Candles :=
  {| openTime := JS.shift (JS.push (openTime cs) (Kline.t k));
     open := JS.shift (JS.push (open cs) (Kline.o k));
     high := JS.shift (JS.push (high cs) (Kline.h k));
     low := JS.shift (JS.push (low cs) (Kline.l k));
     close := JS.shift (JS.push (close cs) (Kline.c k));
     volume := JS.shift (JS.push (volume cs) (Kline.v k));
     closeTime := JS.shift (JS.push (closeTime cs) (Kline.T k)) |}.

(** [generateTradeId]: the counter is incremented, then read. *)
Definition generateTradeId (now : Z) (tr : Trader) : TradeId * Trader :=
  let n := (tradeIdCounter tr + 1)%Z in
  (mkTradeId (symbol (config tr)) now n, set_tradeIdCounter n tr).

(** [result.signal && result.signal.position === p]. *)
Definition signalIs (sig : option Signal) (p : string) : bool :=
  match sig with
  | Some s => String.eqb (position s) p
  | None => false
  end.

(** The reason and profit or loss of a closed long trade. *)
Definition longExitOutcome (cfg : Config) (prevState : AlgorithmState)
    (sig : option Signal) (currentClose currentHigh : option float)
  : string * float :=
  if JS.ge (JS.toNumber currentHigh) (longTargetLevel prevState) then
    ("Target Hit",
     (riskAmount prevState * rewardMultiple cfg * leverageFactor cfg)%float)
  else if signalIs sig "short" then
    let longPL := (JS.toNumber currentClose - longEntryPrice prevState)%float in
    let longRisk := (longEntryPrice prevState - longStopReference prevState)%float in
    ("New Signal (Short)",
     if JS.gt longPL 0%float then
       let targetDistance := (longTargetLevel prevState - longEntryPrice prevState)%float in
       let actualDistance := longPL in
       let percentageToTarget := JS.Math_min (actualDistance / targetDistance)%float 1%float in
       (percentageToTarget * riskAmount prevState * rewardMultiple cfg * leverageFactor cfg)%float
     else
       let percentageLoss :=
         JS.Math_min (JS.Math_abs longPL / JS.Math_abs longRisk)%float 1%float in
       (- percentageLoss * riskAmount prevState * leverageFactor cfg)%float)
  else ("Unknown", 0%float).

(** The reason and profit or loss of a closed short trade. *)
Definition shortExitOutcome (cfg : Config) (prevState : AlgorithmState)
    (sig : option Signal) (currentClose currentLow : option float)
  : string * float :=
  if JS.le (JS.toNumber currentLow) (shortTargetLevel prevState) then
    ("Target Hit",
     (riskAmount prevState * rewardMultiple cfg * leverageFactor cfg)%float)
  else if signalIs sig "long" then
    let shortPL := (shortEntryPrice prevState - JS.toNumber currentClose)%float in
    let shortRisk := (shortStopReference prevState - shortEntryPrice prevState)%float in
    ("New Signal (Long)",
     if JS.gt shortPL 0%float then
       let targetDistance := (shortEntryPrice prevState - shortTargetLevel prevState)%float in
       let actualDistance := shortPL in
       let percentageToTarget := JS.Math_min (actualDistance / targetDistance)%float 1%float in
       (percentageToTarget * riskAmount prevState * rewardMultiple cfg * leverageFactor cfg)%float
     else
       let percentageLoss :=
         JS.Math_min (JS.Math_abs shortPL / JS.Math_abs shortRisk)%float 1%float in
       (- percentageLoss * riskAmount prevState * leverageFactor cfg)%float)
  else ("Unknown", 0%float).

(** "Check if a long trade was closed": the exit notification, the stats
    panel, and the active long trade cleared. *)
Definition longExitStep (prevState : AlgorithmState) (result : Result.t)
    (currentClose currentHigh : option float) (tr : Trader)
  : Trader * list Effect :=
  if inLongTrade prevState && negb (inLongTrade (state tr)) then
    let '(exitReason, profitLoss) :=
      longExitOutcome (config tr) prevState (Result.signal result)
        currentClose currentHigh in
    (set_activeLongTrade None tr,
     [SendExit
        {| ExitSignal.position := "long";
           ExitSignal.entryPrice := longEntryPrice prevState;
           ExitSignal.exitPrice := currentClose;
           ExitSignal.profitLoss := profitLoss;
           ExitSignal.riskedAmount := riskAmount prevState;
           ExitSignal.reason := exitReason |} (state tr);
      SendStatsPanel (state tr) (Result.stats result)])
  else (tr, []).

(** "Check if a short trade was closed". *)
Definition shortExitStep (prevState : AlgorithmState) (result : Result.t)
    (currentClose currentLow : option float) (tr : Trader)
  : Trader * list Effect :=
  if inShortTrade prevState && negb (inShortTrade (state tr)) then
    let '(exitReason, profitLoss) :=
      shortExitOutcome (config tr) prevState (Result.signal result)
        currentClose currentLow in
    (set_activeShortTrade None tr,
     [SendExit
        {| ExitSignal.position := "short";
           ExitSignal.entryPrice := shortEntryPrice prevState;
           ExitSignal.exitPrice := currentClose;
           ExitSignal.profitLoss := profitLoss;
           ExitSignal.riskedAmount := riskAmount prevState;
           ExitSignal.reason := exitReason |} (state tr);
      SendStatsPanel (state tr) (Result.stats result)])
  else (tr, []).

(** "Process new entry signals": the active trade of the signalled side is
    created with a fresh id and the entry notification is sent. *)
Definition entryStep (now : Z) (result : Result.t)
    (currentClose : option float) (currentTime : option Z) (tr : Trader)
  : Trader * list Effect :=
  match Result.signal result with
  | None => (tr, [])
  | Some sig =>
    if String.eqb (position sig) "long" then
      let '(tid, tr1) := generateTradeId now tr in
      (set_activeLongTrade
         (Some {| ActiveTrade.id := tid;
                  ActiveTrade.entryTime := currentTime;
                  ActiveTrade.entryPrice := currentClose;
                  ActiveTrade.stopLevel := longStopReference (state tr);
                  ActiveTrade.targetLevel := longTargetLevel (state tr);
                  ActiveTrade.riskAmount := riskAmount (state tr) |}) tr1,
       [SendEntry
          {| EntrySignal.position := "long";
             EntrySignal.price := currentClose;
             EntrySignal.stopLevel := longStopReference (state tr);
             EntrySignal.targetLevel := longTargetLevel (state tr) |} (state tr)])
    else if String.eqb (position sig) "short" then
      let '(tid, tr1) := generateTradeId now tr in
      (set_activeShortTrade
         (Some {| ActiveTrade.id := tid;
                  ActiveTrade.entryTime := currentTime;
                  ActiveTrade.entryPrice := currentClose;
                  ActiveTrade.stopLevel := shortStopReference (state tr);
                  ActiveTrade.targetLevel := shortTargetLevel (state tr);
                  ActiveTrade.riskAmount := riskAmount (state tr) |}) tr1,
       [SendEntry
          {| EntrySignal.position := "short";
             EntrySignal.price := currentClose;
             EntrySignal.stopLevel := shortStopReference (state tr);
             EntrySignal.targetLevel := shortTargetLevel (state tr) |} (state tr)])
    else (tr, [])
  end.

(** The stop update of the long side: sent when [activeLongTrade] is set and
    the stop reference changed, and then stored in the active trade. *)
Definition longStopStep (prevState : AlgorithmState) (tr : Trader)
  : Trader * list Effect :=
  match activeLongTrade tr with
  | Some a =>
    if JS.strict_neq (longStopReference prevState) (longStopReference (state tr)) then
      (set_activeLongTrade
         (Some (ActiveTrade.set_stopLevel (longStopReference (state tr)) a)) tr,
       [SendUpdate
          {| StopUpdate.position := "long";
             StopUpdate.previousStop := longStopReference prevState;
             StopUpdate.newStop := longStopReference (state tr);
             StopUpdate.entryPrice := ActiveTrade.entryPrice a;
             StopUpdate.targetLevel := ActiveTrade.targetLevel a |} (state tr)])
    else (tr, [])
  | None => (tr, [])
  end.

(** The stop update of the short side. *)
Definition shortStopStep (prevState : AlgorithmState) (tr : Trader)
  : Trader * list Effect :=
  match activeShortTrade tr with
  | Some a =>
    if JS.strict_neq (shortStopReference prevState) (shortStopReference (state tr)) then
      (set_activeShortTrade
         (Some (ActiveTrade.set_stopLevel (shortStopReference (state tr)) a)) tr,
       [SendUpdate
          {| StopUpdate.position := "short";
             StopUpdate.previousStop := shortStopReference prevState;
             StopUpdate.newStop := shortStopReference (state tr);
             StopUpdate.entryPrice := ActiveTrade.entryPrice a;
             StopUpdate.targetLevel := ActiveTrade.targetLevel a |} (state tr)])
    else (tr, [])
  | None => (tr, [])
  end.

(** [!this.lastStatsUpdate]: unset, or zero. *)
Definition statsNeverSent (tr : Trader) : bool :=
  match lastStatsUpdate tr with
  | None => true
  | Some u => (u =? 0)%Z
  end.

(** The condition of the daily stats panel. *)
Definition heartbeatDue (now : Z) (tr : Trader) : bool :=
  statsNeverSent tr
  || (86400000 <=? now - match lastStatsUpdate tr with Some u => u | None => 0 end)%Z.

(** The daily stats panel.  [hoursSinceLastStatsUpdate >= 24] is the quotient
    of an integer number of milliseconds by 3600000, at least 24 exactly when
    the difference is at least 86400000.  [now] is the clock read of the
    test; [later] is the read made after the awaited panel, which is the one
    stored. *)
Definition heartbeatStep (now later : Z) (result : Result.t) (tr : Trader)
  : Trader * list Effect :=
  let since := match lastStatsUpdate tr with Some u => u | None => 0%Z end in
  if statsNeverSent tr || (86400000 <=? now - since)%Z then
    (set_lastStatsUpdate (Some later) tr,
     [SendStatsPanel (state tr) (Result.stats result)])
  else (tr, []).

Section Pipeline.

(** The external signal engine [jAlgo(candles, state, config)]; [None]
    when the call throws. *)
Variable jAlgo : Candles -> AlgorithmState -> Config -> option Result.t.

(** [processCandle].  The [try] block ends at the first throw: at the
    engine call, or at the debug output when the indicators are missing;
    [this.state] is assigned only after both. *)
Definition processCandle (now : Clock.t) (tr : Trader) : Trader * list Effect :=
  let prevState := state tr in
  let call := CallJAlgo (candles tr) (state tr) in
  match jAlgo (candles tr) (state tr) (config tr) with
  | None => (tr, [call; ConsoleError "Error processing candle:"])
  | Some result =>
    match Result.indicators result with
    | None => (tr, [call; ConsoleError "Error processing candle:"])
    | Some _ =>
      let tr0 := set_state (Result.state result) tr in
      let currentClose := JS.last_of (close (candles tr0)) in
      let currentHigh := JS.last_of (high (candles tr0)) in
      let currentLow := JS.last_of (low (candles tr0)) in
      let currentTime := JS.last_of (closeTime (candles tr0)) in
      let '(tr1, exitsLong) :=
        longExitStep prevState result currentClose currentHigh tr0 in
      let '(tr2, exitsShort) :=
        shortExitStep prevState result currentClose currentLow tr1 in
      let '(tr3, entries) :=
        entryStep (Clock.atId now) result currentClose currentTime tr2 in
      let '(tr4, updatesLong) := longStopStep prevState tr3 in
      let '(tr5, updatesShort) := shortStopStep prevState tr4 in
      let '(tr6, heartbeat) :=
        heartbeatStep (Clock.atCheck now) (Clock.atStore now) result tr5 in
      (tr6,
       [call; ConsoleLog "Indicators:"; ConsoleLog "Signal generated:"]
         ++ exitsLong ++ exitsShort ++ entries ++ updatesLong ++ updatesShort
         ++ [ConsoleLog "Processed candle"; ConsoleLog "Current capital"]
         ++ heartbeat)
    end
  end.

(** [handleMessage]. *)
Definition handleMessage (now : Clock.t) (data : Message) (tr : Trader)
  : Trader * list Effect :=
  match data with
  | Unparseable => (tr, [ConsoleError "Error processing WebSocket message:"])
  | NotKline => (tr, [])
  | KlineEvent kline =>
    if (lastCandleTime tr =? Kline.t kline)%Z then (tr, [])
    else
      let tr1 := set_lastCandleTime (Kline.t kline) tr in
      if Kline.x kline then
        let tr2 := set_candles (appendCandle kline (candles tr1)) tr1 in
        let '(tr3, effects) := processCandle now tr2 in
        (tr3, ConsoleLog "Processing completed candle" :: effects)
      else (tr1, [])
  end.

(** The messages of a stream handled one after the other, each with the
    clock reads of its handler; the effects are concatenated. *)
Fixpoint handleMessages (msgs : list (Clock.t * Message)) (tr : Trader)
  : Trader * list Effect :=
  match msgs with
  | [] => (tr, [])
  | (now, data) :: rest =>
    let '(tr1, effects1) := handleMessage now data tr in
    let '(tr2, effects2) := handleMessages rest tr1 in
    (tr2, effects1 ++ effects2)
  end.

End Pipeline.

(** ** One call of [processCandle], from await to await

    The socket calls [handleMessage] for each message and does not wait for
    the promise it returns.  At each [await] of [processCandle] the call is
    suspended; until it resumes, other handlers run on the same instance.
    The call is thus a sequence of stretches, each run without interruption
    on the instance as it is when the stretch starts.  [sendSignal] and
    [sendStatsPanel] catch their own errors, so an await never throws; their
    payload is built when they are called, before the call is suspended. *)

(** The local constants a call keeps across its awaits. *)
Module Locals.
Record t := mk {
  prevState : AlgorithmState;     (* the copy of this.state taken first *)
  result : Result.t;
  currentClose : option float;
  currentHigh : option float;
  currentLow : option float;
  currentTime : option Z
}.
End Locals.

(** The awaits of [processCandle], in program order. *)
Inductive Await :=
| AwaitLongExit        (* sendSignal, exit of the long trade *)
| AwaitLongStats       (* sendStatsPanel after that exit *)
| AwaitShortExit       (* sendSignal, exit of the short trade *)
| AwaitShortStats      (* sendStatsPanel after that exit *)
| AwaitEntry           (* sendSignal, entry on either side *)
| AwaitLongUpdate      (* sendSignal, stop update of the long trade *)
| AwaitShortUpdate     (* sendSignal, stop update of the short trade *)
| AwaitDailyStats.     (* sendStatsPanel, the daily panel *)

(** What a stretch leaves: the instance, its effects, and the await at which
    the call is now suspended; [None] when the call has ended. *)
Definition Stretch : Type := Trader * list Effect * option Await.

(** From the two console lines before the daily panel to the end. *)
Definition dailyStatsCheck (now : Clock.t) (L : Locals.t) (tr : Trader) : Stretch :=
  let logs := [ConsoleLog "Processed candle"; ConsoleLog "Current capital"] in
  if heartbeatDue (Clock.atCheck now) tr then
    (tr,
     logs ++ [SendStatsPanel (state tr) (Result.stats (Locals.result L))],
     Some AwaitDailyStats)
  else (tr, logs, None).

(** From the test of the short stop reference on. *)
Definition shortStopCheck (now : Clock.t) (L : Locals.t) (tr : Trader) : Stretch :=
  match activeShortTrade tr with
  | Some a =>
    if JS.strict_neq (shortStopReference (Locals.prevState L))
         (shortStopReference (state tr)) then
      (tr,
       [SendUpdate
          {| StopUpdate.position := "short";
             StopUpdate.previousStop := shortStopReference (Locals.prevState L);
             StopUpdate.newStop := shortStopReference (state tr);
             StopUpdate.entryPrice := ActiveTrade.entryPrice a;
             StopUpdate.targetLevel := ActiveTrade.targetLevel a |} (state tr)],
       Some AwaitShortUpdate)
    else dailyStatsCheck now L tr
  | None => dailyStatsCheck now L tr
  end.

(** From the test of the long stop reference on. *)
Definition longStopCheck (now : Clock.t) (L : Locals.t) (tr : Trader) : Stretch :=
  match activeLongTrade tr with
  | Some a =>
    if JS.strict_neq (longStopReference (Locals.prevState L))
         (longStopReference (state tr)) then
      (tr,
       [SendUpdate
          {| StopUpdate.position := "long";
             StopUpdate.previousStop := longStopReference (Locals.prevState L);
             StopUpdate.newStop := longStopReference (state tr);
             StopUpdate.entryPrice := ActiveTrade.entryPrice a;
             StopUpdate.targetLevel := ActiveTrade.targetLevel a |} (state tr)],
       Some AwaitLongUpdate)
    else shortStopCheck now L tr
  | None => shortStopCheck now L tr
  end.

(** From "Process new entry signals" on.  On a long or a short signal the
    active trade is created and the entry sent, as [entryStep] does, and the
    call waits for the entry to be sent. *)
Definition entryCheck (now : Clock.t) (L : Locals.t) (tr : Trader) : Stretch :=
  let signal := Result.signal (Locals.result L) in
  if signalIs signal "long" || signalIs signal "short" then
    let '(tr1, effects) :=
      entryStep (Clock.atId now) (Locals.result L)
        (Locals.currentClose L) (Locals.currentTime L) tr in
    (tr1, effects, Some AwaitEntry)
  else longStopCheck now L tr.

(** From "Check if a short trade was closed" on. *)
Definition shortExitCheck (now : Clock.t) (L : Locals.t) (tr : Trader) : Stretch :=
  if inShortTrade (Locals.prevState L) && negb (inShortTrade (state tr)) then
    let '(exitReason, profitLoss) :=
      shortExitOutcome (config tr) (Locals.prevState L)
        (Result.signal (Locals.result L))
        (Locals.currentClose L) (Locals.currentLow L) in
    (tr,
     [SendExit
        {| ExitSignal.position := "short";
           ExitSignal.entryPrice := shortEntryPrice (Locals.prevState L);
           ExitSignal.exitPrice := Locals.currentClose L;
           ExitSignal.profitLoss := profitLoss;
           ExitSignal.riskedAmount := riskAmount (Locals.prevState L);
           ExitSignal.reason := exitReason |} (state tr)],
     Some AwaitShortExit)
  else entryCheck now L tr.

(** From "Check if a long trade was closed" on. *)
Definition longExitCheck (now : Clock.t) (L : Locals.t) (tr : Trader) : Stretch :=
  if inLongTrade (Locals.prevState L) && negb (inLongTrade (state tr)) then
    let '(exitReason, profitLoss) :=
      longExitOutcome (config tr) (Locals.prevState L)
        (Result.signal (Locals.result L))
        (Locals.currentClose L) (Locals.currentHigh L) in
    (tr,
     [SendExit
        {| ExitSignal.position := "long";
           ExitSignal.entryPrice := longEntryPrice (Locals.prevState L);
           ExitSignal.exitPrice := Locals.currentClose L;
           ExitSignal.profitLoss := profitLoss;
           ExitSignal.riskedAmount := riskAmount (Locals.prevState L);
           ExitSignal.reason := exitReason |} (state tr)],
     Some AwaitLongExit)
  else shortExitCheck now L tr.

(** The stretch that follows an await, on the instance as it is when the
    call resumes.  After a stop update the new reference is stored in
    [this.activeLongTrade] / [this.activeShortTrade] as it is then; when it
    is [null] by then, the assignment throws and the [catch] ends the call. *)
Definition resumeAt (now : Clock.t) (L : Locals.t) (a : Await) (tr : Trader)
  : Stretch :=
  match a with
  | AwaitLongExit =>
    (tr, [SendStatsPanel (state tr) (Result.stats (Locals.result L))],
     Some AwaitLongStats)
  | AwaitLongStats => shortExitCheck now L (set_activeLongTrade None tr)
  | AwaitShortExit =>
    (tr, [SendStatsPanel (state tr) (Result.stats (Locals.result L))],
     Some AwaitShortStats)
  | AwaitShortStats => entryCheck now L (set_activeShortTrade None tr)
  | AwaitEntry => longStopCheck now L tr
  | AwaitLongUpdate =>
    match activeLongTrade tr with
    | Some trade =>
      shortStopCheck now L
        (set_activeLongTrade
           (Some (ActiveTrade.set_stopLevel (longStopReference (state tr)) trade))
           tr)
    | None => (tr, [ConsoleError "Error processing candle:"], None)
    end
  | AwaitShortUpdate =>
    match activeShortTrade tr with
    | Some trade =>
      dailyStatsCheck now L
        (set_activeShortTrade
           (Some (ActiveTrade.set_stopLevel (shortStopReference (state tr)) trade))
           tr)
    | None => (tr, [ConsoleError "Error processing candle:"], None)
    end
  | AwaitDailyStats => (set_lastStatsUpdate (Some (Clock.atStore now)) tr, [], None)
  end.

(** The local constants of a call that found the instance [tr] and got
    [result] from the engine: the state copied before the engine ran, and
    the last entries of the window. *)
Definition localsOf (tr : Trader) (result : Result.t) : Locals.t :=
  {| Locals.prevState := state tr;
     Locals.result := result;
     Locals.currentClose := JS.last_of (close (candles tr));
     Locals.currentHigh := JS.last_of (high (candles tr));
     Locals.currentLow := JS.last_of (low (candles tr));
     Locals.currentTime := JS.last_of (closeTime (candles tr)) |}.

(** A suspended call: where it waits, and its local constants. *)
Module Task.
Record t := mk {
  await : Await;
  locals : Locals.t
}.
End Task.

Definition suspendedAt (L : Locals.t) (next : option Await) : option Task.t :=
  match next with
  | Some a => Some (Task.mk a L)
  | None => None
  end.

Section Awaits.

Variable jAlgo : Candles -> AlgorithmState -> Config -> option Result.t.

(** [processCandle] up to its first await. *)
Definition beginProcessCandle (now : Clock.t) (tr : Trader)
  : Trader * list Effect * option Task.t :=
  let call := CallJAlgo (candles tr) (state tr) in
  match jAlgo (candles tr) (state tr) (config tr) with
  | None => (tr, [call; ConsoleError "Error processing candle:"], None)
  | Some result =>
    match Result.indicators result with
    | None => (tr, [call; ConsoleError "Error processing candle:"], None)
    | Some _ =>
      let L := localsOf tr result in
      let tr0 := set_state (Result.state result) tr in
      let '(tr1, effects, next) := longExitCheck now L tr0 in
      (tr1,
       [call; ConsoleLog "Indicators:"; ConsoleLog "Signal generated:"] ++ effects,
       suspendedAt L next)
    end
  end.

(** [handleMessage] up to the first await of its call of [processCandle];
    what is left of [handleMessage] once that call has ended does nothing. *)
Definition beginHandleMessage (now : Clock.t) (data : Message) (tr : Trader)
  : Trader * list Effect * option Task.t :=
  match data with
  | Unparseable =>
    (tr, [ConsoleError "Error processing WebSocket message:"], None)
  | NotKline => (tr, [], None)
  | KlineEvent kline =>
    if (lastCandleTime tr =? Kline.t kline)%Z then (tr, [], None)
    else
      let tr1 := set_lastCandleTime (Kline.t kline) tr in
      if Kline.x kline then
        let tr2 := set_candles (appendCandle kline (candles tr1)) tr1 in
        let '(tr3, effects, task) := beginProcessCandle now tr2 in
        (tr3, ConsoleLog "Processing completed candle" :: effects, task)
      else (tr1, [], None)
  end.

End Awaits.

(** A suspended call goes on, up to its next await or to its end. *)
Definition resumeProcessCandle (now : Clock.t) (task : Task.t) (tr : Trader)
  : Trader * list Effect * option Task.t :=
  let '(tr1, effects, next) :=
    resumeAt now (Task.locals task) (Task.await task) tr in
  (tr1, effects, suspendedAt (Task.locals task) next).

(** A call that nothing interrupts: each time it is suspended it is the next
    to run.  A call has eight awaits, so [fuel] 8 takes it to its end. *)
Fixpoint runAlone (fuel : nat) (now : Clock.t)
    (r : Trader * list Effect * option Task.t) : Trader * list Effect :=
  match r with
  | (tr, effects, None) => (tr, effects)
  | (tr, effects, Some task) =>
    match fuel with
    | O => (tr, effects)
    | S fuel' =>
      let '(tr1, effects1) :=
        runAlone fuel' now (resumeProcessCandle now task tr) in
      (tr1, effects ++ effects1)
    end
  end.

(** ** Observations on a list of effects *)

(** The exit notifications of one side, in order. *)
Fixpoint exitsOf (side : string) (effects : list Effect) : list ExitSignal.t :=
  match effects with
  | [] => []
  | SendExit e _ :: rest =>
    if String.eqb (ExitSignal.position e) side
    then e :: exitsOf side rest else exitsOf side rest
  | _ :: rest => exitsOf side rest
  end.

(** The stop-update notifications of one side, in order. *)
Fixpoint updatesOf (side : string) (effects : list Effect) : list StopUpdate.t :=
  match effects with
  | [] => []
  | SendUpdate u _ :: rest =>
    if String.eqb (StopUpdate.position u) side
    then u :: updatesOf side rest else updatesOf side rest
  | _ :: rest => updatesOf side rest
  end.

(** The lengths of the seven arrays of the window. *)
Definition lengths (cs : Candles) : list nat :=
  [List.length (openTime cs); List.length (open cs); List.length (high cs);
   List.length (low cs); List.length (close cs); List.length (volume cs);
   List.length (closeTime cs)].

(** Notifications and console output: what the message pipeline does
    besides calling the engine. *)
Definition isOutput (e : Effect) : bool :=
  match e with
  | SendExit _ _ | SendEntry _ _ | SendUpdate _ _ | SendStatsPanel _ _
  | ConsoleLog _ | ConsoleError _ => true
  | _ => false
  end.

(** How often the engine was invoked. *)
Fixpoint engineCalls (effects : list Effect) : nat :=
  match effects with
  | [] => 0
  | CallJAlgo _ _ :: rest => S (engineCalls rest)
  | _ :: rest => engineCalls rest
  end.

(** The open times of the closed klines of a stream, in order. *)
Fixpoint closedTimes (msgs : list (Clock.t * Message)) : list Z :=
  match msgs with
  | [] => []
  | (_, KlineEvent k) :: rest =>
    if Kline.x k then Kline.t k :: closedTimes rest else closedTimes rest
  | _ :: rest => closedTimes rest
  end.

(** ** Connection management *)

(** [attemptReconnect].  With [reconnectDelay] at 1000 the product
    [reconnectDelay * Math.pow(2, reconnectAttempts - 1)] is an integer that
    binary64 holds exactly until it overflows to Infinity, far above the cap,
    so the integer minimum is the delay the source computes. *)
Definition attemptReconnect (tr : Trader) : Trader * list Effect :=
  if (maxReconnectAttempts tr <=? reconnectAttempts tr)%nat then
    (tr, [ConsoleError "Maximum reconnection attempts reached. Giving up."])
  else
    let tr1 := set_reconnectAttempts (S (reconnectAttempts tr)) tr in
    let delay :=
      Z.min 30000
        (reconnectDelay tr1 * 2 ^ (Z.of_nat (reconnectAttempts tr1) - 1))%Z in
    (tr1, [ConsoleLog "Attempting to reconnect"; SetTimeout (ReconnectTimer delay)]).

(** [connectWebSocket]: the existing socket, if any, is terminated, a new
    one is created and stored, and the 10 second guard is set.  [fresh] is
    the handle of the socket that [new WebSocket] creates. *)
Definition connectWebSocket (fresh : nat) (tr : Trader) : Trader * list Effect :=
  let terminated :=
    match socket tr with
    | Some s => [Terminate s]
    | None => []
    end in
  (set_socket (Some fresh) tr,
   terminated ++ [NewWebSocket fresh; SetTimeout (ConnectTimeout 10000)]).

(** The ['open'] handler of a socket. *)
Definition onOpen (tr : Trader) : Trader * list Effect :=
  (set_reconnectDelay 1000
     (set_reconnectAttempts 0 (set_isConnected true tr)),
   [ConsoleLog "WebSocket connected"]).

(** The ['error'] handler of a socket. *)
Definition onError (tr : Trader) : Trader * list Effect :=
  (set_isConnected false tr, [ConsoleError "WebSocket error:"]).

(** The ['close'] handler of a socket. *)
Definition onClose (tr : Trader) : Trader * list Effect :=
  let '(tr1, effects) := attemptReconnect (set_isConnected false tr) in
  (tr1, ConsoleLog "WebSocket disconnected" :: effects).

(** The callback of the 10 second guard.  It reads [this.socket] at the time
    it runs; on [null] the call of [terminate] is an uncaught TypeError. *)
Definition onConnectTimeout (tr : Trader) : Trader * list Effect :=
  if negb (isConnected tr) then
    (tr,
     ConsoleError "WebSocket connection timeout"
       :: match socket tr with
          | Some s => [Terminate s]
          | None => [UncaughtTypeError]
          end)
  else (tr, []).

(** The callback of the backoff wait: the snapshot is fetched again
    ([None] when [fetchBinanceData] throws) and the socket reopened. *)
Definition onReconnectTimer (fetched : option Candles) (fresh : nat) (tr : Trader)
  : Trader * list Effect :=
  match fetched with
  | None =>
    (tr, [ConsoleError "Error fetching data from Binance:";
          ConsoleError "Reconnection failed:"])
  | Some snapshot => connectWebSocket fresh (set_candles snapshot tr)
  end.

(** [stop]. *)
Definition stop (tr : Trader) : Trader * list Effect :=
  let '(tr1, terminated) :=
    match socket tr with
    | Some s => (set_socket None tr, [Terminate s])
    | None => (tr, [])
    end in
  (set_isConnected false tr1, terminated ++ [ConsoleLog "Live trader stopped"]).

(** The fields that the connection logic owns. *)
Definition connection (tr : Trader) : option nat * bool * nat * nat * Z :=
  (socket tr, isConnected tr, reconnectAttempts tr, maxReconnectAttempts tr,
   reconnectDelay tr).

(** What the trade bookkeeping of [processCandle] never touches. *)
Definition fixedPart (tr : Trader)
  : Config * Candles * (option nat * bool * nat * nat * Z) * Z :=
  (config tr, candles tr, connection tr, lastCandleTime tr).

(** [n] calls of [attemptReconnect] in a row, as [n] closes with no open in
    between make them; the effects are concatenated. *)
Fixpoint attemptReconnects (n : nat) (tr : Trader) : Trader * list Effect :=
  match n with
  | O => (tr, [])
  | S m =>
    let '(tr1, effects1) := attemptReconnect tr in
    let '(tr2, effects2) := attemptReconnects m tr1 in
    (tr2, effects1 ++ effects2)
  end.

(** The delays of the backoff waits among the effects, in order. *)
Fixpoint backoffDelays (effects : list Effect) : list Z :=
  match effects with
  | [] => []
  | SetTimeout (ReconnectTimer ms) :: rest => ms :: backoffDelays rest
  | _ :: rest => backoffDelays rest
  end.

(** How many sockets were created. *)
Fixpoint connectionAttempts (effects : list Effect) : nat :=
  match effects with
  | [] => 0
  | NewWebSocket _ :: rest => S (connectionAttempts rest)
  | _ :: rest => connectionAttempts rest
  end.

(** ** The event loop around one trader

    The environment of the instance: the sockets it created, with the
    [readyState] of the [ws] library, and the timers it set.  A socket emits
    ['open'] only while connecting, ['message'] only while open, and
    ['close'] once; [terminate()] does nothing to a closed socket and
    otherwise leaves the socket closing, its ['close'] still to come.  A
    timer fires once; the source keeps no timer handle and clears none.
    The calls of [processCandle] that wait at an await are kept with their
    local constants; any of them may be the next to go on, and so may any
    other event. *)

Inductive ReadyState := CONNECTING | OPEN | CLOSING | CLOSED.

Record World := mkWorld {
  trader : Trader;
  sockets : list ReadyState;      (* by socket handle *)
  timers : list Timer;            (* pending, in the order they were set *)
  trace : list Effect;            (* everything done so far, in order *)
  crashed : bool;                 (* an uncaught exception ended the process *)
  suspended : list Task.t         (* calls of processCandle at an await *)
}.

Inductive Event :=
| WsOpen (s : nat)
| WsError (s : nat)
| WsClose (s : nat)
| WsMessage (s : nat) (now : Clock.t) (data : Message)
| Resumes (i : nat) (now : Clock.t)    (* the i-th suspended call goes on *)
| TimerFires (i : nat) (fetched : option Candles)
| CallStop.

Definition isClosed (r : ReadyState) : bool :=
  match r with CLOSED => true | _ => false end.

(** The socket [s] gets the ready state [r]. *)
Fixpoint setReadyState (s : nat) (r : ReadyState) (socks : list ReadyState)
  : list ReadyState :=
  match socks, s with
  | [], _ => []
  | _ :: rest, O => r :: rest
  | r0 :: rest, S s' => r0 :: setReadyState s' r rest
  end.

(** [terminate()] on the socket [s]. *)
Definition terminateSocket (s : nat) (socks : list ReadyState) : list ReadyState :=
  match nth_error socks s with
  | Some CLOSED | None => socks
  | Some _ => setReadyState s CLOSING socks
  end.

(** The [i]-th entry, a pending timer or a suspended call, is taken out. *)
Fixpoint removeNth {A : Type} (i : nat) (l : list A) : list A :=
  match l, i with
  | [], _ => []
  | _ :: rest, O => rest
  | a :: rest, S i' => a :: removeNth i' rest
  end.

(** What one effect does to the environment. *)
Definition perform (w : World) (e : Effect) : World :=
  let w1 :=
    mkWorld (trader w) (sockets w) (timers w) (trace w ++ [e]) (crashed w)
      (suspended w) in
  match e with
  | SetTimeout tm =>
    mkWorld (trader w1) (sockets w1) (timers w1 ++ [tm]) (trace w1) (crashed w1)
      (suspended w1)
  | NewWebSocket _ =>
    mkWorld (trader w1) (sockets w1 ++ [CONNECTING]) (timers w1) (trace w1)
      (crashed w1) (suspended w1)
  | Terminate s =>
    mkWorld (trader w1) (terminateSocket s (sockets w1)) (timers w1) (trace w1)
      (crashed w1) (suspended w1)
  | UncaughtTypeError =>
    mkWorld (trader w1) (sockets w1) (timers w1) (trace w1) true (suspended w1)
  | _ => w1
  end.

(** A handler has run: the instance is replaced and its effects performed. *)
Definition deliver (w : World) (r : Trader * list Effect) : World :=
  fold_left perform (snd r)
    (mkWorld (fst r) (sockets w) (timers w) (trace w) (crashed w) (suspended w)).

Definition withSockets (socks : list ReadyState) (w : World) : World :=
  mkWorld (trader w) socks (timers w) (trace w) (crashed w) (suspended w).

Definition withTimers (tms : list Timer) (w : World) : World :=
  mkWorld (trader w) (sockets w) tms (trace w) (crashed w) (suspended w).

Definition withSuspended (tasks : list Task.t) (w : World) : World :=
  mkWorld (trader w) (sockets w) (timers w) (trace w) (crashed w) tasks.

(** The call that a stretch leaves suspended, if any. *)
Definition waiting (task : option Task.t) : list Task.t :=
  match task with
  | Some t => [t]
  | None => []
  end.

Section EventLoop.

Variable jAlgo : Candles -> AlgorithmState -> Config -> option Result.t.

(** One event; [None] when the environment cannot produce it. *)
Definition step (w : World) (ev : Event) : option World :=
  if crashed w then None
  else
    match ev with
    | WsOpen s =>
      match nth_error (sockets w) s with
      | Some CONNECTING =>
        Some (deliver (withSockets (setReadyState s OPEN (sockets w)) w)
                (onOpen (trader w)))
      | _ => None
      end
    | WsError s =>
      match nth_error (sockets w) s with
      | Some CLOSED | None => None
      | Some _ =>
        Some (deliver (withSockets (setReadyState s CLOSING (sockets w)) w)
                (onError (trader w)))
      end
    | WsClose s =>
      match nth_error (sockets w) s with
      | Some CLOSED | None => None
      | Some _ =>
        Some (deliver (withSockets (setReadyState s CLOSED (sockets w)) w)
                (onClose (trader w)))
      end
    | WsMessage s now data =>
      match nth_error (sockets w) s with
      | Some OPEN =>
        let '(tr1, effects, task) :=
          beginHandleMessage jAlgo now data (trader w) in
        Some (deliver (withSuspended (suspended w ++ waiting task) w)
                (tr1, effects))
      | _ => None
      end
    | Resumes i now =>
      match nth_error (suspended w) i with
      | Some task =>
        let '(tr1, effects, next) := resumeProcessCandle now task (trader w) in
        Some (deliver
                (withSuspended (removeNth i (suspended w) ++ waiting next) w)
                (tr1, effects))
      | None => None
      end
    | TimerFires i fetched =>
      match nth_error (timers w) i with
      | Some (ConnectTimeout _) =>
        Some (deliver (withTimers (removeNth i (timers w)) w)
                (onConnectTimeout (trader w)))
      | Some (ReconnectTimer _) =>
        Some (deliver (withTimers (removeNth i (timers w)) w)
                (onReconnectTimer fetched (List.length (sockets w)) (trader w)))
      | None => None
      end
    | CallStop => Some (deliver w (stop (trader w)))
    end.

(** A sequence of events. *)
Fixpoint run (w : World) (evs : list Event) : option World :=
  match evs with
  | [] => Some w
  | ev :: rest =>
    match step w ev with
    | Some w1 => run w1 rest
    | None => None
    end
  end.

End EventLoop.

(** The world in which [initialize()] has just called [connectWebSocket] on a
    new instance. *)
Definition initialWorld (cfg : Config) (snapshot : Candles) (st : AlgorithmState)
  : World :=
  deliver (mkWorld (newTrader cfg snapshot st) [] [] [] false [])
    (connectWebSocket 0 (newTrader cfg snapshot st)).

(** The sockets that may still emit events, and the backoff waits pending. *)
Fixpoint openSockets (socks : list ReadyState) : nat :=
  match socks with
  | [] => 0
  | r :: rest => (if isClosed r then 0 else 1) + openSockets rest
  end.

Fixpoint pendingReconnects (tms : list Timer) : nat :=
  match tms with
  | [] => 0
  | ReconnectTimer _ :: rest => S (pendingReconnects rest)
  | ConnectTimeout _ :: rest => pendingReconnects rest
  end.

Definition live (w : World) : nat :=
  openSockets (sockets w) + pendingReconnects (timers w).

(** The sockets created and the backoff waits started among the effects. *)
Fixpoint spawned (effects : list Effect) : nat :=
  match effects with
  | [] => 0
  | NewWebSocket _ :: rest => S (spawned rest)
  | SetTimeout (ReconnectTimer _) :: rest => S (spawned rest)
  | _ :: rest => spawned rest
  end.

(** ** Sample inputs *)

Module Sample.

Local Open Scope float_scope.

(** [DEFAULT_CONFIG] with no environment variable set. *)
Definition defaultConfig : Config :=
  {| symbol := "BTCUSDT"; interval := "5m"; isFutures := false;
     rewardMultiple := 1.5; initialCapital := 100; riskPerTrade := 10;
     useLeverage := false; leverageAmount := 2 |}.

(** No position on either side. *)
Definition flat : AlgorithmState :=
  {| inLongTrade := false; inShortTrade := false;
     longEntryPrice := 0; shortEntryPrice := 0;
     longStopReference := 0; shortStopReference := 0;
     longTargetLevel := 0; shortTargetLevel := 0;
     riskAmount := 10; currentCapital := 100; totalProfitLoss := 0 |}.

(** A long position entered at 100 with its target at 105 and 10 at risk. *)
Definition longOpen : AlgorithmState :=
  {| inLongTrade := true; inShortTrade := false;
     longEntryPrice := 100; shortEntryPrice := 0;
     longStopReference := 95; shortStopReference := 0;
     longTargetLevel := 105; shortTargetLevel := 0;
     riskAmount := 10; currentCapital := 100; totalProfitLoss := 0 |}.

(** The engine's state once that long position is closed at its target. *)
Definition longClosed : AlgorithmState :=
  {| inLongTrade := false; inShortTrade := false;
     longEntryPrice := 100; shortEntryPrice := 0;
     longStopReference := 95; shortStopReference := 0;
     longTargetLevel := 105; shortTargetLevel := 0;
     riskAmount := 11.5; currentCapital := 115; totalProfitLoss := 15 |}.

(** The engine's state once the long position gave way to a short one
    entered at 103. *)
Definition flippedShort : AlgorithmState :=
  {| inLongTrade := false; inShortTrade := true;
     longEntryPrice := 100; shortEntryPrice := 103;
     longStopReference := 95; shortStopReference := 108;
     longTargetLevel := 105; shortTargetLevel := 95.5;
     riskAmount := 10.5; currentCapital := 109; totalProfitLoss := 9 |}.

(** A short position entered at 100 with its target at 95. *)
Definition shortOpen : AlgorithmState :=
  {| inLongTrade := false; inShortTrade := true;
     longEntryPrice := 0; shortEntryPrice := 100;
     longStopReference := 0; shortStopReference := 105;
     longTargetLevel := 0; shortTargetLevel := 95;
     riskAmount := 10; currentCapital := 100; totalProfitLoss := 0 |}.

Definition someStats : Stats :=
  {| totalLongTrades := 1; totalShortTrades := 0;
     overallWinRate := 100; efficiency := 100 |}.

Definition someIndicators : Indicators :=
  {| defATR := [1; 1; 1]; var_ma := [100; 101; 102];
     scalpLine := [100; 101; 102] |}.

(** Three five-minute candles; the last one has the given high, low and
    close. *)
Definition window (hi lo cl : float) : Candles :=
  {| openTime := [300000; 600000; 900000]%Z;
     open := [99; 100; 101];
     high := [100.5; 101.5; hi];
     low := [98.5; 99.5; lo];
     close := [100; 101; cl];
     volume := [12; 15; 9];
     closeTime := [599999; 899999; 1199999]%Z |}.

(** An engine that answers every call with the same state and signal. *)
Definition resultWith (st : AlgorithmState) (sig : option Signal) : Result.t :=
  {| Result.state := st; Result.signal := sig;
     Result.stats := someStats;
     Result.indicators := Some someIndicators |}.

Definition engineReturning (st : AlgorithmState) (sig : option Signal)
  : Candles -> AlgorithmState -> Config -> option Result.t :=
  fun _ _ _ => Some (resultWith st sig).

(** An engine whose call throws. *)
Definition engineThrowing
  : Candles -> AlgorithmState -> Config -> option Result.t :=
  fun _ _ _ => None.

(** The update of the candle that opens at 1200000, still forming. *)
Definition formingTick : Kline.payload :=
  {| Kline.t := 1200000; Kline.T := 1499999;
     Kline.o := 102; Kline.h := 103; Kline.l := 101.5; Kline.c := 102.5;
     Kline.v := 4; Kline.x := false |}.

(** The last update of the same candle, closed. *)
Definition closingTick : Kline.payload :=
  {| Kline.t := 1200000; Kline.T := 1499999;
     Kline.o := 102; Kline.h := 104; Kline.l := 101.5; Kline.c := 103;
     Kline.v := 11; Kline.x := true |}.

(** The close of the candle that opens at 900000, the last one of
    [window]. *)
Definition closingTickOfLast : Kline.payload :=
  {| Kline.t := 900000; Kline.T := 1199999;
     Kline.o := 101; Kline.h := 102.5; Kline.l := 100.5; Kline.c := 102;
     Kline.v := 10; Kline.x := true |}.

(** A closed candle that opens at the given time. *)
Definition closedTick (openedAt : Z) : Kline.payload :=
  {| Kline.t := openedAt; Kline.T := openedAt + 299999;
     Kline.o := 102; Kline.h := 103; Kline.l := 101; Kline.c := 102.5;
     Kline.v := 7; Kline.x := true |}.

(** A trader just initialized on [window 102.5 100.5 102]. *)
Definition freshTrader (st : AlgorithmState) : Trader :=
  newTrader defaultConfig (window 102.5 100.5 102) st.

(** A trader holding the long position of [longOpen], on a window whose
    last candle has the given high, low and close. *)
Definition longTrader (hi lo cl : float) : Trader :=
  set_activeLongTrade
    (Some {| ActiveTrade.id := mkTradeId "BTCUSDT" 600000 1;
             ActiveTrade.entryTime := Some 899999%Z;
             ActiveTrade.entryPrice := Some 100;
             ActiveTrade.stopLevel := 95;
             ActiveTrade.targetLevel := 105;
             ActiveTrade.riskAmount := 10 |})
    (set_lastStatsUpdate (Some 600000%Z)
       (newTrader defaultConfig (window hi lo cl) longOpen)).

(** A trader holding the short position of [shortOpen]. *)
Definition shortTrader (hi lo cl : float) : Trader :=
  set_activeShortTrade
    (Some {| ActiveTrade.id := mkTradeId "BTCUSDT" 600000 1;
             ActiveTrade.entryTime := Some 899999%Z;
             ActiveTrade.entryPrice := Some 100;
             ActiveTrade.stopLevel := 105;
             ActiveTrade.targetLevel := 95;
             ActiveTrade.riskAmount := 10 |})
    (set_lastStatsUpdate (Some 600000%Z)
       (newTrader defaultConfig (window hi lo cl) shortOpen)).

(** [n] connections in a row that fail: the socket [s] closes without
    having opened, and the backoff wait that follows, pending behind the
    [s + 1] guards set so far, fires with a fresh snapshot. *)
Definition failingRounds (n : nat) : list Event :=
  flat_map
    (fun s => [WsClose s; TimerFires (S s) (Some (window 102.5 100.5 102))])
    (seq 0 n).

(** The world of a trader just initialized on the sample window. *)
Definition startWorld : World :=
  initialWorld defaultConfig (window 102.5 100.5 102) flat.

(** The engine of the sample runs: it keeps the trader flat. *)
Definition idleEngine : Candles -> AlgorithmState -> Config -> option Result.t :=
  engineReturning flat None.

(** The world once the first socket has opened. *)
Definition connected : World :=
  Eval vm_compute in
    match step idleEngine startWorld (WsOpen 0) with
    | Some w => w
    | None => startWorld
    end.

(** The world after ten failed connections in a row, the eleventh socket
    still connecting. *)
Definition afterTenFailures : World :=
  Eval vm_compute in
    match run idleEngine startWorld (failingRounds 10) with
    | Some w => w
    | None => startWorld
    end.

(** That world once the eleventh socket has closed as well. *)
Definition afterGivingUp : World :=
  Eval vm_compute in
    match step idleEngine afterTenFailures (WsClose 10) with
    | Some w => w
    | None => startWorld
    end.

(** And once the guards have fired and [stop] was called. *)
Definition longAfterGivingUp : World :=
  Eval vm_compute in
    match run idleEngine afterGivingUp
            [TimerFires 0 None; CallStop; TimerFires 0 None] with
    | Some w => w
    | None => startWorld
    end.

(** The world of a trader that was connected, lost its connection and
    waits for its first reconnect attempt. *)
Definition inBackoff : World :=
  Eval vm_compute in
    match run idleEngine startWorld [WsOpen 0; WsClose 0] with
    | Some w => w
    | None => startWorld
    end.

(** That world after a call of [stop]. *)
Definition stoppedInBackoff : World :=
  Eval vm_compute in
    match step idleEngine inBackoff CallStop with
    | Some w => w
    | None => startWorld
    end.

(** And after the backoff wait has then fired. *)
Definition reconnectedAfterStop : World :=
  Eval vm_compute in
    match step idleEngine stoppedInBackoff
            (TimerFires 1 (Some (window 102.5 100.5 102))) with
    | Some w => w
    | None => startWorld
    end.

End Sample.


(** ** The snapshot fetch and the window as a list of candles *)

(** One candle of the window: a kline row of the exchange's response with
    its five price and volume strings parsed. *)
Module Candle.
Record t := mk {
  openTime : Z;
  open : float;
  high : float;
  low : float;
  close : float;
  volume : float;
  closeTime : Z
}.
End Candle.

(** "Format the data into OHLC format": one array per column. *)
Definition formatKlines (data : list Candle.t) : Candles :=
  {| openTime := map Candle.openTime data;
     open := map Candle.open data;
     high := map Candle.high data;
     low := map Candle.low data;
     close := map Candle.close data;
     volume := map Candle.volume data;
     closeTime := map Candle.closeTime data |}.

(** [fetchBinanceData], from the parsed response on: [None] as response is a
    payload that is not an array, on which the function throws. *)
Definition fetchBinanceData (response : option (list Candle.t)) : option Candles :=
  match response with
  | Some data => Some (formatKlines data)
  | None => None
  end.

(** The window read back row by row: the entries of the seven arrays at the
    same index, as far as all seven reach. *)
Definition rowsOf (cs : Candles) : list Candle.t :=
  map (fun '(t, (o, (h, (l, (c, (v, T)))))) => Candle.mk t o h l c v T)
    (combine (openTime cs)
       (combine (open cs)
          (combine (high cs)
             (combine (low cs)
                (combine (close cs)
                   (combine (volume cs) (closeTime cs))))))).

(** The seven arrays have the same length. *)
Definition rectangular (cs : Candles) : Prop :=
  lengths cs = repeat (List.length (openTime cs)) 7.

(** The candle a kline payload carries. *)
Definition candleOf (k : Kline.payload) : Candle.t :=
  {| Candle.openTime := Kline.t k;
     Candle.open := Kline.o k;
     Candle.high := Kline.h k;
     Candle.low := Kline.l k;
     Candle.close := Kline.c k;
     Candle.volume := Kline.v k;
     Candle.closeTime := Kline.T k |}.

(** The klines of a stream that [handleMessage] appends to the window, in
    order, when [lastCandleTime] is [last] at the start: the closed ones whose
    open time differs from that of the kline before them. *)
Fixpoint appended (last : Z) (msgs : list (Clock.t * Message))
  : list Kline.payload :=
  match msgs with
  | [] => []
  | (_, KlineEvent k) :: rest =>
    if (last =? Kline.t k)%Z then appended last rest
    else if Kline.x k then k :: appended (Kline.t k) rest
    else appended (Kline.t k) rest
  | _ :: rest => appended last rest
  end.

(** A message that carries a kline. *)
Definition isKline (msg : Clock.t * Message) : bool :=
  match snd msg with
  | KlineEvent _ => true
  | _ => false
  end.

(** ** Further observations on a list of effects *)

(** The entry notifications, in order. *)
Fixpoint entriesOf (effects : list Effect) : list EntrySignal.t :=
  match effects with
  | [] => []
  | SendEntry e _ :: rest => e :: entriesOf rest
  | _ :: rest => entriesOf rest
  end.

(** How many stats panels were sent. *)
Fixpoint statsPanels (effects : list Effect) : nat :=
  match effects with
  | [] => 0
  | SendStatsPanel _ _ :: rest => S (statsPanels rest)
  | _ :: rest => statsPanels rest
  end.

(** The trade notifications by kind, in order: 0 for an exit, 1 for an
    entry, 2 for a stop update. *)
Fixpoint kinds (effects : list Effect) : list nat :=
  match effects with
  | [] => []
  | SendExit _ _ :: rest => 0 :: kinds rest
  | SendEntry _ _ :: rest => 1 :: kinds rest
  | SendUpdate _ _ :: rest => 2 :: kinds rest
  | _ :: rest => kinds rest
  end.

(** The active trades carry ids issued by this instance, and not the same
    one. *)
Definition idsFresh (tr : Trader) : Prop :=
  (forall a, activeLongTrade tr = Some a ->
             (id_counter (ActiveTrade.id a) <= tradeIdCounter tr)%Z)
  /\ (forall a, activeShortTrade tr = Some a ->
                (id_counter (ActiveTrade.id a) <= tradeIdCounter tr)%Z)
  /\ (forall a b, activeLongTrade tr = Some a -> activeShortTrade tr = Some b ->
                  id_counter (ActiveTrade.id a) <> id_counter (ActiveTrade.id b)).

(** The attempt counter is within the maximum of 10 and the base delay is
    1000 ms, as the constructor sets them. *)
Definition backoffInRange (tr : Trader) : Prop :=
  reconnectAttempts tr <= maxReconnectAttempts tr
  /\ maxReconnectAttempts tr = 10
  /\ reconnectDelay tr = 1000%Z.

(** ** Further sample inputs *)

Module Scenario.

Local Open Scope float_scope.

(** The response rows behind [Sample.window 102.5 100.5 102]. *)
Definition response : list Candle.t :=
  [ Candle.mk 300000 99 100.5 98.5 100 12 599999;
    Candle.mk 600000 100 101.5 99.5 101 15 899999;
    Candle.mk 900000 101 102.5 100.5 102 9 1199999 ].

(** A trader with no candle in its window. *)
Definition emptyTrader : Trader :=
  newTrader Sample.defaultConfig (formatKlines []) Sample.flat.

(** A stream with a message that does not parse, a forming tick, a repeated
    closing tick and a message without kline. *)
Definition stream : list (Clock.t * Message) :=
  [ (Clock.every 1500000, Unparseable);
    (Clock.every 1500001, KlineEvent (Sample.closedTick 1200000));
    (Clock.every 1500002, KlineEvent (Sample.closedTick 1200000));
    (Clock.every 1500003, NotKline);
    (Clock.every 1600000, KlineEvent Sample.formingTick);
    (Clock.mk 1800000 1800001 1800002, KlineEvent (Sample.closedTick 1500000)) ].

(** The long position of [Sample.longOpen] with its stop trailed to 97. *)
Definition longTrailed : AlgorithmState :=
  {| inLongTrade := true; inShortTrade := false;
     longEntryPrice := 100; shortEntryPrice := 0;
     longStopReference := 97; shortStopReference := 0;
     longTargetLevel := 105; shortTargetLevel := 0;
     riskAmount := 10; currentCapital := 100; totalProfitLoss := 0 |}.

(** The world in which the first connection has failed at once and the
    second socket is connecting; the guard of the first is still pending. *)
Definition secondConnecting : World :=
  Eval vm_compute in
    match run Sample.idleEngine Sample.startWorld (Sample.failingRounds 1) with
    | Some w => w
    | None => Sample.startWorld
    end.

(** The world in which [stop] was called right after the first socket
    opened. *)
Definition stoppedConnected : World :=
  Eval vm_compute in
    match step Sample.idleEngine Sample.connected CallStop with
    | Some w => w
    | None => Sample.startWorld
    end.

End Scenario.

(** ** Observations on a stretch of [processCandle] *)

(** A stretch leaves the window, the connection fields and [lastCandleTime]
    as they are, and its effects are notifications and console output. *)
Definition tidy (tr : Trader) (r : Stretch) : Prop :=
  fixedPart (fst (fst r)) = fixedPart tr
  /\ forallb isOutput (snd (fst r)) = true.

(** What the connection logic sees of a stretch: nothing. *)
Definition unseen (tr : Trader) (r : Trader * list Effect * option Task.t) : Prop :=
  connection (fst (fst r)) = connection tr
  /\ spawned (snd (fst r)) = 0
  /\ backoffDelays (snd (fst r)) = [].

(** A stretch of a call with the local constants [L], and what follows it
    when nothing interrupts the call. *)
Definition alone (fuel : nat) (now : Clock.t) (L : Locals.t) (r : Stretch)
  : Trader * list Effect :=
  runAlone fuel now (fst (fst r), snd (fst r), suspendedAt L (snd r)).

(** An effect that leaves the sockets and the timers alone and ends
    nothing: a notification, console output, the call of the engine. *)
Definition inward (e : Effect) : bool :=
  match e with
  | SetTimeout _ | NewWebSocket _ | Terminate _ | UncaughtTypeError => false
  | _ => true
  end.

(** A socket that is still connecting is the one the instance holds, and an
    instance that holds no socket is not connected. *)
Definition held (w : World) : Prop :=
  (forall s, nth_error (sockets w) s = Some CONNECTING ->
             socket (trader w) = Some s)
  /\ (socket (trader w) = None -> isConnected (trader w) = false).

(** The awaits a call still has before it, at most. *)
Definition awaitsLeft (next : option Await) : nat :=
  match next with
  | None => 0
  | Some AwaitDailyStats => 1
  | Some AwaitShortUpdate => 2
  | Some AwaitLongUpdate => 3
  | Some AwaitEntry => 4
  | Some AwaitShortStats => 5
  | Some AwaitShortExit => 6
  | Some AwaitLongStats => 7
  | Some AwaitLongExit => 8
  end.

(** The messages among the events of a run, in order, and the events that
    are a message or the resumption of a suspended call. *)
Fixpoint messagesOf (evs : list Event) : list (Clock.t * Message) :=
  match evs with
  | [] => []
  | WsMessage _ now data :: rest => (now, data) :: messagesOf rest
  | _ :: rest => messagesOf rest
  end.

Definition handlerEvent (ev : Event) : bool :=
  match ev with
  | WsMessage _ _ _ | Resumes _ _ => true
  | _ => false
  end.

(** ** Sample run with two calls that overlap *)

Module Overlap.

(** An engine that closes a short position with a long signal, and trails
    the stop of a long position to 97. *)
Definition engine : Candles -> AlgorithmState -> Config -> option Result.t :=
  fun _ st _ =>
    if inShortTrade st
    then Some (Sample.resultWith Sample.longOpen (Some (mkSignal "long")))
    else Some (Sample.resultWith Scenario.longTrailed None).

(** A connected instance that holds the short position of
    [Sample.shortOpen]. *)
Definition start : World :=
  {| trader :=
       set_isConnected true
         (set_socket (Some 0) (Sample.shortTrader 102.5 100.5 102));
     sockets := [OPEN];
     timers := [];
     trace := [];
     crashed := false;
     suspended := [] |}.

(** The candle that opens at 1200000 closes: its call sends the exit of the
    short trade and waits.  The candle that opens at 1500000 closes before
    that call resumes: its own call runs to its end.  Then the first call
    resumes and sends its stats panel. *)
Definition events : list Event :=
  [ WsMessage 0 (Clock.every 1500000) (KlineEvent Sample.closingTick);
    WsMessage 0 (Clock.every 1500040) (KlineEvent (Sample.closedTick 1500000));
    Resumes 0 (Clock.every 1500080) ].

Definition overlapped : World :=
  Eval vm_compute in
    match run engine start events with
    | Some w => w
    | None => start
    end.

End Overlap.

(** ** Properties of the candle processing *)

(** Case analysis on the tests of the steps of [processCandle]. *)
Ltac step_cases :=
  unfold longExitStep, shortExitStep, entryStep, longStopStep, shortStopStep,
    heartbeatStep, generateTradeId;
  repeat match goal with
         | |- context [if ?b then _ else _] => destruct b
         | |- context [match ?o with Some _ => _ | None => _ end] => destruct o
         | |- context [let '(_, _) := ?p in _] => destruct p
         end.

Section ProcessCandleFacts.

Variable jAlgo : Candles -> AlgorithmState -> Config -> option Result.t.

Lemma exitsOf_app (side : string) (a b : list Effect) :
  exitsOf side (a ++ b) = exitsOf side a ++ exitsOf side b.
Proof.
  induction a as [|e a IH]; simpl; [reflexivity|].
  destruct e; auto.
  destruct (String.eqb _ _); simpl; now rewrite IH.
Qed.

Lemma fixedPart_fields a b :
  fixedPart a = fixedPart b ->
  config a = config b /\ candles a = candles b
  /\ connection a = connection b /\ lastCandleTime a = lastCandleTime b.
Proof.
  unfold fixedPart, connection. intros H. inversion H.
  repeat split; congruence.
Qed.

(** The steps of [processCandle] after the state update touch the active
    trades, the trade id counter and [lastStatsUpdate] only; an exit or stop
    step of one side leaves the active trade of the other side alone. *)
Lemma longExitStep_frame prev r cc ch tr :
  state (fst (longExitStep prev r cc ch tr)) = state tr
  /\ fixedPart (fst (longExitStep prev r cc ch tr)) = fixedPart tr
  /\ activeShortTrade (fst (longExitStep prev r cc ch tr)) = activeShortTrade tr.
Proof. step_cases; auto. Qed.

Lemma shortExitStep_frame prev r cc cl tr :
  state (fst (shortExitStep prev r cc cl tr)) = state tr
  /\ fixedPart (fst (shortExitStep prev r cc cl tr)) = fixedPart tr
  /\ activeLongTrade (fst (shortExitStep prev r cc cl tr)) = activeLongTrade tr.
Proof. step_cases; auto. Qed.

Lemma entryStep_frame now r cc ct tr :
  state (fst (entryStep now r cc ct tr)) = state tr
  /\ fixedPart (fst (entryStep now r cc ct tr)) = fixedPart tr.
Proof. step_cases; auto. Qed.

Lemma longStopStep_frame prev tr :
  state (fst (longStopStep prev tr)) = state tr
  /\ fixedPart (fst (longStopStep prev tr)) = fixedPart tr
  /\ activeShortTrade (fst (longStopStep prev tr)) = activeShortTrade tr.
Proof. step_cases; auto. Qed.

Lemma shortStopStep_frame prev tr :
  state (fst (shortStopStep prev tr)) = state tr
  /\ fixedPart (fst (shortStopStep prev tr)) = fixedPart tr
  /\ activeLongTrade (fst (shortStopStep prev tr)) = activeLongTrade tr.
Proof. step_cases; auto. Qed.

Lemma heartbeatStep_frame now later r tr :
  state (fst (heartbeatStep now later r tr)) = state tr
  /\ fixedPart (fst (heartbeatStep now later r tr)) = fixedPart tr.
Proof. step_cases; auto. Qed.

(** Their effects are notifications. *)
Lemma longExitStep_outputs prev r cc ch tr :
  forallb isOutput (snd (longExitStep prev r cc ch tr)) = true.
Proof. step_cases; reflexivity. Qed.

Lemma shortExitStep_outputs prev r cc cl tr :
  forallb isOutput (snd (shortExitStep prev r cc cl tr)) = true.
Proof. step_cases; reflexivity. Qed.

Lemma entryStep_outputs now r cc ct tr :
  forallb isOutput (snd (entryStep now r cc ct tr)) = true.
Proof. step_cases; reflexivity. Qed.

Lemma longStopStep_outputs prev tr :
  forallb isOutput (snd (longStopStep prev tr)) = true.
Proof. step_cases; reflexivity. Qed.

Lemma shortStopStep_outputs prev tr :
  forallb isOutput (snd (shortStopStep prev tr)) = true.
Proof. step_cases; reflexivity. Qed.

Lemma heartbeatStep_outputs now later r tr :
  forallb isOutput (snd (heartbeatStep now later r tr)) = true.
Proof. step_cases; reflexivity. Qed.

(** [processCandle] when the engine returns and the debug output goes
    through, with the intermediate instances named. *)
Lemma processCandle_returns now tr r ind :
  jAlgo (candles tr) (state tr) (config tr) = Some r ->
  Result.indicators r = Some ind ->
  let prev := state tr in
  let tr0 := set_state (Result.state r) tr in
  let cc := JS.last_of (close (candles tr)) in
  let ch := JS.last_of (high (candles tr)) in
  let cl := JS.last_of (low (candles tr)) in
  let ct := JS.last_of (closeTime (candles tr)) in
  let s1 := longExitStep prev r cc ch tr0 in
  let s2 := shortExitStep prev r cc cl (fst s1) in
  let s3 := entryStep (Clock.atId now) r cc ct (fst s2) in
  let s4 := longStopStep prev (fst s3) in
  let s5 := shortStopStep prev (fst s4) in
  let s6 := heartbeatStep (Clock.atCheck now) (Clock.atStore now) r (fst s5) in
  processCandle jAlgo now tr =
    (fst s6,
     [CallJAlgo (candles tr) (state tr);
      ConsoleLog "Indicators:"; ConsoleLog "Signal generated:"]
       ++ snd s1 ++ snd s2 ++ snd s3 ++ snd s4 ++ snd s5
       ++ [ConsoleLog "Processed candle"; ConsoleLog "Current capital"]
       ++ snd s6).
Proof.
  intros He Hi. unfold processCandle. rewrite He, Hi. simpl.
  destruct (longExitStep _ _ _ _ _) as [t1 e1].
  destruct (shortExitStep _ _ _ _ _) as [t2 e2].
  destruct (entryStep _ _ _ _ _) as [t3 e3].
  destruct (longStopStep _ _) as [t4 e4].
  destruct (shortStopStep _ _) as [t5 e5].
  destruct (heartbeatStep _ _ _ _) as [t6 e6].
  reflexivity.
Qed.

(** [processCandle] when the engine call or the debug output throws. *)
Lemma processCandle_throws now tr :
  (jAlgo (candles tr) (state tr) (config tr) = None
   \/ exists r, jAlgo (candles tr) (state tr) (config tr) = Some r
                /\ Result.indicators r = None) ->
  processCandle jAlgo now tr =
    (tr, [CallJAlgo (candles tr) (state tr);
          ConsoleError "Error processing candle:"]).
Proof.
  intros [He | [r [He Hi]]]; unfold processCandle; rewrite He;
    [reflexivity | now rewrite Hi].
Qed.

(** The two ways [processCandle] can go. *)
Lemma processCandle_cases now tr :
  (exists r ind, jAlgo (candles tr) (state tr) (config tr) = Some r
                 /\ Result.indicators r = Some ind)
  \/ processCandle jAlgo now tr =
       (tr, [CallJAlgo (candles tr) (state tr);
             ConsoleError "Error processing candle:"]).
Proof.
  destruct (jAlgo (candles tr) (state tr) (config tr)) as [r|] eqn:He.
  - destruct (Result.indicators r) as [ind|] eqn:Hi.
    + left. now exists r, ind.
    + right. apply processCandle_throws. right. now exists r.
  - right. apply processCandle_throws. now left.
Qed.

(** [processCandle] changes the state, the active trades, the trade id
    counter and [lastStatsUpdate], and nothing else. *)
Lemma processCandle_frame now tr :
  fixedPart (fst (processCandle jAlgo now tr)) = fixedPart tr.
Proof.
  destruct (processCandle_cases now tr) as [(r & ind & He & Hi) | ->];
    [|reflexivity].
  rewrite (processCandle_returns now tr r ind He Hi). cbv zeta. cbn [fst].
  repeat (etransitivity;
          [first [ apply heartbeatStep_frame | apply shortStopStep_frame
                 | apply longStopStep_frame | apply entryStep_frame
                 | apply shortExitStep_frame | apply longExitStep_frame ]|]).
  reflexivity.
Qed.

Lemma processCandle_candles now tr :
  candles (fst (processCandle jAlgo now tr)) = candles tr.
Proof. apply fixedPart_fields, processCandle_frame. Qed.

Lemma processCandle_lastCandleTime now tr :
  lastCandleTime (fst (processCandle jAlgo now tr)) = lastCandleTime tr.
Proof. apply fixedPart_fields, processCandle_frame. Qed.

(** The effects of [processCandle]: the call of the engine, then
    notifications and console output. *)
Lemma processCandle_outputs now tr :
  exists rest,
    snd (processCandle jAlgo now tr) = CallJAlgo (candles tr) (state tr) :: rest
    /\ forallb isOutput rest = true.
Proof.
  destruct (processCandle_cases now tr) as [(r & ind & He & Hi) | ->].
  - rewrite (processCandle_returns now tr r ind He Hi). cbv zeta. cbn [snd].
    eexists. split; [reflexivity|].
    cbn [forallb isOutput andb]. rewrite !forallb_app.
    rewrite longExitStep_outputs, shortExitStep_outputs, entryStep_outputs,
      longStopStep_outputs, shortStopStep_outputs, heartbeatStep_outputs.
    reflexivity.
  - eexists. split; reflexivity.
Qed.

(** Exit notifications come from the two exit steps only. *)
Lemma exitsOf_entryStep side now r cc ct tr :
  exitsOf side (snd (entryStep now r cc ct tr)) = [].
Proof. step_cases; reflexivity. Qed.

Lemma exitsOf_longStopStep side prev tr :
  exitsOf side (snd (longStopStep prev tr)) = [].
Proof. step_cases; reflexivity. Qed.

Lemma exitsOf_shortStopStep side prev tr :
  exitsOf side (snd (shortStopStep prev tr)) = [].
Proof. step_cases; reflexivity. Qed.

Lemma exitsOf_heartbeatStep side now later r tr :
  exitsOf side (snd (heartbeatStep now later r tr)) = [].
Proof. step_cases; reflexivity. Qed.

Lemma exitsOf_processCandle side now tr r ind :
  jAlgo (candles tr) (state tr) (config tr) = Some r ->
  Result.indicators r = Some ind ->
  let prev := state tr in
  let tr0 := set_state (Result.state r) tr in
  let cc := JS.last_of (close (candles tr)) in
  let s1 := longExitStep prev r cc (JS.last_of (high (candles tr))) tr0 in
  let s2 := shortExitStep prev r cc (JS.last_of (low (candles tr))) (fst s1) in
  exitsOf side (snd (processCandle jAlgo now tr)) =
    exitsOf side (snd s1) ++ exitsOf side (snd s2).
Proof.
  intros He Hi. rewrite (processCandle_returns now tr r ind He Hi).
  cbv zeta. cbn [snd].
  change ([CallJAlgo (candles tr) (state tr); ConsoleLog "Indicators:";
           ConsoleLog "Signal generated:"] ++ ?a)
    with (CallJAlgo (candles tr) (state tr) :: ConsoleLog "Indicators:"
            :: ConsoleLog "Signal generated:" :: a).
  cbn [exitsOf].
  rewrite !exitsOf_app.
  rewrite exitsOf_entryStep, exitsOf_longStopStep, exitsOf_shortStopStep,
    exitsOf_heartbeatStep.
  cbn [exitsOf app]. now rewrite !app_nil_r.
Qed.

End ProcessCandleFacts.

(** ** Exit notifications *)

Section ExitFacts.

Variable jAlgo : Candles -> AlgorithmState -> Config -> option Result.t.

(** The long exits of a processed candle: none, or the one of the
    long-exit step. *)
Lemma long_exits now tr r ind :
  jAlgo (candles tr) (state tr) (config tr) = Some r ->
  Result.indicators r = Some ind ->
  let prev := state tr in
  let cc := JS.last_of (close (candles tr)) in
  let outcome :=
    longExitOutcome (config tr) prev (Result.signal r) cc
      (JS.last_of (high (candles tr))) in
  exitsOf "long" (snd (processCandle jAlgo now tr)) =
    if inLongTrade prev && negb (inLongTrade (Result.state r)) then
      [ {| ExitSignal.position := "long";
           ExitSignal.entryPrice := longEntryPrice prev;
           ExitSignal.exitPrice := cc;
           ExitSignal.profitLoss := snd outcome;
           ExitSignal.riskedAmount := riskAmount prev;
           ExitSignal.reason := fst outcome |} ]
    else [].
Proof.
  intros He Hi. cbv zeta.
  rewrite (exitsOf_processCandle jAlgo "long" now tr r ind He Hi). cbv zeta.
  set (s1 := longExitStep _ _ _ _ _).
  assert (H2 : exitsOf "long"
                 (snd (shortExitStep (state tr) r
                         (JS.last_of (close (candles tr)))
                         (JS.last_of (low (candles tr))) (fst s1))) = []).
  { unfold shortExitStep.
    destruct (inShortTrade (state tr) && _); [|reflexivity].
    destruct (shortExitOutcome _ _ _ _ _); reflexivity. }
  rewrite H2, app_nil_r. subst s1. unfold longExitStep. simpl state.
  destruct (inLongTrade (state tr) && negb (inLongTrade (Result.state r)));
    [|reflexivity].
  simpl config.
  destruct (longExitOutcome _ _ _ _ _); reflexivity.
Qed.

(** The short exits of a processed candle. *)
Lemma short_exits now tr r ind :
  jAlgo (candles tr) (state tr) (config tr) = Some r ->
  Result.indicators r = Some ind ->
  let prev := state tr in
  let cc := JS.last_of (close (candles tr)) in
  let outcome :=
    shortExitOutcome (config tr) prev (Result.signal r) cc
      (JS.last_of (low (candles tr))) in
  exitsOf "short" (snd (processCandle jAlgo now tr)) =
    if inShortTrade prev && negb (inShortTrade (Result.state r)) then
      [ {| ExitSignal.position := "short";
           ExitSignal.entryPrice := shortEntryPrice prev;
           ExitSignal.exitPrice := cc;
           ExitSignal.profitLoss := snd outcome;
           ExitSignal.riskedAmount := riskAmount prev;
           ExitSignal.reason := fst outcome |} ]
    else [].
Proof.
  intros He Hi. cbv zeta.
  rewrite (exitsOf_processCandle jAlgo "short" now tr r ind He Hi). cbv zeta.
  set (s1 := longExitStep _ _ _ _ _).
  assert (H1 : exitsOf "short" (snd s1) = []).
  { subst s1. unfold longExitStep.
    destruct (inLongTrade (state tr) && _); [|reflexivity].
    destruct (longExitOutcome _ _ _ _ _); reflexivity. }
  rewrite H1, app_nil_l.
  destruct (longExitStep_frame (state tr) r
              (JS.last_of (close (candles tr)))
              (JS.last_of (high (candles tr)))
              (set_state (Result.state r) tr)) as (Hs & Hf & _).
  apply fixedPart_fields in Hf. destruct Hf as (Hc & _).
  fold s1 in Hs, Hc. unfold shortExitStep. rewrite Hs, Hc.
  simpl state. simpl config.
  destruct (inShortTrade (state tr) && negb (inShortTrade (Result.state r)));
    [|reflexivity].
  destruct (shortExitOutcome _ _ _ _ _); reflexivity.
Qed.

(** An exit notification among the effects shows among the exits of its
    side. *)
Lemma In_exitsOf e st effects :
  In (SendExit e st) effects ->
  In e (exitsOf (ExitSignal.position e) effects).
Proof.
  induction effects as [|a effects IH]; simpl; [tauto|].
  intros [Ha | Hr].
  - subst a. rewrite String.eqb_refl. now left.
  - destruct a; auto. destruct (String.eqb _ _); [right|]; auto.
Qed.

(** The exit steps notify for their own side; the other steps send no
    exit. *)
Lemma longExitStep_side prev r cc ch tr e st :
  In (SendExit e st) (snd (longExitStep prev r cc ch tr)) ->
  ExitSignal.position e = "long".
Proof.
  unfold longExitStep. destruct (inLongTrade prev && _); [|simpl; tauto].
  destruct (longExitOutcome _ _ _ _ _). simpl.
  intros [H | [H | []]]; [|discriminate]. now inversion H.
Qed.

Lemma shortExitStep_side prev r cc cl tr e st :
  In (SendExit e st) (snd (shortExitStep prev r cc cl tr)) ->
  ExitSignal.position e = "short".
Proof.
  unfold shortExitStep. destruct (inShortTrade prev && _); [|simpl; tauto].
  destruct (shortExitOutcome _ _ _ _ _). simpl.
  intros [H | [H | []]]; [|discriminate]. now inversion H.
Qed.

Lemma entryStep_no_exit now r cc ct tr e st :
  ~ In (SendExit e st) (snd (entryStep now r cc ct tr)).
Proof.
  unfold entryStep. destruct (Result.signal r) as [sig|]; simpl; [|tauto].
  destruct (String.eqb (position sig) "long"); simpl.
  { intros [H | []]; discriminate. }
  destruct (String.eqb (position sig) "short"); simpl; [|tauto].
  intros [H | []]; discriminate.
Qed.

Lemma longStopStep_no_exit prev tr e st :
  ~ In (SendExit e st) (snd (longStopStep prev tr)).
Proof.
  unfold longStopStep. destruct (activeLongTrade tr); simpl; [|tauto].
  destruct (JS.strict_neq _ _); simpl; [|tauto].
  intros [H | []]; discriminate.
Qed.

Lemma shortStopStep_no_exit prev tr e st :
  ~ In (SendExit e st) (snd (shortStopStep prev tr)).
Proof.
  unfold shortStopStep. destruct (activeShortTrade tr); simpl; [|tauto].
  destruct (JS.strict_neq _ _); simpl; [|tauto].
  intros [H | []]; discriminate.
Qed.

Lemma heartbeatStep_no_exit now later r tr e st :
  ~ In (SendExit e st) (snd (heartbeatStep now later r tr)).
Proof.
  unfold heartbeatStep. destruct (statsNeverSent tr || _); simpl; [|tauto].
  intros [H | []]; discriminate.
Qed.

(** Every exit notification is for the long or for the short side. *)
Lemma exit_side now tr e st :
  In (SendExit e st) (snd (processCandle jAlgo now tr)) ->
  In e (exitsOf "long" (snd (processCandle jAlgo now tr)))
  \/ In e (exitsOf "short" (snd (processCandle jAlgo now tr))).
Proof.
  intros H.
  assert (Hp : ExitSignal.position e = "long" \/ ExitSignal.position e = "short").
  { destruct (jAlgo (candles tr) (state tr) (config tr)) as [r|] eqn:He.
    2:{ rewrite processCandle_throws in H by now left. simpl in H.
        destruct H as [|[|]]; try discriminate; tauto. }
    destruct (Result.indicators r) as [ind|] eqn:Hi.
    2:{ rewrite processCandle_throws in H by (right; now exists r). simpl in H.
        destruct H as [|[|]]; try discriminate; tauto. }
    rewrite (processCandle_returns jAlgo now tr r ind He Hi) in H.
    cbv zeta in H. cbn [snd] in H. rewrite !in_app_iff in H.
    destruct H as [H | [H | [H | [H | [H | [H | [H | H]]]]]]].
    - simpl in H. destruct H as [|[|[|]]]; try discriminate; tauto.
    - left. exact (longExitStep_side _ _ _ _ _ _ _ H).
    - right. exact (shortExitStep_side _ _ _ _ _ _ _ H).
    - destruct (entryStep_no_exit _ _ _ _ _ _ _ H).
    - destruct (longStopStep_no_exit _ _ _ _ H).
    - destruct (shortStopStep_no_exit _ _ _ _ H).
    - simpl in H. destruct H as [|[|]]; try discriminate; tauto.
    - destruct (heartbeatStep_no_exit _ _ _ _ _ _ H). }
  pose proof (In_exitsOf e st _ H) as Hin.
  destruct Hp as [Hp | Hp]; rewrite Hp in Hin; [left | right]; exact Hin.
Qed.

End ExitFacts.

(** ** Claims on the trade events of a processed candle *)

(** C6.  When a side leaves its trade on a processed candle and the candle's
    high reached the prior long target (long side), or its low the prior
    short target (short side), the one exit notification of that side has
    the reason "Target Hit" and the profit
    [riskAmount * rewardMultiple * (useLeverage ? leverageAmount : 1)] of the
    prior state.  In particular a long trade with target 105, 10 at risk, a
    reward multiple of 1.5 and no leverage, on a candle whose high is 106,
    exits with a profit of 15. *)
Theorem C6_target_hit_exit :
  (forall jAlgo now tr r ind,
      jAlgo (candles tr) (state tr) (config tr) = Some r ->
      Result.indicators r = Some ind ->
      let prev := state tr in
      let effects := snd (processCandle jAlgo now tr) in
      let full :=
        (riskAmount prev * rewardMultiple (config tr)
         * (if useLeverage (config tr) then leverageAmount (config tr) else 1))%float in
      (inLongTrade prev = true -> inLongTrade (Result.state r) = false ->
       JS.ge (JS.toNumber (JS.last_of (high (candles tr))))
         (longTargetLevel prev) = true ->
       exists e, exitsOf "long" effects = [e]
                 /\ ExitSignal.reason e = "Target Hit"
                 /\ ExitSignal.profitLoss e = full)
      /\
      (inShortTrade prev = true -> inShortTrade (Result.state r) = false ->
       JS.le (JS.toNumber (JS.last_of (low (candles tr))))
         (shortTargetLevel prev) = true ->
       exists e, exitsOf "short" effects = [e]
                 /\ ExitSignal.reason e = "Target Hit"
                 /\ ExitSignal.profitLoss e = full))
  /\
  (forall jAlgo now tr r ind,
      jAlgo (candles tr) (state tr) (config tr) = Some r ->
      Result.indicators r = Some ind ->
      inLongTrade (state tr) = true -> inLongTrade (Result.state r) = false ->
      longTargetLevel (state tr) = 105%float ->
      longEntryPrice (state tr) = 100%float ->
      riskAmount (state tr) = 10%float ->
      rewardMultiple (config tr) = 1.5%float ->
      useLeverage (config tr) = false ->
      JS.last_of (high (candles tr)) = Some 106%float ->
      exists e, exitsOf "long" (snd (processCandle jAlgo now tr)) = [e]
                /\ ExitSignal.reason e = "Target Hit"
                /\ ExitSignal.profitLoss e = 15%float).
Proof.
  assert (G : forall jAlgo now tr r ind,
      jAlgo (candles tr) (state tr) (config tr) = Some r ->
      Result.indicators r = Some ind ->
      inLongTrade (state tr) = true -> inLongTrade (Result.state r) = false ->
      JS.ge (JS.toNumber (JS.last_of (high (candles tr))))
        (longTargetLevel (state tr)) = true ->
      exists e, exitsOf "long" (snd (processCandle jAlgo now tr)) = [e]
                /\ ExitSignal.reason e = "Target Hit"
                /\ ExitSignal.profitLoss e =
                   (riskAmount (state tr) * rewardMultiple (config tr)
                    * leverageFactor (config tr))%float).
  { intros jAlgo now tr r ind He Hi Hp Hn Hhit.
    rewrite (long_exits jAlgo now tr r ind He Hi). cbv zeta.
    rewrite Hp, Hn. simpl andb. cbv iota.
    unfold longExitOutcome. rewrite Hhit. simpl.
    eexists. split; [reflexivity|]. simpl. auto. }
  split.
  - intros jAlgo now tr r ind He Hi prev effects full. split.
    + intros Hp Hn Hhit. exact (G jAlgo now tr r ind He Hi Hp Hn Hhit).
    + intros Hp Hn Hhit. subst effects.
      rewrite (short_exits jAlgo now tr r ind He Hi). cbv zeta.
      subst prev. rewrite Hp, Hn. simpl andb. cbv iota.
      unfold shortExitOutcome. rewrite Hhit. simpl.
      eexists. split; [reflexivity|]. simpl. auto.
  - intros jAlgo now tr r ind He Hi Hp Hn Ht _ Hr Hm Hl Hh.
    destruct (G jAlgo now tr r ind He Hi Hp Hn) as (e & E1 & E2 & E3).
    { rewrite Hh, Ht. reflexivity. }
    exists e. repeat split; auto.
    rewrite E3. unfold leverageFactor. rewrite Hr, Hm, Hl. reflexivity.
Qed.

(** The sample long trade on a candle with high 106 exits at its target
    with a profit of 15, and the sample short trade on a candle with low 94
    exits at its target as well. *)
Lemma C6_target_hit_exit_witness :
  (exists e,
      exitsOf "long"
        (snd (processCandle (Sample.engineReturning Sample.longClosed None)
                (Clock.every 1200000) (Sample.longTrader 106 104 105.5))) = [e]
      /\ ExitSignal.reason e = "Target Hit"
      /\ ExitSignal.profitLoss e = 15%float)
  /\
  (exists e,
      exitsOf "short"
        (snd (processCandle (Sample.engineReturning Sample.flat None)
                (Clock.every 1200000) (Sample.shortTrader 99 94 94.5))) = [e]
      /\ ExitSignal.reason e = "Target Hit"
      /\ ExitSignal.profitLoss e = (10 * 1.5 * 1)%float).
Proof.
  split.
  - apply (proj2 C6_target_hit_exit
             (Sample.engineReturning Sample.longClosed None) (Clock.every 1200000)
             (Sample.longTrader 106 104 105.5)
             (Sample.resultWith Sample.longClosed None) Sample.someIndicators);
      reflexivity.
  - apply (proj2 (proj1 C6_target_hit_exit
                    (Sample.engineReturning Sample.flat None) (Clock.every 1200000)
                    (Sample.shortTrader 99 94 94.5)
                    (Sample.resultWith Sample.flat None) Sample.someIndicators
                    eq_refl eq_refl));
      reflexivity.
Defined.

(** C7, at the input of the specification: the long trade entered at 100
    with target 105, closed on a candle with high 104 and close 103 by a
    short signal, is reported with the reason "New Signal (Short)", which is
    not "Opposing Signal"; its profit is 9. *)
Lemma C7_counterexample :
  exists e,
    In e (exitsOf "long"
            (snd (processCandle
                    (Sample.engineReturning Sample.flippedShort
                       (Some (mkSignal "short")))
                    (Clock.every 1200000) (Sample.longTrader 104 102 103))))
    /\ ExitSignal.reason e = "New Signal (Short)"
    /\ ExitSignal.reason e <> "Opposing Signal"
    /\ ExitSignal.profitLoss e = 9%float.
Proof.
  eexists. split; [left; reflexivity|].
  split; [reflexivity|]. split; [discriminate | reflexivity].
Qed.

(** C7, amended.  When a side leaves its trade on a processed candle
    without its target being reached and the new signal is on the opposite
    side, the one exit notification of that side has the reason
    "New Signal (Short)" (long side) or "New Signal (Long)" (short side);
    when the close moved favourably its profit is
    [Math.min(distance / targetDistance, 1.0) * riskAmount * rewardMultiple
     * (useLeverage ? leverageAmount : 1)].  In particular a long trade
    entered at 100 with target 105, 10 at risk, a reward multiple of 1.5 and
    no leverage, on a candle with high 104 and close 103 and a short signal,
    exits with a profit of 9. *)
Theorem C7_new_signal_exit :
  (forall jAlgo now tr r ind,
      jAlgo (candles tr) (state tr) (config tr) = Some r ->
      Result.indicators r = Some ind ->
      let prev := state tr in
      let effects := snd (processCandle jAlgo now tr) in
      let close := JS.toNumber (JS.last_of (close (candles tr))) in
      let lev :=
        if useLeverage (config tr) then leverageAmount (config tr) else 1%float in
      (inLongTrade prev = true -> inLongTrade (Result.state r) = false ->
       JS.ge (JS.toNumber (JS.last_of (high (candles tr))))
         (longTargetLevel prev) = false ->
       signalIs (Result.signal r) "short" = true ->
       exists e, exitsOf "long" effects = [e]
                 /\ ExitSignal.reason e = "New Signal (Short)"
                 /\ (JS.gt (close - longEntryPrice prev) 0 = true ->
                     ExitSignal.profitLoss e =
                       (JS.Math_min
                          ((close - longEntryPrice prev)
                           / (longTargetLevel prev - longEntryPrice prev)) 1
                        * riskAmount prev * rewardMultiple (config tr) * lev)%float))
      /\
      (inShortTrade prev = true -> inShortTrade (Result.state r) = false ->
       JS.le (JS.toNumber (JS.last_of (low (candles tr))))
         (shortTargetLevel prev) = false ->
       signalIs (Result.signal r) "long" = true ->
       exists e, exitsOf "short" effects = [e]
                 /\ ExitSignal.reason e = "New Signal (Long)"
                 /\ (JS.gt (shortEntryPrice prev - close) 0 = true ->
                     ExitSignal.profitLoss e =
                       (JS.Math_min
                          ((shortEntryPrice prev - close)
                           / (shortEntryPrice prev - shortTargetLevel prev)) 1
                        * riskAmount prev * rewardMultiple (config tr) * lev)%float)))
  /\
  (forall jAlgo now tr r ind,
      jAlgo (candles tr) (state tr) (config tr) = Some r ->
      Result.indicators r = Some ind ->
      inLongTrade (state tr) = true -> inLongTrade (Result.state r) = false ->
      longEntryPrice (state tr) = 100%float ->
      longTargetLevel (state tr) = 105%float ->
      riskAmount (state tr) = 10%float ->
      rewardMultiple (config tr) = 1.5%float ->
      useLeverage (config tr) = false ->
      JS.last_of (high (candles tr)) = Some 104%float ->
      JS.last_of (close (candles tr)) = Some 103%float ->
      signalIs (Result.signal r) "short" = true ->
      exists e, exitsOf "long" (snd (processCandle jAlgo now tr)) = [e]
                /\ ExitSignal.reason e = "New Signal (Short)"
                /\ ExitSignal.profitLoss e = 9%float).
Proof.
  assert (G : forall jAlgo now tr r ind,
      jAlgo (candles tr) (state tr) (config tr) = Some r ->
      Result.indicators r = Some ind ->
      inLongTrade (state tr) = true -> inLongTrade (Result.state r) = false ->
      JS.ge (JS.toNumber (JS.last_of (high (candles tr))))
        (longTargetLevel (state tr)) = false ->
      signalIs (Result.signal r) "short" = true ->
      exists e, exitsOf "long" (snd (processCandle jAlgo now tr)) = [e]
        /\ ExitSignal.reason e = "New Signal (Short)"
        /\ (JS.gt (JS.toNumber (JS.last_of (close (candles tr)))
                   - longEntryPrice (state tr)) 0 = true ->
            ExitSignal.profitLoss e =
              (JS.Math_min
                 ((JS.toNumber (JS.last_of (close (candles tr)))
                   - longEntryPrice (state tr))
                  / (longTargetLevel (state tr) - longEntryPrice (state tr))) 1
               * riskAmount (state tr) * rewardMultiple (config tr)
               * leverageFactor (config tr))%float)).
  { intros jAlgo now tr r ind He Hi Hp Hn Hmiss Hsig.
    rewrite (long_exits jAlgo now tr r ind He Hi). cbv zeta.
    rewrite Hp, Hn. simpl andb. cbv iota.
    unfold longExitOutcome. rewrite Hmiss, Hsig. cbv zeta.
    eexists. split; [reflexivity|]. cbn [ExitSignal.reason ExitSignal.profitLoss fst snd].
    split; [reflexivity|]. intros Hfav. rewrite Hfav. reflexivity. }
  split.
  - intros jAlgo now tr r ind He Hi prev effects close lev. split.
    + intros Hp Hn Hmiss Hsig.
      exact (G jAlgo now tr r ind He Hi Hp Hn Hmiss Hsig).
    + intros Hp Hn Hmiss Hsig. subst effects.
      rewrite (short_exits jAlgo now tr r ind He Hi). cbv zeta.
      subst prev. rewrite Hp, Hn. simpl andb. cbv iota.
      unfold shortExitOutcome. rewrite Hmiss, Hsig. cbv zeta.
      eexists. split; [reflexivity|].
      cbn [ExitSignal.reason ExitSignal.profitLoss fst snd].
      split; [reflexivity|]. subst close. intros Hfav. rewrite Hfav. reflexivity.
  - intros jAlgo now tr r ind He Hi Hp Hn Hen Ht Hr Hm Hl Hh Hc Hsig.
    destruct (G jAlgo now tr r ind He Hi Hp Hn) as (e & E1 & E2 & E3); auto.
    { rewrite Hh, Ht. reflexivity. }
    exists e. repeat split; auto.
    rewrite E3.
    + unfold leverageFactor. rewrite Hc, Hen, Ht, Hr, Hm, Hl. reflexivity.
    + rewrite Hc, Hen. reflexivity.
Qed.

(** The sample long trade closed by a short signal at 103 exits with the
    reason "New Signal (Short)" and a profit of 9; the sample short trade
    closed by a long signal at 98 exits with the reason "New Signal (Long)". *)
Lemma C7_new_signal_exit_witness :
  (exists e,
      exitsOf "long"
        (snd (processCandle
                (Sample.engineReturning Sample.flippedShort (Some (mkSignal "short")))
                (Clock.every 1200000) (Sample.longTrader 104 102 103))) = [e]
      /\ ExitSignal.reason e = "New Signal (Short)"
      /\ ExitSignal.profitLoss e = 9%float)
  /\
  (exists e,
      exitsOf "short"
        (snd (processCandle
                (Sample.engineReturning Sample.longOpen (Some (mkSignal "long")))
                (Clock.every 1200000) (Sample.shortTrader 99 96 98))) = [e]
      /\ ExitSignal.reason e = "New Signal (Long)"
      /\ (JS.gt (100 - 98) 0 = true -> ExitSignal.profitLoss e = 6%float)).
Proof.
  split.
  - apply (proj2 C7_new_signal_exit
             (Sample.engineReturning Sample.flippedShort (Some (mkSignal "short")))
             (Clock.every 1200000) (Sample.longTrader 104 102 103)
             (Sample.resultWith Sample.flippedShort (Some (mkSignal "short")))
             Sample.someIndicators);
      reflexivity.
  - apply (proj2 (proj1 C7_new_signal_exit
                    (Sample.engineReturning Sample.longOpen (Some (mkSignal "long")))
                    (Clock.every 1200000) (Sample.shortTrader 99 96 98)
                    (Sample.resultWith Sample.longOpen (Some (mkSignal "long")))
                    Sample.someIndicators eq_refl eq_refl));
      reflexivity.
Defined.

(** C10.  Every exit notification of a processed candle, whatever its side
    and reason, reports as exit price the close of the current candle, and
    takes the entry price of its side and the risked amount from the state
    held before the engine ran. *)
Theorem C10_exit_price_is_close jAlgo now tr e st :
  In (SendExit e st) (snd (processCandle jAlgo now tr)) ->
  ExitSignal.exitPrice e = JS.last_of (close (candles tr))
  /\ ExitSignal.riskedAmount e = riskAmount (state tr)
  /\ ((ExitSignal.position e = "long"
       /\ ExitSignal.entryPrice e = longEntryPrice (state tr))
      \/ (ExitSignal.position e = "short"
          /\ ExitSignal.entryPrice e = shortEntryPrice (state tr))).
Proof.
  intros Hin.
  destruct (jAlgo (candles tr) (state tr) (config tr)) as [r|] eqn:He.
  2:{ rewrite processCandle_throws in Hin by now left.
      simpl in Hin. destruct Hin as [|[|]]; try discriminate; tauto. }
  destruct (Result.indicators r) as [ind|] eqn:Hi.
  2:{ rewrite processCandle_throws in Hin by (right; now exists r).
      simpl in Hin. destruct Hin as [|[|]]; try discriminate; tauto. }
  destruct (exit_side jAlgo now tr e st Hin) as [H | H].
  - rewrite (long_exits jAlgo now tr r ind He Hi) in H. cbv zeta in H.
    destruct (inLongTrade (state tr) && _); simpl in H; [|tauto].
    destruct H as [<- | []]. simpl. auto.
  - rewrite (short_exits jAlgo now tr r ind He Hi) in H. cbv zeta in H.
    destruct (inShortTrade (state tr) && _); simpl in H; [|tauto].
    destruct H as [<- | []]. simpl. auto.
Qed.

(** The target-hit exit of the sample long trade reports the close 105.5,
    not the target 105. *)
Lemma C10_exit_price_is_close_witness :
  let e := {| ExitSignal.position := "long";
              ExitSignal.entryPrice := 100;
              ExitSignal.exitPrice := Some 105.5%float;
              ExitSignal.profitLoss := 15;
              ExitSignal.riskedAmount := 10;
              ExitSignal.reason := "Target Hit" |} in
  ExitSignal.exitPrice e = Some 105.5%float
  /\ ExitSignal.riskedAmount e = 10%float
  /\ ((ExitSignal.position e = "long" /\ ExitSignal.entryPrice e = 100%float)
      \/ (ExitSignal.position e = "short" /\ ExitSignal.entryPrice e = 0%float)).
Proof.
  apply (C10_exit_price_is_close
           (Sample.engineReturning Sample.longClosed None) (Clock.every 1200000)
           (Sample.longTrader 106 104 105.5) _ Sample.longClosed).
  simpl. right. right. right. left. reflexivity.
Defined.

(** C8.  When the engine call throws, [processCandle] returns normally with
    the instance unchanged, so the state held is the state held before; the
    error is logged and nothing is notified. *)
Theorem C8_engine_failure_keeps_state jAlgo now tr :
  jAlgo (candles tr) (state tr) (config tr) = None ->
  fst (processCandle jAlgo now tr) = tr
  /\ state (fst (processCandle jAlgo now tr)) = state tr
  /\ snd (processCandle jAlgo now tr) =
       [CallJAlgo (candles tr) (state tr);
        ConsoleError "Error processing candle:"].
Proof.
  intros He. rewrite processCandle_throws by now left. simpl. auto.
Qed.

(** With a throwing engine the sample long trader is left as it was. *)
Lemma C8_engine_failure_keeps_state_witness :
  fst (processCandle Sample.engineThrowing (Clock.every 1200000) (Sample.longTrader 106 104 105.5))
    = Sample.longTrader 106 104 105.5
  /\ state (fst (processCandle Sample.engineThrowing (Clock.every 1200000)
                   (Sample.longTrader 106 104 105.5))) = Sample.longOpen
  /\ snd (processCandle Sample.engineThrowing (Clock.every 1200000)
            (Sample.longTrader 106 104 105.5)) =
       [CallJAlgo (Sample.window 106 104 105.5) Sample.longOpen;
        ConsoleError "Error processing candle:"].
Proof.
  apply (C8_engine_failure_keeps_state Sample.engineThrowing (Clock.every 1200000)
           (Sample.longTrader 106 104 105.5)).
  reflexivity.
Defined.

(** ** Stop updates *)

(** C9, at a candle that opens a long trade.  The instance holds no long
    trade before the candle; the engine returns a long signal and a state
    whose long stop reference is 95, where it was 0.  Before its first await
    the call creates the active long trade and sends the entry.  When it
    resumes, the test of the stop update finds [activeLongTrade] set, by the
    entry of this same candle, and the reference changed: a stop update of
    the long side, from 0 to 95, follows the entry.  So does it in the call
    that nothing interrupts. *)
Theorem C9_stop_update_on_entry_candle :
  let engine := Sample.engineReturning Sample.longOpen (Some (mkSignal "long")) in
  let tr := Sample.freshTrader Sample.flat in
  let first := beginProcessCandle engine (Clock.every 1200000) tr in
  let update :=
    {| StopUpdate.position := "long";
       StopUpdate.previousStop := 0;
       StopUpdate.newStop := 95;
       StopUpdate.entryPrice := Some 102%float;
       StopUpdate.targetLevel := 105 |} in
  activeLongTrade tr = None
  /\ entriesOf (snd (fst first))
     = [ {| EntrySignal.position := "long";
            EntrySignal.price := Some 102%float;
            EntrySignal.stopLevel := 95;
            EntrySignal.targetLevel := 105 |} ]
  /\ updatesOf "long" (snd (fst first)) = []
  /\ (exists task,
        snd first = Some task
        /\ Task.await task = AwaitEntry
        /\ updatesOf "long"
             (snd (fst (resumeProcessCandle (Clock.every 1200040) task
                          (fst (fst first)))))
           = [update])
  /\ updatesOf "long" (snd (processCandle engine (Clock.every 1200000) tr))
     = [update].
Proof.
  cbv zeta. split; [reflexivity|]. split; [reflexivity|]. split; [reflexivity|].
  split; [|reflexivity].
  eexists. split; [reflexivity|]. split; reflexivity.
Qed.

(** ** The candle window under [handleMessage] *)

Section WindowFacts.

Variable jAlgo : Candles -> AlgorithmState -> Config -> option Result.t.

Lemma length_shift_push {A : Type} (arr : list A) (v : A) :
  List.length (JS.shift (JS.push arr v)) = List.length arr.
Proof.
  unfold JS.shift, JS.push. destruct arr as [|a arr]; simpl; [reflexivity|].
  rewrite length_app. simpl. lia.
Qed.

Lemma lengths_appendCandle k cs : lengths (appendCandle k cs) = lengths cs.
Proof.
  unfold lengths, appendCandle. simpl. now rewrite !length_shift_push.
Qed.

(** What [handleMessage] does to the window. *)
Lemma handleMessage_candles now data tr :
  candles (fst (handleMessage jAlgo now data tr)) =
    match data with
    | KlineEvent k =>
      if (lastCandleTime tr =? Kline.t k)%Z then candles tr
      else if Kline.x k then appendCandle k (candles tr) else candles tr
    | _ => candles tr
    end.
Proof.
  destruct data as [| |k]; try reflexivity.
  unfold handleMessage.
  destruct (lastCandleTime tr =? Kline.t k)%Z; [reflexivity|].
  destruct (Kline.x k); [|reflexivity].
  pose proof (processCandle_candles jAlgo now
                (set_candles (appendCandle k (candles (set_lastCandleTime (Kline.t k) tr)))
                   (set_lastCandleTime (Kline.t k) tr))) as H.
  destruct (processCandle _ _ _) as [tr3 effects]. exact H.
Qed.

Lemma handleMessage_lengths now data tr :
  lengths (candles (fst (handleMessage jAlgo now data tr))) = lengths (candles tr).
Proof.
  rewrite handleMessage_candles. destruct data as [| |k]; try reflexivity.
  destruct (lastCandleTime tr =? Kline.t k)%Z; [reflexivity|].
  destruct (Kline.x k); [apply lengths_appendCandle | reflexivity].
Qed.

Lemma handleMessages_cons now data rest tr :
  fst (handleMessages jAlgo ((now, data) :: rest) tr) =
    fst (handleMessages jAlgo rest (fst (handleMessage jAlgo now data tr))).
Proof.
  simpl. destruct (handleMessage jAlgo now data tr) as [tr1 e1]. simpl.
  destruct (handleMessages jAlgo rest tr1) as [tr2 e2]. reflexivity.
Qed.

Lemma handleMessages_lengths msgs tr :
  lengths (candles (fst (handleMessages jAlgo msgs tr))) = lengths (candles tr).
Proof.
  revert tr. induction msgs as [|[now data] rest IH]; intros tr; [reflexivity|].
  now rewrite handleMessages_cons, IH, handleMessage_lengths.
Qed.

Lemma sorted_shift_push (a b : list Z) (v : Z) :
  StronglySorted Z.lt (a ++ v :: b) ->
  StronglySorted Z.lt (JS.shift (JS.push a v) ++ b).
Proof.
  unfold JS.shift, JS.push. destruct a as [|u a]; simpl; intros H.
  - now inversion H.
  - inversion H; subst. now rewrite <- app_assoc.
Qed.

Lemma sorted_NoDup (l : list Z) : StronglySorted Z.lt l -> NoDup l.
Proof.
  induction 1 as [|a l Hs IH Hf]; constructor; [|exact IH].
  intros Hin. rewrite Forall_forall in Hf. specialize (Hf a Hin). lia.
Qed.

(** A kline whose open time is [lastCandleTime] is dropped. *)
Lemma handleMessage_repeated now k tr :
  Kline.t k = lastCandleTime tr ->
  handleMessage jAlgo now (KlineEvent k) tr = (tr, []).
Proof.
  intros Hk. unfold handleMessage. rewrite Hk, Z.eqb_refl. reflexivity.
Qed.

(** After a closed kline was handled, its open time is [lastCandleTime]. *)
Lemma handleMessage_closed_lastCandleTime now k tr :
  Kline.x k = true ->
  lastCandleTime (fst (handleMessage jAlgo now (KlineEvent k) tr)) = Kline.t k.
Proof.
  intros Hx. unfold handleMessage. rewrite Hx.
  destruct (Z.eqb_spec (lastCandleTime tr) (Kline.t k)) as [E|_]; [exact E|].
  pose proof (processCandle_lastCandleTime jAlgo now
                (set_candles (appendCandle k (candles (set_lastCandleTime (Kline.t k) tr)))
                   (set_lastCandleTime (Kline.t k) tr))) as H.
  destruct (processCandle _ _ _) as [tr3 effects]. simpl in *. exact H.
Qed.

End WindowFacts.

(** C2, on an instance just initialized whose snapshot ends with the candle
    that opens at 900000.  The check that is to skip a candle already
    processed compares the open time of the kline with [lastCandleTime],
    which is 0 after construction, and not with the open times stored: the
    close of that very candle is appended again, so that the window holds
    the open time 900000 twice and its open times do not increase.
    Likewise the candle that opens at 1200000 is stored twice when the
    candle that opens at 1500000 came in between. *)
Theorem C2_snapshot_candle_stored_twice :
  In 900000%Z (openTime (candles (Sample.freshTrader Sample.flat)))
  /\ openTime (candles (fst (handleMessage (Sample.engineReturning Sample.flat None)
                              (Clock.every 1200000) (KlineEvent Sample.closingTickOfLast)
                              (Sample.freshTrader Sample.flat))))
     = [600000; 900000; 900000]%Z
  /\ ~ NoDup [600000; 900000; 900000]%Z
  /\ ~ StronglySorted Z.lt [600000; 900000; 900000]%Z
  /\ openTime (candles (fst (handleMessages (Sample.engineReturning Sample.flat None)
                               [(Clock.every 1500000, KlineEvent (Sample.closedTick 1200000));
                                (Clock.every 1800000, KlineEvent (Sample.closedTick 1500000));
                                (Clock.every 1800001, KlineEvent (Sample.closedTick 1200000))]
                               (Sample.freshTrader Sample.flat))))
     = [1200000; 1500000; 1200000]%Z.
Proof.
  split; [simpl; tauto|]. split; [reflexivity|]. split; [|split; [|reflexivity]].
  - intros H. inversion H as [|? ? _ H1]; subst.
    inversion H1 as [|? ? Hn _]; subst. apply Hn. now left.
  - intros H. inversion H as [|? ? H1 _]; subst.
    inversion H1 as [|? ? _ Hf]; subst. inversion Hf; subst. lia.
Qed.

(** ** Forming and closing ticks *)

Section TickFacts.

Variable jAlgo : Candles -> AlgorithmState -> Config -> option Result.t.

Lemma engineCalls_app (a b : list Effect) :
  engineCalls (a ++ b) = engineCalls a + engineCalls b.
Proof.
  induction a as [|e a IH]; simpl; [reflexivity|]. destruct e; simpl; auto.
Qed.

(** Notifications and console output count neither as a call of the
    engine, nor as a socket or a backoff wait. *)
Lemma outputs_quiet (effects : list Effect) :
  forallb isOutput effects = true ->
  engineCalls effects = 0 /\ spawned effects = 0.
Proof.
  induction effects as [|e effects IH]; simpl; [auto|].
  intros H. apply andb_prop in H. destruct H as [He Hr].
  destruct e; try discriminate He; auto.
Qed.

(** [processCandle] invokes the engine once. *)
Lemma processCandle_engineCalls now tr :
  engineCalls (snd (processCandle jAlgo now tr)) = 1.
Proof.
  destruct (processCandle_outputs jAlgo now tr) as (rest & -> & Hout).
  simpl. now rewrite (proj1 (outputs_quiet rest Hout)).
Qed.

(** A kline that passes the check against [lastCandleTime] invokes the
    engine once when it is closed and not at all otherwise. *)
Lemma handleMessage_engineCalls now k tr :
  Kline.t k <> lastCandleTime tr ->
  engineCalls (snd (handleMessage jAlgo now (KlineEvent k) tr)) =
    if Kline.x k then 1 else 0.
Proof.
  intros Hne. unfold handleMessage.
  destruct (Z.eqb_spec (lastCandleTime tr) (Kline.t k)) as [E|_]; [congruence|].
  destruct (Kline.x k); [|reflexivity].
  pose proof (processCandle_engineCalls now
                (set_candles (appendCandle k (candles (set_lastCandleTime (Kline.t k) tr)))
                   (set_lastCandleTime (Kline.t k) tr))) as H.
  destruct (processCandle _ _ _) as [tr3 effects]. simpl in *. exact H.
Qed.

(** A tick that is not closed changes [lastCandleTime] and nothing else. *)
Lemma handleMessage_forming now k tr :
  Kline.x k = false ->
  handleMessage jAlgo now (KlineEvent k) tr =
    (set_lastCandleTime (Kline.t k) tr, []).
Proof.
  intros Hx. unfold handleMessage. rewrite Hx.
  destruct (Z.eqb_spec (lastCandleTime tr) (Kline.t k)) as [E|_]; [|reflexivity].
  destruct tr; simpl in *; subst; reflexivity.
Qed.

End TickFacts.

(** C1, at a forming tick followed by the closing tick of the same candle.
    Handled on its own, the closing tick of the candle that opens at 1200000
    reaches the engine once.  A forming tick of that candle is not ignored:
    it sets [lastCandleTime] to 1200000, and the closing tick that follows
    is then dropped by the check against [lastCandleTime]: the engine is not
    invoked and the window is left without the completed candle. *)
Theorem C1_forming_tick_drops_closing_tick :
  engineCalls
    (snd (handleMessage (Sample.engineReturning Sample.flat None) (Clock.every 1500000)
            (KlineEvent Sample.closingTick) (Sample.freshTrader Sample.flat))) = 1
  /\ fst (handleMessage (Sample.engineReturning Sample.flat None) (Clock.every 1400000)
            (KlineEvent Sample.formingTick) (Sample.freshTrader Sample.flat))
     <> Sample.freshTrader Sample.flat
  /\ lastCandleTime
       (fst (handleMessage (Sample.engineReturning Sample.flat None) (Clock.every 1400000)
               (KlineEvent Sample.formingTick) (Sample.freshTrader Sample.flat)))
     = 1200000%Z
  /\ engineCalls
       (snd (handleMessages (Sample.engineReturning Sample.flat None)
               [(Clock.every 1400000, KlineEvent Sample.formingTick);
                (Clock.every 1500000, KlineEvent Sample.closingTick)]
               (Sample.freshTrader Sample.flat))) = 0
  /\ candles
       (fst (handleMessages (Sample.engineReturning Sample.flat None)
               [(Clock.every 1400000, KlineEvent Sample.formingTick);
                (Clock.every 1500000, KlineEvent Sample.closingTick)]
               (Sample.freshTrader Sample.flat)))
     = candles (Sample.freshTrader Sample.flat).
Proof.
  split; [reflexivity|]. split; [|split; [reflexivity|split; reflexivity]].
  intros H. apply (f_equal lastCandleTime) in H. discriminate H.
Qed.

(** ** Backoff and reconnection *)

Lemma backoffDelays_app (a b : list Effect) :
  backoffDelays (a ++ b) = backoffDelays a ++ backoffDelays b.
Proof.
  induction a as [|e a IH]; simpl; [reflexivity|].
  destruct e as [| | | | | | |[ms|ms]| | |]; simpl; auto. now rewrite IH.
Qed.

(** [attemptReconnect] below the maximum: the counter is incremented and
    one backoff wait is set. *)
Lemma attemptReconnect_schedules tr :
  (reconnectAttempts tr < maxReconnectAttempts tr)%nat ->
  attemptReconnect tr =
    (set_reconnectAttempts (S (reconnectAttempts tr)) tr,
     [ConsoleLog "Attempting to reconnect";
      SetTimeout
        (ReconnectTimer
           (Z.min 30000 (reconnectDelay tr * 2 ^ Z.of_nat (reconnectAttempts tr))))]).
Proof.
  intros Hlt. unfold attemptReconnect.
  destruct (Nat.leb_spec (maxReconnectAttempts tr) (reconnectAttempts tr)); [lia|].
  cbn [reconnectAttempts reconnectDelay set_reconnectAttempts].
  replace (Z.of_nat (S (reconnectAttempts tr)) - 1)%Z
    with (Z.of_nat (reconnectAttempts tr)) by lia.
  reflexivity.
Qed.

(** [attemptReconnect] at the maximum: nothing but the console message. *)
Lemma attemptReconnect_gives_up tr :
  (maxReconnectAttempts tr <= reconnectAttempts tr)%nat ->
  attemptReconnect tr =
    (tr, [ConsoleError "Maximum reconnection attempts reached. Giving up."]).
Proof.
  intros Hle. unfold attemptReconnect.
  destruct (Nat.leb_spec (maxReconnectAttempts tr) (reconnectAttempts tr)); [|lia].
  reflexivity.
Qed.

Lemma attemptReconnects_gives_up n tr :
  (maxReconnectAttempts tr <= reconnectAttempts tr)%nat ->
  fst (attemptReconnects n tr) = tr
  /\ backoffDelays (snd (attemptReconnects n tr)) = []
  /\ spawned (snd (attemptReconnects n tr)) = 0.
Proof.
  intros Hle. induction n as [|n IH]; simpl; [auto|].
  rewrite attemptReconnect_gives_up by exact Hle.
  destruct (attemptReconnects n tr) as [tr2 e2]. simpl in *. exact IH.
Qed.


Lemma outputs_no_delays (effects : list Effect) :
  forallb isOutput effects = true -> backoffDelays effects = [].
Proof.
  induction effects as [|e effects IH]; simpl; [auto|].
  intros H. apply andb_prop in H. destruct H as [He Hr].
  destruct e; try discriminate He; auto.
Qed.

(** ** The stretches of a call of [processCandle] *)

Lemma dailyStatsCheck_tidy now L tr : tidy tr (dailyStatsCheck now L tr).
Proof.
  unfold tidy, dailyStatsCheck. destruct (heartbeatDue _ _); split; reflexivity.
Qed.

Lemma shortStopCheck_tidy now L tr : tidy tr (shortStopCheck now L tr).
Proof.
  unfold shortStopCheck.
  destruct (activeShortTrade tr); [|apply dailyStatsCheck_tidy].
  destruct (JS.strict_neq _ _); [|apply dailyStatsCheck_tidy].
  split; reflexivity.
Qed.

Lemma longStopCheck_tidy now L tr : tidy tr (longStopCheck now L tr).
Proof.
  unfold longStopCheck.
  destruct (activeLongTrade tr); [|apply shortStopCheck_tidy].
  destruct (JS.strict_neq _ _); [|apply shortStopCheck_tidy].
  split; reflexivity.
Qed.

Lemma entryCheck_tidy now L tr : tidy tr (entryCheck now L tr).
Proof.
  unfold entryCheck. destruct (_ || _); [|apply longStopCheck_tidy].
  pose proof (entryStep_frame (Clock.atId now) (Locals.result L)
                (Locals.currentClose L) (Locals.currentTime L) tr) as (_ & F).
  pose proof (entryStep_outputs (Clock.atId now) (Locals.result L)
                (Locals.currentClose L) (Locals.currentTime L) tr) as O.
  destruct (entryStep _ _ _ _ _) as [tr1 effects]. split; assumption.
Qed.

Lemma shortExitCheck_tidy now L tr : tidy tr (shortExitCheck now L tr).
Proof.
  unfold shortExitCheck. destruct (_ && _); [|apply entryCheck_tidy].
  destruct (shortExitOutcome _ _ _ _ _). split; reflexivity.
Qed.

Lemma longExitCheck_tidy now L tr : tidy tr (longExitCheck now L tr).
Proof.
  unfold longExitCheck. destruct (_ && _); [|apply shortExitCheck_tidy].
  destruct (longExitOutcome _ _ _ _ _). split; reflexivity.
Qed.

Lemma resumeAt_tidy now L a tr : tidy tr (resumeAt now L a tr).
Proof.
  destruct a; simpl; try (split; reflexivity).
  - apply (shortExitCheck_tidy now L (set_activeLongTrade None tr)).
  - apply (entryCheck_tidy now L (set_activeShortTrade None tr)).
  - apply longStopCheck_tidy.
  - destruct (activeLongTrade tr) as [trade|]; [|split; reflexivity].
    apply (shortStopCheck_tidy now L (set_activeLongTrade _ tr)).
  - destruct (activeShortTrade tr) as [trade|]; [|split; reflexivity].
    apply (dailyStatsCheck_tidy now L (set_activeShortTrade _ tr)).
Qed.

Lemma resumeProcessCandle_unseen now task tr :
  unseen tr (resumeProcessCandle now task tr).
Proof.
  unfold resumeProcessCandle.
  destruct (resumeAt_tidy now (Task.locals task) (Task.await task) tr) as (F & O).
  destruct (resumeAt _ _ _ _) as [[tr1 effects] next]. simpl in *.
  split; [apply fixedPart_fields, F|].
  split; [exact (proj2 (outputs_quiet effects O)) | exact (outputs_no_delays effects O)].
Qed.

Section BeginFacts.

Variable jAlgo : Candles -> AlgorithmState -> Config -> option Result.t.

(** The first stretch calls the engine once, first of all. *)
Lemma beginProcessCandle_tidy now tr :
  fixedPart (fst (fst (beginProcessCandle jAlgo now tr))) = fixedPart tr
  /\ exists rest,
       snd (fst (beginProcessCandle jAlgo now tr))
         = CallJAlgo (candles tr) (state tr) :: rest
       /\ forallb isOutput rest = true.
Proof.
  unfold beginProcessCandle.
  destruct (jAlgo _ _ _) as [r|]; [|split; [|eexists; split]; reflexivity].
  destruct (Result.indicators r); [|split; [|eexists; split]; reflexivity].
  match goal with
  | |- context [longExitCheck now ?L ?t] =>
    destruct (longExitCheck_tidy now L t) as (F & O);
      destruct (longExitCheck now L t) as [[tr1 effects] next]
  end.
  simpl in *. split; [exact F|]. eexists. split; [reflexivity|]. exact O.
Qed.

Lemma beginHandleMessage_unseen now data tr :
  unseen tr (beginHandleMessage jAlgo now data tr).
Proof.
  destruct data as [| |k]; try (repeat split; reflexivity).
  unfold beginHandleMessage.
  destruct (lastCandleTime tr =? Kline.t k)%Z; [repeat split; reflexivity|].
  destruct (Kline.x k); [|repeat split; reflexivity].
  match goal with
  | |- context [beginProcessCandle jAlgo now ?t] =>
    destruct (beginProcessCandle_tidy now t) as (F & rest & E & O);
      destruct (beginProcessCandle jAlgo now t) as [[tr3 effects] task]
  end.
  simpl in *. subst effects.
  split; [apply fixedPart_fields in F; apply F|].
  split; [exact (proj2 (outputs_quiet rest O)) | exact (outputs_no_delays rest O)].
Qed.

End BeginFacts.

(** ** The event loop *)

Lemma spawned_app (a b : list Effect) :
  spawned (a ++ b) = spawned a + spawned b.
Proof.
  induction a as [|e a IH]; simpl; [reflexivity|].
  destruct e as [| | | | | | |[ms|ms]| | |]; simpl; auto.
Qed.

Lemma connectionAttempts_app (a b : list Effect) :
  connectionAttempts (a ++ b) = connectionAttempts a + connectionAttempts b.
Proof.
  induction a as [|e a IH]; simpl; [reflexivity|]. destruct e; simpl; auto.
Qed.

Lemma connectionAttempts_le_spawned (effects : list Effect) :
  connectionAttempts effects <= spawned effects.
Proof.
  induction effects as [|e effects IH]; simpl; [lia|].
  destruct e as [| | | | | | |[ms|ms]| | |]; simpl; lia.
Qed.

Lemma openSockets_app (a b : list ReadyState) :
  openSockets (a ++ b) = openSockets a + openSockets b.
Proof. induction a as [|r a IH]; simpl; [reflexivity|]. rewrite IH. lia. Qed.

Lemma pendingReconnects_app (a b : list Timer) :
  pendingReconnects (a ++ b) = pendingReconnects a + pendingReconnects b.
Proof.
  induction a as [|t a IH]; simpl; [reflexivity|]. destruct t; simpl; lia.
Qed.

(** A socket that is not closed counts among the open ones, and changing
    its ready state changes the count by what the two states count. *)
Lemma openSockets_setReadyState s r r' socks :
  nth_error socks s = Some r ->
  openSockets (setReadyState s r' socks) + (if isClosed r then 0 else 1)
    = openSockets socks + (if isClosed r' then 0 else 1).
Proof.
  revert s. induction socks as [|r0 socks IH]; intros [|s] H; simpl in *;
    try discriminate.
  - inversion H; subst. lia.
  - specialize (IH s H). lia.
Qed.

Lemma openSockets_pos s r socks :
  nth_error socks s = Some r -> isClosed r = false -> 1 <= openSockets socks.
Proof.
  revert s. induction socks as [|r0 socks IH]; intros [|s] H Hr; simpl in *;
    try discriminate.
  - inversion H; subst. rewrite Hr. lia.
  - specialize (IH s H Hr). lia.
Qed.

Lemma openSockets_terminateSocket s socks :
  openSockets (terminateSocket s socks) = openSockets socks.
Proof.
  unfold terminateSocket. destruct (nth_error socks s) as [r|] eqn:H; [|reflexivity].
  pose proof (openSockets_setReadyState s r CLOSING socks H) as E.
  destruct r; simpl in *; lia.
Qed.

Lemma pendingReconnects_removeNth i tm tms :
  nth_error tms i = Some tm ->
  pendingReconnects (removeNth i tms)
    + match tm with ReconnectTimer _ => 1 | ConnectTimeout _ => 0 end
    = pendingReconnects tms.
Proof.
  revert i. induction tms as [|t0 tms IH]; intros [|i] H; simpl in *;
    try discriminate.
  - inversion H; subst. destruct tm; simpl; lia.
  - specialize (IH i H). destruct t0; simpl; lia.
Qed.

Lemma pendingReconnects_pos i ms tms :
  nth_error tms i = Some (ReconnectTimer ms) -> 1 <= pendingReconnects tms.
Proof.
  intros H. pose proof (pendingReconnects_removeNth i _ tms H). simpl in *. lia.
Qed.

(** What performing effects does to the world. *)
Lemma perform_facts w e :
  trader (perform w e) = trader w
  /\ trace (perform w e) = trace w ++ [e]
  /\ live (perform w e) = live w + spawned [e].
Proof.
  unfold live.
  destruct e as [| | | | | | |[ms|ms]| | |]; simpl;
    rewrite ?openSockets_app, ?pendingReconnects_app, ?openSockets_terminateSocket;
    simpl; repeat split; lia.
Qed.

Lemma fold_perform_facts effects w :
  trader (fold_left perform effects w) = trader w
  /\ trace (fold_left perform effects w) = trace w ++ effects
  /\ live (fold_left perform effects w) = live w + spawned effects.
Proof.
  revert w. induction effects as [|e effects IH]; intros w.
  - simpl. rewrite app_nil_r. repeat split; lia.
  - cbn [fold_left]. destruct (IH (perform w e)) as (H1 & H2 & H3).
    destruct (perform_facts w e) as (P1 & P2 & P3).
    pose proof (spawned_app [e] effects) as Hs. simpl app in Hs.
    rewrite H1, H2, H3, P1, P2, P3, <- app_assoc.
    split; [reflexivity|]. split; [reflexivity | lia].
Qed.

Lemma deliver_facts w r :
  trader (deliver w r) = fst r
  /\ trace (deliver w r) = trace w ++ snd r
  /\ live (deliver w r) = live w + spawned (snd r).
Proof.
  unfold deliver.
  destruct (fold_perform_facts (snd r)
              (mkWorld (fst r) (sockets w) (timers w) (trace w) (crashed w)
                 (suspended w)))
    as (H1 & H2 & H3).
  rewrite H1, H2, H3. auto.
Qed.

Section EventLoopFacts.

Variable jAlgo : Candles -> AlgorithmState -> Config -> option Result.t.

Lemma onClose_spawned tr : spawned (snd (onClose tr)) <= 1.
Proof.
  unfold onClose, attemptReconnect.
  destruct (_ <=? _)%nat; simpl; lia.
Qed.

Lemma onReconnectTimer_spawned fetched fresh tr :
  spawned (snd (onReconnectTimer fetched fresh tr)) <= 1.
Proof.
  unfold onReconnectTimer, connectWebSocket.
  destruct fetched; simpl; [|lia]. destruct (socket _); simpl; lia.
Qed.

Lemma onConnectTimeout_spawned tr : spawned (snd (onConnectTimeout tr)) = 0.
Proof.
  unfold onConnectTimeout. destruct (negb _); [|reflexivity].
  destruct (socket tr); reflexivity.
Qed.

Lemma stop_spawned tr : spawned (snd (stop tr)) = 0.
Proof. unfold stop. destruct (socket tr); reflexivity. Qed.

(** A handler that runs in a world [w0] that has [k] fewer open sockets and
    pending backoff waits than [w], and that creates at most [k]. *)
Lemma deliver_bound w w0 r k :
  trace w0 = trace w ->
  live w0 + k <= live w ->
  spawned (snd r) <= k ->
  live (deliver w0 r) <= live w
  /\ connectionAttempts (trace w) <= connectionAttempts (trace (deliver w0 r))
  /\ (connectionAttempts (trace w) < connectionAttempts (trace (deliver w0 r)) ->
      1 <= live w).
Proof.
  intros Htr Hlive Hsp.
  destruct (deliver_facts w0 r) as (_ & Ht & Hl).
  pose proof (connectionAttempts_le_spawned (snd r)) as Hc.
  rewrite Ht, Hl, Htr, connectionAttempts_app. lia.
Qed.

(** No event raises the number of open sockets and pending backoff waits,
    and a socket is created only while that number is not zero. *)
Lemma step_live w ev w1 :
  step jAlgo w ev = Some w1 ->
  live w1 <= live w
  /\ connectionAttempts (trace w) <= connectionAttempts (trace w1)
  /\ (connectionAttempts (trace w) < connectionAttempts (trace w1) -> 1 <= live w).
Proof.
  unfold step. destruct (crashed w); [discriminate|].
  destruct ev as [s|s|s|s now data|j now|i fetched|].
  - destruct (nth_error (sockets w) s) as [r|] eqn:Hs; [|discriminate].
    pose proof (openSockets_setReadyState s r OPEN _ Hs) as Ho.
    destruct r; try discriminate.
    intros H; inversion H; subst; clear H.
    apply (deliver_bound w _ _ 0); [reflexivity | | simpl; lia].
    unfold live, withSockets. simpl in *. lia.
  - destruct (nth_error (sockets w) s) as [r|] eqn:Hs; [|discriminate].
    pose proof (openSockets_setReadyState s r CLOSING _ Hs) as Ho.
    destruct r; try discriminate;
      intros H; inversion H; subst; clear H;
      (apply (deliver_bound w _ _ 0); [reflexivity | | simpl; lia]);
      unfold live, withSockets; simpl in *; lia.
  - destruct (nth_error (sockets w) s) as [r|] eqn:Hs; [|discriminate].
    pose proof (openSockets_setReadyState s r CLOSED _ Hs) as Ho.
    pose proof (onClose_spawned (trader w)) as Hsp.
    destruct r; try discriminate;
      intros H; inversion H; subst; clear H;
      (apply (deliver_bound w _ _ 1); [reflexivity | | exact Hsp]);
      unfold live, withSockets; simpl in *; lia.
  - destruct (nth_error (sockets w) s) as [[| | |]|] eqn:Hs; try discriminate.
    pose proof (beginHandleMessage_unseen jAlgo now data (trader w))
      as (_ & Hsp & _).
    destruct (beginHandleMessage jAlgo now data (trader w))
      as [[tr1 effects] task].
    intros H; inversion H; subst; clear H.
    apply (deliver_bound w _ _ 0);
      [reflexivity | unfold live; simpl; lia | simpl in *; lia].
  - destruct (nth_error (suspended w) j) as [task|]; [|discriminate].
    pose proof (resumeProcessCandle_unseen now task (trader w)) as (_ & Hsp & _).
    destruct (resumeProcessCandle now task (trader w)) as [[tr1 effects] next].
    intros H; inversion H; subst; clear H.
    apply (deliver_bound w _ _ 0);
      [reflexivity | unfold live; simpl; lia | simpl in *; lia].
  - destruct (nth_error (timers w) i) as [tm|] eqn:Hi; [|discriminate].
    pose proof (pendingReconnects_removeNth i tm _ Hi) as Hp.
    destruct tm as [ms|ms]; intros H; inversion H; subst; clear H.
    + apply (deliver_bound w _ _ 0); [reflexivity | |].
      * unfold live, withTimers. simpl in *. lia.
      * rewrite onConnectTimeout_spawned. lia.
    + apply (deliver_bound w _ _ 1); [reflexivity | |].
      * unfold live, withTimers. simpl in *. lia.
      * apply onReconnectTimer_spawned.
  - intros H; inversion H; subst; clear H.
    apply (deliver_bound w _ _ 0); [reflexivity | lia |].
    rewrite stop_spawned. lia.
Qed.

(** Along a run the number of open sockets and pending backoff waits never
    grows; once it is zero no socket is created any more. *)
Lemma run_live w evs w1 :
  run jAlgo w evs = Some w1 -> live w1 <= live w.
Proof.
  revert w. induction evs as [|ev evs IH]; intros w; simpl.
  - intros H; inversion H; subst. lia.
  - destruct (step jAlgo w ev) as [w'|] eqn:Hs; [|discriminate].
    intros H. specialize (IH w' H).
    destruct (step_live w ev w' Hs) as (Hl & _). lia.
Qed.

Lemma run_quiet w evs w1 :
  live w = 0 ->
  run jAlgo w evs = Some w1 ->
  connectionAttempts (trace w1) = connectionAttempts (trace w).
Proof.
  revert w. induction evs as [|ev evs IH]; intros w H0; simpl.
  - intros H; now inversion H.
  - destruct (step jAlgo w ev) as [w'|] eqn:Hs; [|discriminate].
    intros H. destruct (step_live w ev w' Hs) as (Hl & Hc & Hpos).
    rewrite (IH w'); [|lia|exact H]. lia.
Qed.

(** A trader just initialized has one open socket and no backoff wait. *)
Lemma initialWorld_live cfg snapshot st : live (initialWorld cfg snapshot st) = 1.
Proof. reflexivity. Qed.

(** With no open socket and no pending backoff wait, only guards that fire,
    suspended calls that resume and calls of [stop] remain, and they leave
    the attempt counter alone. *)
Lemma step_quiet_attempts w ev w1 :
  live w = 0 ->
  step jAlgo w ev = Some w1 ->
  reconnectAttempts (trader w1) = reconnectAttempts (trader w)
  /\ maxReconnectAttempts (trader w1) = maxReconnectAttempts (trader w).
Proof.
  unfold live. intros H0. unfold step. destruct (crashed w); [discriminate|].
  assert (Hsock : forall s r, nth_error (sockets w) s = Some r -> isClosed r = true).
  { intros s r Hs. destruct (isClosed r) eqn:Hr; [reflexivity|].
    pose proof (openSockets_pos s r _ Hs Hr). lia. }
  destruct ev as [s|s|s|s now data|j now|i fetched|].
  - destruct (nth_error (sockets w) s) as [r|] eqn:Hs; [|discriminate].
    specialize (Hsock s r Hs). destruct r; discriminate.
  - destruct (nth_error (sockets w) s) as [r|] eqn:Hs; [|discriminate].
    specialize (Hsock s r Hs). destruct r; discriminate.
  - destruct (nth_error (sockets w) s) as [r|] eqn:Hs; [|discriminate].
    specialize (Hsock s r Hs). destruct r; discriminate.
  - destruct (nth_error (sockets w) s) as [r|] eqn:Hs; [|discriminate].
    specialize (Hsock s r Hs). destruct r; discriminate.
  - destruct (nth_error (suspended w) j) as [task|]; [|discriminate].
    pose proof (resumeProcessCandle_unseen now task (trader w)) as (Hc & _).
    destruct (resumeProcessCandle now task (trader w)) as [[tr1 effects] next].
    intros H; inversion H; subst; clear H.
    destruct (deliver_facts
                (withSuspended (removeNth j (suspended w) ++ waiting next) w)
                (tr1, effects)) as (Ht & _).
    rewrite Ht. unfold connection in Hc. simpl in *. inversion Hc. auto.
  - destruct (nth_error (timers w) i) as [[ms|ms]|] eqn:Hi; try discriminate.
    + intros H; inversion H; subst; clear H.
      destruct (deliver_facts (withTimers (removeNth i (timers w)) w)
                  (onConnectTimeout (trader w))) as (Ht & _).
      rewrite Ht. unfold onConnectTimeout.
      destruct (negb (isConnected (trader w))); auto.
    + pose proof (pendingReconnects_pos i ms _ Hi). lia.
  - intros H; inversion H; subst; clear H.
    destruct (deliver_facts w (stop (trader w))) as (Ht & _).
    rewrite Ht. unfold stop. destruct (socket (trader w)); auto.
Qed.

Lemma run_quiet_attempts w evs w1 :
  live w = 0 ->
  run jAlgo w evs = Some w1 ->
  reconnectAttempts (trader w1) = reconnectAttempts (trader w)
  /\ maxReconnectAttempts (trader w1) = maxReconnectAttempts (trader w).
Proof.
  revert w. induction evs as [|ev evs IH]; intros w H0; simpl.
  - intros H; inversion H; auto.
  - destruct (step jAlgo w ev) as [w'|] eqn:Hs; [|discriminate].
    intros H. destruct (step_live w ev w' Hs) as (Hl & _).
    destruct (step_quiet_attempts w ev w' H0 Hs) as (Ha & Hm).
    destruct (IH w' ltac:(lia) H) as (Ha' & Hm'). split; congruence.
Qed.

(** A close that finds the attempt counter at the maximum sets no timer and
    leaves the counter as it is. *)
Lemma step_close_gives_up w s w1 :
  (maxReconnectAttempts (trader w) <= reconnectAttempts (trader w))%nat ->
  step jAlgo w (WsClose s) = Some w1 ->
  timers w1 = timers w
  /\ trader w1 = set_isConnected false (trader w)
  /\ live w1 + 1 = live w.
Proof.
  intros Hmax. unfold step. destruct (crashed w); [discriminate|].
  destruct (nth_error (sockets w) s) as [r|] eqn:Hs; [|discriminate].
  pose proof (openSockets_setReadyState s r CLOSED _ Hs) as Ho.
  assert (Hc : onClose (trader w) =
               (set_isConnected false (trader w),
                [ConsoleLog "WebSocket disconnected";
                 ConsoleError "Maximum reconnection attempts reached. Giving up."])).
  { unfold onClose. rewrite attemptReconnect_gives_up by exact Hmax. reflexivity. }
  rewrite Hc.
  destruct r; try discriminate; intros H; inversion H; subst; clear H;
    unfold live; simpl in *; (split; [reflexivity|]); (split; [reflexivity|]); lia.
Qed.

End EventLoopFacts.

(** Whatever event marks the instance connected, it is the ['open'] of a
    socket, and it leaves the attempt counter at 0 and the base delay at
    1000. *)
Lemma step_connected jAlgo w ev w1 :
  step jAlgo w ev = Some w1 ->
  isConnected (trader w) = false ->
  isConnected (trader w1) = true ->
  reconnectAttempts (trader w1) = 0 /\ reconnectDelay (trader w1) = 1000%Z.
Proof.
  unfold step. destruct (crashed w); [discriminate|].
  destruct ev as [s|s|s|s now data|j now|i fetched|].
  - destruct (nth_error (sockets w) s) as [[| | |]|]; try discriminate.
    intros H _ _; inversion H; subst; clear H.
    destruct (deliver_facts (withSockets (setReadyState s OPEN (sockets w)) w)
                (onOpen (trader w))) as (Ht & _).
    rewrite Ht. auto.
  - destruct (nth_error (sockets w) s) as [r|]; [|discriminate].
    destruct r; try discriminate; intros H _ Hc; inversion H; subst; clear H;
      match type of Hc with
      | context [deliver ?w0 ?r0] =>
        destruct (deliver_facts w0 r0) as (Ht & _); rewrite Ht in Hc
      end; discriminate Hc.
  - destruct (nth_error (sockets w) s) as [r|]; [|discriminate].
    assert (Hoff : isConnected (fst (onClose (trader w))) = false).
    { unfold onClose, attemptReconnect. destruct (_ <=? _)%nat; reflexivity. }
    destruct r; try discriminate; intros H _ Hc; inversion H; subst; clear H;
      match type of Hc with
      | context [deliver ?w0 ?r0] =>
        destruct (deliver_facts w0 r0) as (Ht & _); rewrite Ht in Hc
      end; congruence.
  - destruct (nth_error (sockets w) s) as [[| | |]|]; try discriminate.
    pose proof (beginHandleMessage_unseen jAlgo now data (trader w)) as (Hk & _).
    destruct (beginHandleMessage jAlgo now data (trader w))
      as [[tr1 effects] task].
    intros H Hoff Hc; inversion H; subst; clear H.
    match type of Hc with
    | context [deliver ?w0 ?r0] =>
      destruct (deliver_facts w0 r0) as (Ht & _); rewrite Ht in Hc
    end.
    unfold connection in Hk. simpl in *. inversion Hk. congruence.
  - destruct (nth_error (suspended w) j) as [task|]; [|discriminate].
    pose proof (resumeProcessCandle_unseen now task (trader w)) as (Hk & _).
    destruct (resumeProcessCandle now task (trader w)) as [[tr1 effects] next].
    intros H Hoff Hc; inversion H; subst; clear H.
    match type of Hc with
    | context [deliver ?w0 ?r0] =>
      destruct (deliver_facts w0 r0) as (Ht & _); rewrite Ht in Hc
    end.
    unfold connection in Hk. simpl in *. inversion Hk. congruence.
  - destruct (nth_error (timers w) i) as [[ms|ms]|]; try discriminate;
      intros H Hoff Hc; inversion H; subst; clear H;
      match type of Hc with
      | context [deliver ?w0 ?r0] =>
        destruct (deliver_facts w0 r0) as (Ht & _); rewrite Ht in Hc
      end.
    + unfold onConnectTimeout in Hc.
      destruct (negb (isConnected (trader w))); simpl in Hc; congruence.
    + unfold onReconnectTimer, connectWebSocket in Hc.
      destruct fetched; simpl in Hc; congruence.
  - intros H _ Hc; inversion H; subst; clear H.
    destruct (deliver_facts w (stop (trader w))) as (Ht & _). rewrite Ht in Hc.
    unfold stop in Hc. destruct (socket (trader w)); discriminate Hc.
Qed.

(** C4.  With the base delay of 1000 ms, the backoff wait set before the
    reconnect attempt [k], for [k] from 1 to 10, is
    [min(30000, 1000 * 2^(k-1))] ms; ten attempts in a row wait 1000, 2000,
    4000, 8000, 16000, 30000, 30000, 30000, 30000 and 30000 ms.  The
    ['open'] handler puts the attempt counter and the base delay back to the
    values the constructor gives them, 0 and 1000, so that the next wait is
    1000 ms again; and whatever event of the event loop takes the instance
    from disconnected to connected leaves them at these values. *)
Theorem C4_backoff_delays :
  (forall tr k,
      (1 <= k <= 10)%nat ->
      reconnectAttempts tr = k - 1 ->
      reconnectDelay tr = 1000%Z ->
      maxReconnectAttempts tr = 10 ->
      backoffDelays (snd (attemptReconnect tr))
        = [Z.min 30000 (1000 * 2 ^ (Z.of_nat k - 1))]
      /\ reconnectAttempts (fst (attemptReconnect tr)) = k)
  /\
  (forall cfg snapshot st,
      backoffDelays (snd (attemptReconnects 10 (newTrader cfg snapshot st)))
        = [1000; 2000; 4000; 8000; 16000; 30000; 30000; 30000; 30000; 30000]%Z)
  /\
  (forall tr cfg snapshot st,
      isConnected (fst (onOpen tr)) = true
      /\ reconnectAttempts (fst (onOpen tr))
         = reconnectAttempts (newTrader cfg snapshot st)
      /\ reconnectDelay (fst (onOpen tr))
         = reconnectDelay (newTrader cfg snapshot st)
      /\ reconnectAttempts (fst (onOpen tr)) = 0
      /\ reconnectDelay (fst (onOpen tr)) = 1000%Z
      /\ (maxReconnectAttempts tr = 10 ->
          backoffDelays (snd (attemptReconnect (fst (onOpen tr)))) = [1000%Z]))
  /\
  (forall jAlgo w ev w1 cfg snapshot st,
      step jAlgo w ev = Some w1 ->
      isConnected (trader w) = false ->
      isConnected (trader w1) = true ->
      reconnectAttempts (trader w1) = reconnectAttempts (newTrader cfg snapshot st)
      /\ reconnectDelay (trader w1) = reconnectDelay (newTrader cfg snapshot st)).
Proof.
  split; [|split; [|split]].
  - intros tr k Hk Ha Hd Hm.
    rewrite attemptReconnect_schedules by lia. simpl.
    rewrite Hd, Ha. split; [|lia].
    replace (Z.of_nat (k - 1)) with (Z.of_nat k - 1)%Z by lia. reflexivity.
  - intros cfg snapshot st. reflexivity.
  - intros tr cfg snapshot st. repeat split.
    intros Hm. rewrite attemptReconnect_schedules by (simpl; lia). reflexivity.
  - intros jAlgo w ev w1 cfg snapshot st Hstep Hoff Hon.
    exact (step_connected jAlgo w ev w1 Hstep Hoff Hon).
Qed.

(** The sixth attempt in a row waits 30000 ms, the cap; an open after
    three failures puts the wait back to 1000 ms; the open of the first
    socket of the sample trader leaves the counter at 0. *)
Lemma C4_backoff_delays_witness :
  (backoffDelays
     (snd (attemptReconnect
             (set_reconnectAttempts 5 (Sample.freshTrader Sample.flat))))
     = [30000%Z]
   /\ reconnectAttempts
        (fst (attemptReconnect
                (set_reconnectAttempts 5 (Sample.freshTrader Sample.flat)))) = 6)
  /\ backoffDelays
       (snd (attemptReconnect
               (fst (onOpen (set_reconnectAttempts 3 (Sample.freshTrader Sample.flat))))))
     = [1000%Z]
  /\ (reconnectAttempts (trader Sample.connected) = 0
      /\ reconnectDelay (trader Sample.connected) = 1000%Z).
Proof.
  split; [|split].
  - apply (proj1 C4_backoff_delays
             (set_reconnectAttempts 5 (Sample.freshTrader Sample.flat)) 6);
      [lia | reflexivity | reflexivity | reflexivity].
  - apply (proj1 (proj2 (proj2 C4_backoff_delays))
             (set_reconnectAttempts 3 (Sample.freshTrader Sample.flat))
             Sample.defaultConfig (Sample.window 102.5 100.5 102) Sample.flat).
    reflexivity.
  - apply (proj2 (proj2 (proj2 C4_backoff_delays))
             Sample.idleEngine Sample.startWorld (WsOpen 0) Sample.connected
             Sample.defaultConfig (Sample.window 102.5 100.5 102) Sample.flat);
      vm_compute; reflexivity.
Defined.

(** C5.  Ten reconnect attempts in a row bring the attempt counter to the
    maximum of 10; the eleventh call of [attemptReconnect] gives up: it sets
    no timer and changes nothing, and so does every later call.  In every
    run of a trader just initialized, once a close finds the counter at the
    maximum, no socket is created any more whatever events follow, and the
    counter stays where it is. *)
Theorem C5_gives_up_after_max_attempts :
  (forall cfg snapshot st,
      let tr10 := fst (attemptReconnects 10 (newTrader cfg snapshot st)) in
      List.length
        (backoffDelays (snd (attemptReconnects 10 (newTrader cfg snapshot st)))) = 10
      /\ reconnectAttempts tr10 = 10
      /\ maxReconnectAttempts tr10 = 10
      /\ attemptReconnect tr10 =
           (tr10, [ConsoleError "Maximum reconnection attempts reached. Giving up."]))
  /\
  (forall tr n,
      (maxReconnectAttempts tr <= reconnectAttempts tr)%nat ->
      fst (attemptReconnects n tr) = tr
      /\ backoffDelays (snd (attemptReconnects n tr)) = []
      /\ spawned (snd (attemptReconnects n tr)) = 0)
  /\
  (forall jAlgo cfg snapshot st evs0 w s w1,
      run jAlgo (initialWorld cfg snapshot st) evs0 = Some w ->
      (maxReconnectAttempts (trader w) <= reconnectAttempts (trader w))%nat ->
      step jAlgo w (WsClose s) = Some w1 ->
      timers w1 = timers w
      /\ reconnectAttempts (trader w1) = reconnectAttempts (trader w)
      /\ forall evs w2,
           run jAlgo w1 evs = Some w2 ->
           connectionAttempts (trace w2) = connectionAttempts (trace w1)
           /\ reconnectAttempts (trader w2) = reconnectAttempts (trader w1)
           /\ maxReconnectAttempts (trader w2) = maxReconnectAttempts (trader w1)).
Proof.
  split; [|split].
  - intros cfg snapshot st. cbv zeta.
    split; [vm_compute; reflexivity|]. split; [vm_compute; reflexivity|].
    split; vm_compute; reflexivity.
  - intros tr n Hmax. now apply attemptReconnects_gives_up.
  - intros jAlgo cfg snapshot st evs0 w s w1 Hrun Hmax Hstep.
    destruct (step_close_gives_up jAlgo w s w1 Hmax Hstep) as (Ht & Htr & Hl).
    pose proof (run_live jAlgo _ _ _ Hrun) as Hle.
    rewrite initialWorld_live in Hle.
    assert (H0 : live w1 = 0) by lia.
    split; [exact Ht|]. split; [now rewrite Htr|].
    intros evs w2 Hrun2. split.
    + exact (run_quiet jAlgo w1 evs w2 H0 Hrun2).
    + exact (run_quiet_attempts jAlgo w1 evs w2 H0 Hrun2).
Qed.

(** After ten failed connections of the sample trader the close of the
    eleventh socket gives up, and neither the guards that fire afterwards
    nor a call of [stop] open a twelfth. *)
Lemma C5_gives_up_after_max_attempts_witness :
  run Sample.idleEngine Sample.startWorld (Sample.failingRounds 10)
    = Some Sample.afterTenFailures
  /\ reconnectAttempts (trader Sample.afterTenFailures) = 10
  /\ step Sample.idleEngine Sample.afterTenFailures (WsClose 10)
     = Some Sample.afterGivingUp
  /\ timers Sample.afterGivingUp = timers Sample.afterTenFailures
  /\ connectionAttempts (trace Sample.afterGivingUp) = 11
  /\ run Sample.idleEngine Sample.afterGivingUp
       [TimerFires 0 None; CallStop; TimerFires 0 None]
     = Some Sample.longAfterGivingUp
  /\ connectionAttempts (trace Sample.longAfterGivingUp)
     = connectionAttempts (trace Sample.afterGivingUp)
  /\ reconnectAttempts (trader Sample.longAfterGivingUp) = 10.
Proof.
  assert (Hrun : run Sample.idleEngine
                   (initialWorld Sample.defaultConfig
                      (Sample.window 102.5 100.5 102) Sample.flat)
                   (Sample.failingRounds 10) = Some Sample.afterTenFailures)
    by (vm_compute; reflexivity).
  assert (Hmax : (maxReconnectAttempts (trader Sample.afterTenFailures)
                  <= reconnectAttempts (trader Sample.afterTenFailures))%nat)
    by (vm_compute; lia).
  assert (Hstep : step Sample.idleEngine Sample.afterTenFailures (WsClose 10)
                  = Some Sample.afterGivingUp)
    by (vm_compute; reflexivity).
  assert (Hlater : run Sample.idleEngine Sample.afterGivingUp
                     [TimerFires 0 None; CallStop; TimerFires 0 None]
                   = Some Sample.longAfterGivingUp)
    by (vm_compute; reflexivity).
  destruct (proj2 (proj2 C5_gives_up_after_max_attempts)
              Sample.idleEngine Sample.defaultConfig
              (Sample.window 102.5 100.5 102) Sample.flat
              (Sample.failingRounds 10) Sample.afterTenFailures 10
              Sample.afterGivingUp Hrun Hmax Hstep) as (Ht & Ha & Hrest).
  destruct (Hrest _ _ Hlater) as (Hc & Hr & _).
  split; [exact Hrun|]. split; [vm_compute; reflexivity|].
  split; [exact Hstep|]. split; [exact Ht|].
  split; [vm_compute; reflexivity|].
  split; [exact Hlater|]. split; [exact Hc|].
  rewrite Hr. vm_compute; reflexivity.
Defined.

(** [stop] drops the socket and marks the instance disconnected; the timers
    that are pending stay pending. *)
Lemma stop_keeps_timers jAlgo w w1 :
  step jAlgo w CallStop = Some w1 ->
  timers w1 = timers w
  /\ socket (trader w1) = None
  /\ isConnected (trader w1) = false.
Proof.
  unfold step. destruct (crashed w); [discriminate|].
  intros H; inversion H; subst; clear H.
  unfold stop. destruct (socket (trader w)) as [s|] eqn:Hs; simpl; auto.
Qed.

(** [stop] on a connected trader: the socket it terminates still emits its
    ['close'], whose handler starts a backoff wait. *)
Lemma stop_while_connected_reconnects :
  exists w,
    run Sample.idleEngine Sample.startWorld [WsOpen 0; CallStop; WsClose 0] = Some w
    /\ socket (trader w) = None
    /\ timers w = [ConnectTimeout 10000; ReconnectTimer 1000].
Proof.
  eexists. split; [vm_compute; reflexivity|]. split; reflexivity.
Qed.

(** C3, at a call of [stop] during the first backoff wait.  The trader was
    connected and lost its connection, so that the backoff wait of 1000 ms
    is pending.  [stop] drops the socket and marks the instance
    disconnected, but the wait stays pending; when it fires the snapshot is
    fetched and a new socket is created. *)
Theorem C3_stop_leaves_reconnect_pending :
  run Sample.idleEngine Sample.startWorld [WsOpen 0; WsClose 0]
    = Some Sample.inBackoff
  /\ timers Sample.inBackoff = [ConnectTimeout 10000; ReconnectTimer 1000]
  /\ step Sample.idleEngine Sample.inBackoff CallStop
     = Some Sample.stoppedInBackoff
  /\ socket (trader Sample.stoppedInBackoff) = None
  /\ isConnected (trader Sample.stoppedInBackoff) = false
  /\ timers Sample.stoppedInBackoff = [ConnectTimeout 10000; ReconnectTimer 1000]
  /\ step Sample.idleEngine Sample.stoppedInBackoff
       (TimerFires 1 (Some (Sample.window 102.5 100.5 102)))
     = Some Sample.reconnectedAfterStop
  /\ connectionAttempts (trace Sample.reconnectedAfterStop)
     = S (connectionAttempts (trace Sample.stoppedInBackoff))
  /\ socket (trader Sample.reconnectedAfterStop) = Some 1
  /\ sockets Sample.reconnectedAfterStop = [CLOSED; CONNECTING].
Proof. repeat (split; [vm_compute; reflexivity|]). vm_compute; reflexivity. Qed.

(** ** The window as a sliding list of candles *)

Lemma combine_snoc {A B : Type} (a : list A) (b : list B) (x : A) (y : B) :
  List.length a = List.length b ->
  combine (a ++ [x]) (b ++ [y]) = combine a b ++ [(x, y)].
Proof.
  revert b. induction a as [|u a IH]; intros [|v b] H; simpl in *;
    try discriminate; [reflexivity|].
  rewrite IH by lia. reflexivity.
Qed.

Lemma combine_tl {A B : Type} (a : list A) (b : list B) :
  combine (tl a) (tl b) = tl (combine a b).
Proof.
  destruct a as [|u a], b as [|v b]; simpl; try reflexivity.
  now destruct a.
Qed.

Lemma map_tl {A B : Type} (f : A -> B) (l : list A) : map f (tl l) = tl (map f l).
Proof. now destruct l. Qed.

Lemma rectangular_lengths cs :
  rectangular cs ->
  List.length (open cs) = List.length (openTime cs)
  /\ List.length (high cs) = List.length (openTime cs)
  /\ List.length (low cs) = List.length (openTime cs)
  /\ List.length (close cs) = List.length (openTime cs)
  /\ List.length (volume cs) = List.length (openTime cs)
  /\ List.length (closeTime cs) = List.length (openTime cs).
Proof.
  unfold rectangular, lengths. simpl. intros H. inversion H. repeat split; congruence.
Qed.

(** The response is read back from the arrays row by row. *)
Lemma rowsOf_formatKlines data : rowsOf (formatKlines data) = data.
Proof.
  unfold rowsOf, formatKlines. simpl.
  induction data as [|[t o h l c v T] data IH]; simpl; [reflexivity|].
  now rewrite IH.
Qed.

Lemma rectangular_formatKlines data : rectangular (formatKlines data).
Proof.
  unfold rectangular, lengths, formatKlines. simpl. now rewrite !length_map.
Qed.

(** One push and one shift per array: the oldest candle leaves, the new one
    is the last. *)
Lemma rowsOf_appendCandle k cs :
  rectangular cs ->
  rowsOf (appendCandle k cs) = tl (rowsOf cs ++ [candleOf k]).
Proof.
  intros H. destruct (rectangular_lengths cs H) as (H1 & H2 & H3 & H4 & H5 & H6).
  unfold rowsOf, appendCandle, JS.shift, JS.push. simpl.
  rewrite !combine_tl, map_tl.
  rewrite !combine_snoc, map_app; [reflexivity | | | | | |];
    rewrite ?length_combine; lia.
Qed.

Lemma rectangular_appendCandle k cs :
  rectangular cs -> rectangular (appendCandle k cs).
Proof.
  unfold rectangular. intros H. rewrite lengths_appendCandle, H.
  unfold appendCandle. simpl. now rewrite length_shift_push.
Qed.

Section StreamFacts.

Variable jAlgo : Candles -> AlgorithmState -> Config -> option Result.t.

(** After a kline was handled its open time is [lastCandleTime], closed or
    not; other messages leave [lastCandleTime] alone. *)
Lemma handleMessage_lastCandleTime now data tr :
  lastCandleTime (fst (handleMessage jAlgo now data tr)) =
    match data with
    | KlineEvent k => Kline.t k
    | _ => lastCandleTime tr
    end.
Proof.
  destruct data as [| |k]; try reflexivity.
  destruct (Kline.x k) eqn:Hx.
  - now apply handleMessage_closed_lastCandleTime.
  - rewrite handleMessage_forming by exact Hx. reflexivity.
Qed.

Lemma handleMessages_snd_cons now data rest tr :
  snd (handleMessages jAlgo ((now, data) :: rest) tr) =
    snd (handleMessage jAlgo now data tr)
      ++ snd (handleMessages jAlgo rest (fst (handleMessage jAlgo now data tr))).
Proof.
  simpl. destruct (handleMessage jAlgo now data tr) as [tr1 e1]. simpl.
  destruct (handleMessages jAlgo rest tr1) as [tr2 e2]. reflexivity.
Qed.

Lemma handleMessages_rows msgs tr :
  rectangular (candles tr) ->
  let ks := appended (lastCandleTime tr) msgs in
  rowsOf (candles (fst (handleMessages jAlgo msgs tr)))
    = skipn (List.length ks) (rowsOf (candles tr) ++ map candleOf ks)
  /\ rectangular (candles (fst (handleMessages jAlgo msgs tr)))
  /\ engineCalls (snd (handleMessages jAlgo msgs tr)) = List.length ks.
Proof.
  revert tr. induction msgs as [|[now data] rest IH]; intros tr Hrect.
  - simpl. rewrite app_nil_r. auto.
  - cbv zeta. rewrite handleMessages_cons, handleMessages_snd_cons, engineCalls_app.
    pose proof (handleMessage_candles jAlgo now data tr) as Hc.
    pose proof (handleMessage_lastCandleTime now data tr) as Hl.
    set (tr1 := fst (handleMessage jAlgo now data tr)) in *.
    specialize (IH tr1). cbv zeta in IH. rewrite Hc, Hl in IH.
    destruct data as [| |k]; cbn [appended]; try exact (IH Hrect).
    destruct (Z.eqb_spec (lastCandleTime tr) (Kline.t k)) as [E|E].
    + subst tr1. rewrite handleMessage_repeated in * by congruence.
      rewrite <- E in IH. exact (IH Hrect).
    + subst tr1. rewrite handleMessage_engineCalls by congruence.
      destruct (Kline.x k); [|exact (IH Hrect)].
      destruct (IH (rectangular_appendCandle k _ Hrect)) as (I1 & I2 & I3).
      split; [|split; [exact I2 | rewrite I3; reflexivity]].
      rewrite I1, rowsOf_appendCandle by exact Hrect.
      cbn [List.length map].
      destruct (rowsOf (candles tr)) as [|row rows]; simpl;
        rewrite <- ?app_assoc; reflexivity.
Qed.

(** Messages without kline change nothing wherever they come in a stream. *)
Lemma handleMessages_filter msgs tr :
  fst (handleMessages jAlgo msgs tr)
    = fst (handleMessages jAlgo (filter isKline msgs) tr)
  /\ appended (lastCandleTime tr) msgs
     = appended (lastCandleTime tr) (filter isKline msgs).
Proof.
  revert tr. induction msgs as [|[now data] rest IH]; intros tr; [auto|].
  destruct data as [| |k]; cbn [filter isKline snd].
  - rewrite handleMessages_cons. exact (IH tr).
  - rewrite handleMessages_cons. exact (IH tr).
  - rewrite !handleMessages_cons. cbn [appended].
    destruct (IH (fst (handleMessage jAlgo now (KlineEvent k) tr))) as (I1 & I2).
    rewrite handleMessage_lastCandleTime in I2.
    split; [exact I1|].
    destruct (Z.eqb_spec (lastCandleTime tr) (Kline.t k)) as [E|E].
    + destruct (IH tr) as (_ & I3). exact I3.
    + destruct (Kline.x k); [now rewrite I2 | exact I2].
Qed.

End StreamFacts.

Lemma last_of_snoc {A : Type} (l : list A) (a : A) : JS.last_of (l ++ [a]) = Some a.
Proof.
  unfold JS.last_of. rewrite length_app. simpl.
  replace (List.length l + 1 - 1) with (List.length l) by lia.
  rewrite nth_error_app2 by lia. now rewrite Nat.sub_diag.
Qed.

Lemma last_of_shift_push {A : Type} (arr : list A) (a : A) :
  arr <> [] -> JS.last_of (JS.shift (JS.push arr a)) = Some a.
Proof.
  unfold JS.shift, JS.push. destruct arr as [|u arr]; [congruence|].
  intros _. simpl. apply last_of_snoc.
Qed.

Lemma closedTimes_length msgs : List.length (closedTimes msgs) <= List.length msgs.
Proof.
  induction msgs as [|[now [| |k]] rest IH]; simpl; try lia.
  destruct (Kline.x k); simpl; lia.
Qed.

Lemma appended_length_le last msgs :
  List.length (appended last msgs) <= List.length (closedTimes msgs).
Proof.
  revert last. induction msgs as [|[now [| |k]] rest IH]; intros last; simpl;
    try apply IH; [lia|].
  destruct (last =? Kline.t k)%Z, (Kline.x k); simpl;
    try (specialize (IH last); lia); specialize (IH (Kline.t k)); lia.
Qed.

(** In a stream of closing ticks whose open times increase from
    [lastCandleTime] on, every kline is appended. *)
Lemma appended_all last msgs :
  List.length (closedTimes msgs) = List.length msgs ->
  StronglySorted Z.lt (last :: closedTimes msgs) ->
  List.length (appended last msgs) = List.length msgs.
Proof.
  revert last. induction msgs as [|[now data] rest IH]; intros last Hlen Hs;
    [reflexivity|].
  pose proof (closedTimes_length rest) as Hle.
  destruct data as [| |k]; simpl in Hlen; try lia.
  destruct (Kline.x k) eqn:Hx; simpl in Hlen; [|lia].
  simpl in *. rewrite Hx in *. inversion Hs as [|? ? Hs' Hf]; subst.
  inversion Hf as [|? ? Hlt _]; subst.
  destruct (Z.eqb_spec last (Kline.t k)) as [E|_]; [lia|].
  simpl. rewrite IH; [reflexivity | lia | exact Hs'].
Qed.

(** The engine is invoked once per kline appended. *)
Lemma handleMessages_engineCalls jAlgo msgs tr :
  engineCalls (snd (handleMessages jAlgo msgs tr))
    = List.length (appended (lastCandleTime tr) msgs).
Proof.
  revert tr. induction msgs as [|[now data] rest IH]; intros tr; [reflexivity|].
  rewrite handleMessages_snd_cons, engineCalls_app, IH,
    handleMessage_lastCandleTime.
  destruct data as [| |k]; try reflexivity. cbn [appended].
  destruct (Z.eqb_spec (lastCandleTime tr) (Kline.t k)) as [E|E].
  - rewrite handleMessage_repeated by congruence. simpl. now rewrite E.
  - rewrite handleMessage_engineCalls by congruence.
    destruct (Kline.x k); reflexivity.
Qed.

(** X1.  The snapshot fetch splits the rows of the response into seven
    arrays of equal length from which the rows are read back as they were,
    in their order; a response that is not an array makes it throw. *)
Theorem X1_fetch_round_trip (response : option (list Candle.t)) :
  match fetchBinanceData response with
  | Some cs =>
    exists data, response = Some data
                 /\ rowsOf cs = data
                 /\ lengths cs = repeat (List.length data) 7
  | None => response = None
  end.
Proof.
  destruct response as [data|]; simpl; [|reflexivity].
  exists data. split; [reflexivity|]. split; [apply rowsOf_formatKlines|].
  unfold lengths, formatKlines. simpl. now rewrite !length_map.
Qed.

(** X2.  On a window whose arrays have the same length, handling a stream
    leaves the window as long as it was and slides it: its candles are those
    of the old window followed by the klines appended, without as many of
    the oldest as klines were appended.  The appended klines are the closed
    ones whose open time differs from that of the kline handled before. *)
Theorem X2_sliding_window jAlgo msgs tr :
  rectangular (candles tr) ->
  rowsOf (candles (fst (handleMessages jAlgo msgs tr)))
    = skipn (List.length (appended (lastCandleTime tr) msgs))
        (rowsOf (candles tr) ++ map candleOf (appended (lastCandleTime tr) msgs))
  /\ rectangular (candles (fst (handleMessages jAlgo msgs tr)))
  /\ List.length (rowsOf (candles (fst (handleMessages jAlgo msgs tr))))
     = List.length (rowsOf (candles tr)).
Proof.
  intros Hrect.
  destruct (handleMessages_rows jAlgo msgs tr Hrect) as (H1 & H2 & _).
  split; [exact H1|]. split; [exact H2|].
  cbv zeta in H1. rewrite H1, length_skipn, length_app, length_map. lia.
Qed.

(** On the sample window the sample stream appends the candles that open at
    1200000 and 1500000, each once. *)
Lemma X2_sliding_window_witness :
  rowsOf (candles (fst (handleMessages Sample.idleEngine Scenario.stream
                          (Sample.freshTrader Sample.flat))))
    = [ Candle.mk 900000 101 102.5 100.5 102 9 1199999;
        candleOf (Sample.closedTick 1200000);
        candleOf (Sample.closedTick 1500000) ]
  /\ rectangular (candles (fst (handleMessages Sample.idleEngine Scenario.stream
                                 (Sample.freshTrader Sample.flat))))
  /\ List.length (rowsOf (candles (fst (handleMessages Sample.idleEngine
                                          Scenario.stream
                                          (Sample.freshTrader Sample.flat)))))
     = 3.
Proof.
  apply (X2_sliding_window Sample.idleEngine Scenario.stream
           (Sample.freshTrader Sample.flat)).
  reflexivity.
Defined.

(** X3.  Over a stream the engine is invoked once for each kline appended
    to the window, so at most once per closing tick; when the stream holds
    nothing but closing ticks whose open times increase from
    [lastCandleTime] on, it is invoked once per message. *)
Theorem X3_engine_calls_of_stream jAlgo msgs tr :
  engineCalls (snd (handleMessages jAlgo msgs tr))
    = List.length (appended (lastCandleTime tr) msgs)
  /\ engineCalls (snd (handleMessages jAlgo msgs tr))
     <= List.length (closedTimes msgs)
  /\ (List.length (closedTimes msgs) = List.length msgs ->
      StronglySorted Z.lt (lastCandleTime tr :: closedTimes msgs) ->
      engineCalls (snd (handleMessages jAlgo msgs tr)) = List.length msgs).
Proof.
  pose proof (handleMessages_engineCalls jAlgo msgs tr) as H.
  split; [exact H|]. split.
  - rewrite H. apply appended_length_le.
  - intros Hlen Hs. rewrite H. now apply appended_all.
Qed.

(** Two closing ticks in order on the sample trader: two engine calls. *)
Lemma X3_engine_calls_of_stream_witness :
  engineCalls
    (snd (handleMessages Sample.idleEngine
            [(Clock.every 1500000, KlineEvent (Sample.closedTick 1200000));
             (Clock.every 1800000, KlineEvent (Sample.closedTick 1500000))]
            (Sample.freshTrader Sample.flat))) = 2.
Proof.
  apply (proj2 (proj2 (X3_engine_calls_of_stream Sample.idleEngine
                         [(Clock.every 1500000, KlineEvent (Sample.closedTick 1200000));
                          (Clock.every 1800000, KlineEvent (Sample.closedTick 1500000))]
                         (Sample.freshTrader Sample.flat)))).
  - reflexivity.
  - simpl. repeat (constructor; [|repeat (constructor; try lia)]). constructor.
Defined.

(** X4.  A closing tick that passes the check against [lastCandleTime] is
    handed to the engine as the last candle of the window: the engine is
    called with the window the tick was appended to, and on a window that
    was not empty the current close, high, low and close time that
    [processCandle] reads are those of the tick.  On an empty window the
    tick is pushed and shifted out again: the window stays empty and the
    current candle is undefined. *)
Theorem X4_current_candle jAlgo now k tr :
  Kline.t k <> lastCandleTime tr ->
  Kline.x k = true ->
  let w := appendCandle k (candles tr) in
  candles (fst (handleMessage jAlgo now (KlineEvent k) tr)) = w
  /\ In (CallJAlgo w (state tr)) (snd (handleMessage jAlgo now (KlineEvent k) tr))
  /\ (close (candles tr) <> [] -> JS.last_of (close w) = Some (Kline.c k))
  /\ (high (candles tr) <> [] -> JS.last_of (high w) = Some (Kline.h k))
  /\ (low (candles tr) <> [] -> JS.last_of (low w) = Some (Kline.l k))
  /\ (closeTime (candles tr) <> [] -> JS.last_of (closeTime w) = Some (Kline.T k))
  /\ (lengths (candles tr) = repeat 0 7 ->
      w = candles tr /\ JS.last_of (close w) = None /\ rowsOf w = []).
Proof.
  intros Hne Hx w.
  split.
  { rewrite handleMessage_candles.
    destruct (Z.eqb_spec (lastCandleTime tr) (Kline.t k)); [congruence|].
    now rewrite Hx. }
  split.
  { unfold handleMessage.
    destruct (Z.eqb_spec (lastCandleTime tr) (Kline.t k)); [congruence|].
    rewrite Hx.
    destruct (processCandle_outputs jAlgo now
                (set_candles (appendCandle k (candles (set_lastCandleTime (Kline.t k) tr)))
                   (set_lastCandleTime (Kline.t k) tr))) as (rest & Hs & _).
    destruct (processCandle _ _ _) as [tr3 effects]. simpl in *.
    right. rewrite Hs. now left. }
  subst w. unfold appendCandle. cbn [close high low closeTime].
  repeat (split; [intros H; now apply last_of_shift_push|]).
  intros H. unfold lengths in H. simpl in H.
  injection H as H1 H2 H3 H4 H5 H6 H7.
  destruct (candles tr) as [a b c d e f g]. simpl in *.
  apply length_zero_iff_nil in H1, H2, H3, H4, H5, H6, H7. subst.
  repeat split.
Qed.

(** On the sample window the closing tick is the current candle; on an
    empty window it is lost. *)
Lemma X4_current_candle_witness :
  (JS.last_of (close (appendCandle Sample.closingTick
                        (candles (Sample.freshTrader Sample.flat))))
     = Some 103%float
   /\ JS.last_of (high (appendCandle Sample.closingTick
                          (candles (Sample.freshTrader Sample.flat))))
      = Some 104%float)
  /\ appendCandle Sample.closingTick (candles Scenario.emptyTrader)
     = candles Scenario.emptyTrader.
Proof.
  pose proof (X4_current_candle Sample.idleEngine (Clock.every 1500000) Sample.closingTick
                (Sample.freshTrader Sample.flat)) as H1.
  pose proof (X4_current_candle Sample.idleEngine (Clock.every 1500000) Sample.closingTick
                Scenario.emptyTrader) as H2.
  cbv zeta in H1, H2.
  destruct H1 as (_ & _ & Hc & Hh & _); [discriminate | reflexivity |].
  destruct H2 as (_ & _ & _ & _ & _ & _ & He); [discriminate | reflexivity |].
  split; [split|].
  - apply Hc. discriminate.
  - apply Hh. discriminate.
  - apply He. reflexivity.
Defined.

(** X5.  Messages that do not parse or carry no kline leave the instance as
    it is wherever they come in a stream: the instance the stream ends with
    is the one its kline messages alone end with. *)
Theorem X5_messages_without_kline jAlgo msgs tr :
  fst (handleMessages jAlgo msgs tr)
    = fst (handleMessages jAlgo (filter isKline msgs) tr)
  /\ engineCalls (snd (handleMessages jAlgo msgs tr))
     = engineCalls (snd (handleMessages jAlgo (filter isKline msgs) tr)).
Proof.
  destruct (handleMessages_filter jAlgo msgs tr) as (H1 & H2).
  split; [exact H1|].
  rewrite !handleMessages_engineCalls. now rewrite H2.
Qed.

(** ** Exits that neither reach the target nor gain *)

(** X6.  When a side leaves its trade on a processed candle without its
    target being reached, the new signal is on the opposite side and the
    close did not move favourably, the one exit notification of that side
    reports the loss
    [-Math.min(|distance| / |entry - stop|, 1.0) * riskAmount
     * (useLeverage ? leverageAmount : 1)], with the reason
    "New Signal (Short)" or "New Signal (Long)"; the reward multiple plays no
    part in it. *)
Theorem X6_adverse_exit jAlgo now tr r ind :
  jAlgo (candles tr) (state tr) (config tr) = Some r ->
  Result.indicators r = Some ind ->
  let prev := state tr in
  let effects := snd (processCandle jAlgo now tr) in
  let close := JS.toNumber (JS.last_of (close (candles tr))) in
  let lev :=
    if useLeverage (config tr) then leverageAmount (config tr) else 1%float in
  (inLongTrade prev = true -> inLongTrade (Result.state r) = false ->
   JS.ge (JS.toNumber (JS.last_of (high (candles tr)))) (longTargetLevel prev) = false ->
   signalIs (Result.signal r) "short" = true ->
   JS.gt (close - longEntryPrice prev) 0 = false ->
   exists e, exitsOf "long" effects = [e]
             /\ ExitSignal.reason e = "New Signal (Short)"
             /\ ExitSignal.profitLoss e =
                  (- JS.Math_min
                       (JS.Math_abs (close - longEntryPrice prev)
                        / JS.Math_abs (longEntryPrice prev - longStopReference prev)) 1
                   * riskAmount prev * lev)%float)
  /\
  (inShortTrade prev = true -> inShortTrade (Result.state r) = false ->
   JS.le (JS.toNumber (JS.last_of (low (candles tr)))) (shortTargetLevel prev) = false ->
   signalIs (Result.signal r) "long" = true ->
   JS.gt (shortEntryPrice prev - close) 0 = false ->
   exists e, exitsOf "short" effects = [e]
             /\ ExitSignal.reason e = "New Signal (Long)"
             /\ ExitSignal.profitLoss e =
                  (- JS.Math_min
                       (JS.Math_abs (shortEntryPrice prev - close)
                        / JS.Math_abs (shortStopReference prev - shortEntryPrice prev)) 1
                   * riskAmount prev * lev)%float).
Proof.
  intros He Hi prev effects close lev. subst effects. split.
  - intros Hp Hn Hmiss Hsig Hadv.
    rewrite (long_exits jAlgo now tr r ind He Hi). cbv zeta.
    subst prev. rewrite Hp, Hn. simpl andb. cbv iota.
    unfold longExitOutcome. rewrite Hmiss, Hsig. cbv zeta.
    eexists. split; [reflexivity|].
    cbn [ExitSignal.reason ExitSignal.profitLoss fst snd].
    split; [reflexivity|]. subst close. rewrite Hadv. reflexivity.
  - intros Hp Hn Hmiss Hsig Hadv.
    rewrite (short_exits jAlgo now tr r ind He Hi). cbv zeta.
    subst prev. rewrite Hp, Hn. simpl andb. cbv iota.
    unfold shortExitOutcome. rewrite Hmiss, Hsig. cbv zeta.
    eexists. split; [reflexivity|].
    cbn [ExitSignal.reason ExitSignal.profitLoss fst snd].
    split; [reflexivity|]. subst close. rewrite Hadv. reflexivity.
Qed.

(** The sample long trade (entry 100, stop 95, 10 at risk) closed by a short
    signal at 98 loses 4; the sample short trade (entry 100, stop 105)
    closed by a long signal at 110, beyond its stop, loses the 10 at risk. *)
Lemma X6_adverse_exit_witness :
  (exists e,
      exitsOf "long"
        (snd (processCandle
                (Sample.engineReturning Sample.flippedShort (Some (mkSignal "short")))
                (Clock.every 1200000) (Sample.longTrader 101 97 98))) = [e]
      /\ ExitSignal.reason e = "New Signal (Short)"
      /\ ExitSignal.profitLoss e = (-4)%float)
  /\
  (exists e,
      exitsOf "short"
        (snd (processCandle
                (Sample.engineReturning Sample.longOpen (Some (mkSignal "long")))
                (Clock.every 1200000) (Sample.shortTrader 111 109 110))) = [e]
      /\ ExitSignal.reason e = "New Signal (Long)"
      /\ ExitSignal.profitLoss e = (-10)%float).
Proof.
  split.
  - apply (proj1 (X6_adverse_exit
                    (Sample.engineReturning Sample.flippedShort (Some (mkSignal "short")))
                    (Clock.every 1200000) (Sample.longTrader 101 97 98)
                    (Sample.resultWith Sample.flippedShort (Some (mkSignal "short")))
                    Sample.someIndicators eq_refl eq_refl));
      reflexivity.
  - apply (proj2 (X6_adverse_exit
                    (Sample.engineReturning Sample.longOpen (Some (mkSignal "long")))
                    (Clock.every 1200000) (Sample.shortTrader 111 109 110)
                    (Sample.resultWith Sample.longOpen (Some (mkSignal "long")))
                    Sample.someIndicators eq_refl eq_refl));
      reflexivity.
Defined.

(** X7.  When a side leaves its trade on a processed candle without its
    target being reached and without a new signal on the opposite side, the
    exit is still notified: with the reason "Unknown" and a profit of 0. *)
Theorem X7_unknown_exit jAlgo now tr r ind :
  jAlgo (candles tr) (state tr) (config tr) = Some r ->
  Result.indicators r = Some ind ->
  let prev := state tr in
  let effects := snd (processCandle jAlgo now tr) in
  (inLongTrade prev = true -> inLongTrade (Result.state r) = false ->
   JS.ge (JS.toNumber (JS.last_of (high (candles tr)))) (longTargetLevel prev) = false ->
   signalIs (Result.signal r) "short" = false ->
   exists e, exitsOf "long" effects = [e]
             /\ ExitSignal.reason e = "Unknown"
             /\ ExitSignal.profitLoss e = 0%float)
  /\
  (inShortTrade prev = true -> inShortTrade (Result.state r) = false ->
   JS.le (JS.toNumber (JS.last_of (low (candles tr)))) (shortTargetLevel prev) = false ->
   signalIs (Result.signal r) "long" = false ->
   exists e, exitsOf "short" effects = [e]
             /\ ExitSignal.reason e = "Unknown"
             /\ ExitSignal.profitLoss e = 0%float).
Proof.
  intros He Hi prev effects. subst effects. split.
  - intros Hp Hn Hmiss Hsig.
    rewrite (long_exits jAlgo now tr r ind He Hi). cbv zeta.
    subst prev. rewrite Hp, Hn. simpl andb. cbv iota.
    unfold longExitOutcome. rewrite Hmiss, Hsig.
    eexists. split; [reflexivity|]. split; reflexivity.
  - intros Hp Hn Hmiss Hsig.
    rewrite (short_exits jAlgo now tr r ind He Hi). cbv zeta.
    subst prev. rewrite Hp, Hn. simpl andb. cbv iota.
    unfold shortExitOutcome. rewrite Hmiss, Hsig.
    eexists. split; [reflexivity|]. split; reflexivity.
Qed.

(** The sample trades closed by the engine on a quiet candle, without any
    signal. *)
Lemma X7_unknown_exit_witness :
  (exists e,
      exitsOf "long"
        (snd (processCandle (Sample.engineReturning Sample.longClosed None)
                (Clock.every 1200000) (Sample.longTrader 104 102 103))) = [e]
      /\ ExitSignal.reason e = "Unknown"
      /\ ExitSignal.profitLoss e = 0%float)
  /\
  (exists e,
      exitsOf "short"
        (snd (processCandle (Sample.engineReturning Sample.flat None)
                (Clock.every 1200000) (Sample.shortTrader 99 96 98))) = [e]
      /\ ExitSignal.reason e = "Unknown"
      /\ ExitSignal.profitLoss e = 0%float).
Proof.
  split.
  - apply (proj1 (X7_unknown_exit
                    (Sample.engineReturning Sample.longClosed None)
                    (Clock.every 1200000) (Sample.longTrader 104 102 103)
                    (Sample.resultWith Sample.longClosed None)
                    Sample.someIndicators eq_refl eq_refl));
      reflexivity.
  - apply (proj2 (X7_unknown_exit
                    (Sample.engineReturning Sample.flat None)
                    (Clock.every 1200000) (Sample.shortTrader 99 96 98)
                    (Sample.resultWith Sample.flat None)
                    Sample.someIndicators eq_refl eq_refl));
      reflexivity.
Defined.

(** ** Entries, stop updates and the bookkeeping of a processed candle *)

Lemma entriesOf_app (a b : list Effect) :
  entriesOf (a ++ b) = entriesOf a ++ entriesOf b.
Proof.
  induction a as [|e a IH]; simpl; [reflexivity|]. destruct e; simpl; auto.
  now rewrite IH.
Qed.

Lemma kinds_app (a b : list Effect) : kinds (a ++ b) = kinds a ++ kinds b.
Proof.
  induction a as [|e a IH]; simpl; [reflexivity|]. destruct e; simpl; auto;
    now rewrite IH.
Qed.

(** The trade id counter moves in the entry step only, [lastStatsUpdate] in
    the heartbeat step only. *)
Lemma longExitStep_counters prev r cc ch tr :
  tradeIdCounter (fst (longExitStep prev r cc ch tr)) = tradeIdCounter tr
  /\ lastStatsUpdate (fst (longExitStep prev r cc ch tr)) = lastStatsUpdate tr.
Proof. step_cases; auto. Qed.

Lemma shortExitStep_counters prev r cc cl tr :
  tradeIdCounter (fst (shortExitStep prev r cc cl tr)) = tradeIdCounter tr
  /\ lastStatsUpdate (fst (shortExitStep prev r cc cl tr)) = lastStatsUpdate tr.
Proof. step_cases; auto. Qed.

Lemma longStopStep_counters prev tr :
  tradeIdCounter (fst (longStopStep prev tr)) = tradeIdCounter tr
  /\ lastStatsUpdate (fst (longStopStep prev tr)) = lastStatsUpdate tr.
Proof. step_cases; auto. Qed.

Lemma shortStopStep_counters prev tr :
  tradeIdCounter (fst (shortStopStep prev tr)) = tradeIdCounter tr
  /\ lastStatsUpdate (fst (shortStopStep prev tr)) = lastStatsUpdate tr.
Proof. step_cases; auto. Qed.

Lemma heartbeatStep_trades now later r tr :
  tradeIdCounter (fst (heartbeatStep now later r tr)) = tradeIdCounter tr
  /\ activeLongTrade (fst (heartbeatStep now later r tr)) = activeLongTrade tr
  /\ activeShortTrade (fst (heartbeatStep now later r tr)) = activeShortTrade tr.
Proof. step_cases; auto. Qed.

(** The entry step by the signal. *)
Lemma entryStep_long now r cc ct tr :
  signalIs (Result.signal r) "long" = true ->
  entryStep now r cc ct tr =
    (set_activeLongTrade
       (Some {| ActiveTrade.id :=
                  mkTradeId (symbol (config tr)) now (tradeIdCounter tr + 1);
                ActiveTrade.entryTime := ct;
                ActiveTrade.entryPrice := cc;
                ActiveTrade.stopLevel := longStopReference (state tr);
                ActiveTrade.targetLevel := longTargetLevel (state tr);
                ActiveTrade.riskAmount := riskAmount (state tr) |})
       (set_tradeIdCounter (tradeIdCounter tr + 1) tr),
     [SendEntry
        {| EntrySignal.position := "long";
           EntrySignal.price := cc;
           EntrySignal.stopLevel := longStopReference (state tr);
           EntrySignal.targetLevel := longTargetLevel (state tr) |} (state tr)]).
Proof.
  unfold entryStep, signalIs. destruct (Result.signal r) as [sig|]; [|discriminate].
  intros ->. reflexivity.
Qed.

Lemma entryStep_short now r cc ct tr :
  signalIs (Result.signal r) "long" = false ->
  signalIs (Result.signal r) "short" = true ->
  entryStep now r cc ct tr =
    (set_activeShortTrade
       (Some {| ActiveTrade.id :=
                  mkTradeId (symbol (config tr)) now (tradeIdCounter tr + 1);
                ActiveTrade.entryTime := ct;
                ActiveTrade.entryPrice := cc;
                ActiveTrade.stopLevel := shortStopReference (state tr);
                ActiveTrade.targetLevel := shortTargetLevel (state tr);
                ActiveTrade.riskAmount := riskAmount (state tr) |})
       (set_tradeIdCounter (tradeIdCounter tr + 1) tr),
     [SendEntry
        {| EntrySignal.position := "short";
           EntrySignal.price := cc;
           EntrySignal.stopLevel := shortStopReference (state tr);
           EntrySignal.targetLevel := shortTargetLevel (state tr) |} (state tr)]).
Proof.
  unfold entryStep, signalIs. destruct (Result.signal r) as [sig|]; [|discriminate].
  intros -> ->. reflexivity.
Qed.

Lemma entriesOf_outputs_free prev r cc ch cl now later tr :
  entriesOf (snd (longExitStep prev r cc ch tr)) = []
  /\ entriesOf (snd (shortExitStep prev r cc cl tr)) = []
  /\ entriesOf (snd (longStopStep prev tr)) = []
  /\ entriesOf (snd (shortStopStep prev tr)) = []
  /\ entriesOf (snd (heartbeatStep now later r tr)) = [].
Proof.
  repeat split; step_cases; reflexivity.
Qed.

Section EntryFacts.

Variable jAlgo : Candles -> AlgorithmState -> Config -> option Result.t.

(** The instance as the entry step finds it: the new state, and the
    configuration and the trade id counter of before. *)
Lemma before_entry prev r cc ch cl tr :
  let tr2 := fst (shortExitStep prev r cc cl (fst (longExitStep prev r cc ch tr))) in
  state tr2 = state tr /\ config tr2 = config tr
  /\ tradeIdCounter tr2 = tradeIdCounter tr
  /\ lastStatsUpdate tr2 = lastStatsUpdate tr.
Proof.
  cbv zeta.
  destruct (shortExitStep_frame prev r cc cl (fst (longExitStep prev r cc ch tr)))
    as (S2 & F2 & _).
  destruct (longExitStep_frame prev r cc ch tr) as (S1 & F1 & _).
  apply fixedPart_fields in F1, F2.
  destruct (shortExitStep_counters prev r cc cl (fst (longExitStep prev r cc ch tr)))
    as (C2 & L2).
  destruct (longExitStep_counters prev r cc ch tr) as (C1 & L1).
  repeat split; try congruence. destruct F1 as (F1 & _), F2 as (F2 & _). congruence.
Qed.

(** The entries of a processed candle are those of the entry step. *)
Lemma entriesOf_processCandle now tr r ind :
  jAlgo (candles tr) (state tr) (config tr) = Some r ->
  Result.indicators r = Some ind ->
  let prev := state tr in
  let tr0 := set_state (Result.state r) tr in
  let cc := JS.last_of (close (candles tr)) in
  let s1 := longExitStep prev r cc (JS.last_of (high (candles tr))) tr0 in
  let s2 := shortExitStep prev r cc (JS.last_of (low (candles tr))) (fst s1) in
  let s3 :=
    entryStep (Clock.atId now) r cc (JS.last_of (closeTime (candles tr))) (fst s2) in
  entriesOf (snd (processCandle jAlgo now tr)) = entriesOf (snd s3)
  /\ tradeIdCounter (fst (processCandle jAlgo now tr)) = tradeIdCounter (fst s3).
Proof.
  intros He Hi. rewrite (processCandle_returns jAlgo now tr r ind He Hi).
  cbv zeta. cbn [fst snd]. split.
  - change ([CallJAlgo (candles tr) (state tr); ConsoleLog "Indicators:";
             ConsoleLog "Signal generated:"] ++ ?a)
      with (CallJAlgo (candles tr) (state tr) :: ConsoleLog "Indicators:"
              :: ConsoleLog "Signal generated:" :: a).
    cbn [entriesOf]. rewrite !entriesOf_app.
    repeat match goal with
           | |- context [entriesOf (snd (longExitStep ?a ?b ?c ?d ?e))] =>
             rewrite (proj1 (entriesOf_outputs_free a b c d d 0%Z 0%Z e))
           | |- context [entriesOf (snd (shortExitStep ?a ?b ?c ?d ?e))] =>
             rewrite (proj1 (proj2 (entriesOf_outputs_free a b c d d 0%Z 0%Z e)))
           | |- context [entriesOf (snd (longStopStep ?a ?e))] =>
             rewrite (proj1 (proj2 (proj2
                       (entriesOf_outputs_free a r None None None 0%Z 0%Z e))))
           | |- context [entriesOf (snd (shortStopStep ?a ?e))] =>
             rewrite (proj1 (proj2 (proj2 (proj2
                       (entriesOf_outputs_free a r None None None 0%Z 0%Z e)))))
           | |- context [entriesOf (snd (heartbeatStep ?n ?l ?b ?e))] =>
             rewrite (proj2 (proj2 (proj2 (proj2
                       (entriesOf_outputs_free (state tr) b None None None n l e)))))
           end.
    cbn [entriesOf app]. now rewrite !app_nil_r.
  - rewrite (proj1 (heartbeatStep_trades _ _ _ _)).
    rewrite (proj1 (shortStopStep_counters _ _)).
    rewrite (proj1 (longStopStep_counters _ _)). reflexivity.
Qed.

End EntryFacts.

(** ** Order and number of the notifications *)

Lemma kinds_longExitStep prev r cc ch tr :
  kinds (snd (longExitStep prev r cc ch tr)) = []
  \/ kinds (snd (longExitStep prev r cc ch tr)) = [0].
Proof. step_cases; simpl; auto. Qed.

Lemma kinds_shortExitStep prev r cc cl tr :
  kinds (snd (shortExitStep prev r cc cl tr)) = []
  \/ kinds (snd (shortExitStep prev r cc cl tr)) = [0].
Proof. step_cases; simpl; auto. Qed.

Lemma kinds_entryStep now r cc ct tr :
  (kinds (snd (entryStep now r cc ct tr)) = []
   \/ kinds (snd (entryStep now r cc ct tr)) = [1])
  /\ List.length (entriesOf (snd (entryStep now r cc ct tr))) <= 1.
Proof. step_cases; simpl; auto. Qed.

Lemma kinds_longStopStep prev tr :
  kinds (snd (longStopStep prev tr)) = []
  \/ kinds (snd (longStopStep prev tr)) = [2].
Proof. step_cases; simpl; auto. Qed.

Lemma kinds_shortStopStep prev tr :
  kinds (snd (shortStopStep prev tr)) = []
  \/ kinds (snd (shortStopStep prev tr)) = [2].
Proof. step_cases; simpl; auto. Qed.

Lemma kinds_heartbeatStep now later r tr : kinds (snd (heartbeatStep now later r tr)) = [].
Proof. step_cases; reflexivity. Qed.

(** X10.  Among the trade notifications of one processed candle the exits
    come first, then the entry, then the stop updates; there are at most
    two exits, one entry and two stop updates. *)
Theorem X10_notification_order jAlgo now tr :
  StronglySorted le (kinds (snd (processCandle jAlgo now tr)))
  /\ List.length (kinds (snd (processCandle jAlgo now tr))) <= 5
  /\ List.length (entriesOf (snd (processCandle jAlgo now tr))) <= 1.
Proof.
  destruct (processCandle_cases jAlgo now tr) as [(r & ind & He & Hi) | ->].
  2:{ simpl. repeat split; try lia. constructor. }
  destruct (entriesOf_processCandle jAlgo now tr r ind He Hi) as (HE & _).
  cbv zeta in HE. rewrite HE. clear HE.
  rewrite (processCandle_returns jAlgo now tr r ind He Hi). cbv zeta. cbn [snd].
  change ([CallJAlgo (candles tr) (state tr); ConsoleLog "Indicators:";
           ConsoleLog "Signal generated:"] ++ ?a)
    with (CallJAlgo (candles tr) (state tr) :: ConsoleLog "Indicators:"
            :: ConsoleLog "Signal generated:" :: a).
  cbn [kinds]. rewrite !kinds_app. cbn [kinds app].
  set (cc := JS.last_of (close (candles tr))).
  set (s1 := longExitStep _ _ _ _ _).
  set (s2 := shortExitStep _ _ _ _ _).
  set (s3 := entryStep _ _ _ _ _).
  set (s4 := longStopStep _ _).
  set (s5 := shortStopStep _ _).
  set (s6 := heartbeatStep _ _ _ _).
  assert (K1 : kinds (snd s1) = [] \/ kinds (snd s1) = [0])
    by apply kinds_longExitStep.
  assert (K2 : kinds (snd s2) = [] \/ kinds (snd s2) = [0])
    by apply kinds_shortExitStep.
  assert (K3 : (kinds (snd s3) = [] \/ kinds (snd s3) = [1])
               /\ List.length (entriesOf (snd s3)) <= 1)
    by apply kinds_entryStep.
  destruct K3 as (K3 & E3).
  assert (K4 : kinds (snd s4) = [] \/ kinds (snd s4) = [2])
    by apply kinds_longStopStep.
  assert (K5 : kinds (snd s5) = [] \/ kinds (snd s5) = [2])
    by apply kinds_shortStopStep.
  assert (K6 : kinds (snd s6) = []) by apply kinds_heartbeatStep.
  clearbody s1 s2 s3 s4 s5 s6. rewrite K6.
  destruct K1 as [-> | ->], K2 as [-> | ->], K3 as [-> | ->],
    K4 as [-> | ->], K5 as [-> | ->]; simpl;
    (split; [repeat (constructor; [|repeat (constructor; try lia)]);
             try constructor | split; [lia | exact E3]]).
Qed.

(** ** Trade ids *)

Section IdFacts.

Variable jAlgo : Candles -> AlgorithmState -> Config -> option Result.t.

Lemma idsFresh_longExitStep prev r cc ch tr :
  idsFresh tr -> idsFresh (fst (longExitStep prev r cc ch tr)).
Proof.
  unfold idsFresh. intros (H1 & H2 & H3). step_cases; simpl;
    repeat split; auto; discriminate.
Qed.

Lemma idsFresh_shortExitStep prev r cc cl tr :
  idsFresh tr -> idsFresh (fst (shortExitStep prev r cc cl tr)).
Proof.
  unfold idsFresh. intros (H1 & H2 & H3). step_cases; simpl;
    repeat split; auto; discriminate.
Qed.

Lemma idsFresh_entryStep now r cc ct tr :
  idsFresh tr ->
  idsFresh (fst (entryStep now r cc ct tr))
  /\ tradeIdCounter (fst (entryStep now r cc ct tr))
     = (tradeIdCounter tr
        + Z.of_nat (List.length (entriesOf (snd (entryStep now r cc ct tr)))))%Z.
Proof.
  unfold idsFresh. intros (H1 & H2 & H3). unfold entryStep.
  destruct (Result.signal r) as [sig|]; [|simpl; repeat split; auto; lia].
  destruct (String.eqb (position sig) "long").
  { simpl. repeat split; try lia.
    - intros a Ha. inversion Ha; subst. simpl. lia.
    - intros a Ha. specialize (H2 a Ha). lia.
    - intros a b Ha Hb. inversion Ha; subst. simpl. specialize (H2 b Hb). lia. }
  destruct (String.eqb (position sig) "short"); [|simpl; repeat split; auto; lia].
  simpl. repeat split; try lia.
  - intros a Ha. specialize (H1 a Ha). lia.
  - intros a Ha. inversion Ha; subst. simpl. lia.
  - intros a b Ha Hb. inversion Hb; subst. simpl. specialize (H1 a Ha). lia.
Qed.

Lemma idsFresh_longStopStep prev tr :
  idsFresh tr -> idsFresh (fst (longStopStep prev tr)).
Proof.
  intros H. unfold longStopStep.
  destruct (activeLongTrade tr) as [a0|] eqn:Ha0; [|exact H].
  destruct (JS.strict_neq _ _); [|exact H].
  destruct H as (H1 & H2 & H3). unfold idsFresh. simpl. repeat split.
  - intros a Ha. inversion Ha; subst. simpl. now apply H1.
  - exact H2.
  - intros a b Ha Hb. inversion Ha; subst. simpl. now apply H3.
Qed.

Lemma idsFresh_shortStopStep prev tr :
  idsFresh tr -> idsFresh (fst (shortStopStep prev tr)).
Proof.
  intros H. unfold shortStopStep.
  destruct (activeShortTrade tr) as [a0|] eqn:Ha0; [|exact H].
  destruct (JS.strict_neq _ _); [|exact H].
  destruct H as (H1 & H2 & H3). unfold idsFresh. simpl. repeat split.
  - exact H1.
  - intros a Ha. inversion Ha; subst. simpl. now apply H2.
  - intros a b Ha Hb. inversion Hb; subst. simpl. now apply H3.
Qed.

Lemma idsFresh_heartbeatStep now later r tr :
  idsFresh tr -> idsFresh (fst (heartbeatStep now later r tr)).
Proof.
  unfold idsFresh. intros H. unfold heartbeatStep.
  destruct (statsNeverSent tr || _); exact H.
Qed.

Lemma idsFresh_processCandle now tr :
  idsFresh tr ->
  idsFresh (fst (processCandle jAlgo now tr))
  /\ tradeIdCounter (fst (processCandle jAlgo now tr))
     = (tradeIdCounter tr
        + Z.of_nat (List.length (entriesOf (snd (processCandle jAlgo now tr)))))%Z.
Proof.
  intros H.
  destruct (processCandle_cases jAlgo now tr) as [(r & ind & He & Hi) | ->].
  2:{ simpl. split; [exact H | lia]. }
  destruct (entriesOf_processCandle jAlgo now tr r ind He Hi) as (HE & HC).
  cbv zeta in HE, HC. rewrite HE, HC. clear HE HC.
  rewrite (processCandle_returns jAlgo now tr r ind He Hi). cbv zeta. cbn [fst].
  set (cc := JS.last_of (close (candles tr))).
  set (ch := JS.last_of (high (candles tr))).
  set (cl := JS.last_of (low (candles tr))).
  assert (H0 : idsFresh (set_state (Result.state r) tr)) by exact H.
  pose proof (idsFresh_shortExitStep (state tr) r cc cl _
                (idsFresh_longExitStep (state tr) r cc ch _ H0)) as H2.
  destruct (idsFresh_entryStep (Clock.atId now) r cc
              (JS.last_of (closeTime (candles tr))) _ H2)
    as (H3 & C3).
  split.
  - apply idsFresh_heartbeatStep, idsFresh_shortStopStep, idsFresh_longStopStep.
    exact H3.
  - rewrite C3.
    destruct (before_entry (state tr) r cc ch cl (set_state (Result.state r) tr))
      as (_ & _ & Hn & _).
    cbv zeta in Hn. rewrite Hn. reflexivity.
Qed.

Lemma idsFresh_handleMessage now data tr :
  idsFresh tr ->
  idsFresh (fst (handleMessage jAlgo now data tr))
  /\ tradeIdCounter (fst (handleMessage jAlgo now data tr))
     = (tradeIdCounter tr
        + Z.of_nat (List.length (entriesOf (snd (handleMessage jAlgo now data tr)))))%Z.
Proof.
  intros H. destruct data as [| |k]; simpl; try (split; [exact H | lia]).
  destruct (lastCandleTime tr =? Kline.t k)%Z; [simpl; split; [exact H | lia]|].
  destruct (Kline.x k); [|simpl; split; [exact H | lia]].
  pose proof (idsFresh_processCandle now
                (set_candles (appendCandle k (candles (set_lastCandleTime (Kline.t k) tr)))
                   (set_lastCandleTime (Kline.t k) tr)) H) as (H1 & H2).
  destruct (processCandle _ _ _) as [tr3 effects]. simpl in *. auto.
Qed.

End IdFacts.

(** X12.  Along any stream the trade id counter grows by one per entry
    notified and never otherwise; the ids of the active trades are at most
    the counter, and when both sides hold a trade their ids differ. *)
Theorem X12_trade_ids jAlgo msgs tr :
  idsFresh tr ->
  idsFresh (fst (handleMessages jAlgo msgs tr))
  /\ tradeIdCounter (fst (handleMessages jAlgo msgs tr))
     = (tradeIdCounter tr
        + Z.of_nat (List.length (entriesOf (snd (handleMessages jAlgo msgs tr)))))%Z.
Proof.
  revert tr. induction msgs as [|[now data] rest IH]; intros tr H.
  - simpl. split; [exact H | lia].
  - rewrite handleMessages_cons, handleMessages_snd_cons, entriesOf_app, length_app.
    destruct (idsFresh_handleMessage jAlgo now data tr H) as (H1 & C1).
    destruct (IH _ H1) as (H2 & C2).
    split; [exact H2|]. rewrite C2, C1. lia.
Qed.

(** A stream in which a long signal comes with every processed candle: the
    sample trader ends with the counter at the number of entries. *)
Lemma X12_trade_ids_witness :
  idsFresh
    (fst (handleMessages
            (Sample.engineReturning Sample.longOpen (Some (mkSignal "long")))
            Scenario.stream (Sample.freshTrader Sample.flat)))
  /\ tradeIdCounter
       (fst (handleMessages
               (Sample.engineReturning Sample.longOpen (Some (mkSignal "long")))
               Scenario.stream (Sample.freshTrader Sample.flat)))
     = 2%Z.
Proof.
  apply (X12_trade_ids
           (Sample.engineReturning Sample.longOpen (Some (mkSignal "long")))
           Scenario.stream (Sample.freshTrader Sample.flat)).
  unfold idsFresh. simpl. repeat split; intros; discriminate.
Defined.

(** ** A closing tick on which the engine throws *)

(** X13.  When the engine throws on a closing tick that passed the check
    against [lastCandleTime], the tick is consumed all the same: the window
    holds the candle and [lastCandleTime] is its open time, so that the same
    tick delivered again is dropped; the state, the active trades and the
    counters are as before, and no trade notification or stats panel is
    sent. *)
Theorem X13_engine_failure_consumes_candle jAlgo now k tr :
  Kline.t k <> lastCandleTime tr ->
  Kline.x k = true ->
  jAlgo (appendCandle k (candles tr)) (state tr) (config tr) = None ->
  fst (handleMessage jAlgo now (KlineEvent k) tr)
    = set_candles (appendCandle k (candles tr)) (set_lastCandleTime (Kline.t k) tr)
  /\ kinds (snd (handleMessage jAlgo now (KlineEvent k) tr)) = []
  /\ statsPanels (snd (handleMessage jAlgo now (KlineEvent k) tr)) = 0
  /\ (forall later,
        handleMessage jAlgo later (KlineEvent k)
          (fst (handleMessage jAlgo now (KlineEvent k) tr))
        = (fst (handleMessage jAlgo now (KlineEvent k) tr), [])).
Proof.
  intros Hne Hx He.
  assert (H : handleMessage jAlgo now (KlineEvent k) tr =
              (set_candles (appendCandle k (candles tr))
                 (set_lastCandleTime (Kline.t k) tr),
               [ConsoleLog "Processing completed candle";
                CallJAlgo (appendCandle k (candles tr)) (state tr);
                ConsoleError "Error processing candle:"])).
  { unfold handleMessage.
    destruct (Z.eqb_spec (lastCandleTime tr) (Kline.t k)); [congruence|].
    rewrite Hx. rewrite processCandle_throws by (left; exact He). reflexivity. }
  rewrite H. repeat split.
  intros later. apply handleMessage_repeated. reflexivity.
Qed.

(** The closing tick on the sample trader with an engine that throws. *)
Lemma X13_engine_failure_consumes_candle_witness :
  state (fst (handleMessage Sample.engineThrowing (Clock.every 1500000)
                (KlineEvent Sample.closingTick) (Sample.freshTrader Sample.flat)))
    = Sample.flat
  /\ JS.last_of (openTime (candles (fst (handleMessage Sample.engineThrowing (Clock.every 1500000)
                                          (KlineEvent Sample.closingTick)
                                          (Sample.freshTrader Sample.flat)))))
     = Some 1200000%Z
  /\ kinds (snd (handleMessage Sample.engineThrowing (Clock.every 1500000)
                   (KlineEvent Sample.closingTick) (Sample.freshTrader Sample.flat)))
     = [].
Proof.
  destruct (X13_engine_failure_consumes_candle Sample.engineThrowing (Clock.every 1500000)
              Sample.closingTick (Sample.freshTrader Sample.flat))
    as (H1 & H2 & _); [discriminate | reflexivity | reflexivity |].
  rewrite H1. split; [reflexivity|]. split; [reflexivity | exact H2].
Defined.

(** ** Invariants of the event loop *)

(** Each handler keeps the counter within the maximum and sets backoff
    waits between 1000 and 30000 ms only. *)
Lemma attemptReconnect_inRange tr :
  backoffInRange tr ->
  backoffInRange (fst (attemptReconnect tr))
  /\ Forall (fun ms => 1000 <= ms <= 30000)%Z
       (backoffDelays (snd (attemptReconnect tr))).
Proof.
  intros (H1 & H2 & H3). unfold attemptReconnect.
  destruct (Nat.leb_spec (maxReconnectAttempts tr) (reconnectAttempts tr)).
  - simpl. split; [repeat split; auto | constructor].
  - cbv zeta. set (d := Z.min 30000 _).
    assert (Hd : (1000 <= d <= 30000)%Z).
    { subst d. unfold set_reconnectAttempts.
      cbn [reconnectDelay reconnectAttempts]. rewrite H3.
      replace (Z.of_nat (S (reconnectAttempts tr)) - 1)%Z
        with (Z.of_nat (reconnectAttempts tr)) by lia.
      assert (0 < 2 ^ Z.of_nat (reconnectAttempts tr))%Z
        by (apply Z.pow_pos_nonneg; lia).
      lia. }
    clearbody d. simpl. split; [repeat split; auto; lia|].
    constructor; [exact Hd | constructor].
Qed.

Section RunFacts.

Variable jAlgo : Candles -> AlgorithmState -> Config -> option Result.t.

Lemma step_inRange w ev w1 :
  step jAlgo w ev = Some w1 ->
  backoffInRange (trader w) ->
  Forall (fun ms => 1000 <= ms <= 30000)%Z (backoffDelays (trace w)) ->
  backoffInRange (trader w1)
  /\ Forall (fun ms => 1000 <= ms <= 30000)%Z (backoffDelays (trace w1)).
Proof.
  intros Hstep Hin Hd.
  assert (G : forall w0 r,
             trace w0 = trace w ->
             backoffInRange (fst r) ->
             Forall (fun ms => 1000 <= ms <= 30000)%Z (backoffDelays (snd r)) ->
             backoffInRange (trader (deliver w0 r))
             /\ Forall (fun ms => 1000 <= ms <= 30000)%Z
                  (backoffDelays (trace (deliver w0 r)))).
  { intros w0 r Ht Hr Hf. destruct (deliver_facts w0 r) as (E1 & E2 & _).
    rewrite E1, E2, Ht, backoffDelays_app. split; [exact Hr|].
    apply Forall_app. split; assumption. }
  revert Hstep. unfold step. destruct (crashed w); [discriminate|].
  destruct Hin as (H1 & H2 & H3).
  destruct ev as [s|s|s|s now data|j now|i fetched|].
  - destruct (nth_error (sockets w) s) as [[| | |]|]; try discriminate.
    intros H; inversion H; subst; clear H.
    apply G; [reflexivity | | constructor].
    simpl. repeat split; auto. apply Nat.le_0_l.
  - destruct (nth_error (sockets w) s) as [[| | |]|]; try discriminate;
      intros H; inversion H; subst; clear H;
      (apply G; [reflexivity | | constructor]); simpl; repeat split; auto.
  - assert (R : backoffInRange (fst (onClose (trader w)))
                /\ Forall (fun ms => 1000 <= ms <= 30000)%Z
                     (backoffDelays (snd (onClose (trader w))))).
    { unfold onClose.
      destruct (attemptReconnect_inRange (set_isConnected false (trader w)))
        as (A1 & A2); [repeat split; auto|].
      destruct (attemptReconnect _) as [tr1 effects]. simpl in *. auto. }
    destruct (nth_error (sockets w) s) as [[| | |]|]; try discriminate;
      intros H; inversion H; subst; clear H;
      (apply G; [reflexivity | apply R | apply R]).
  - destruct (nth_error (sockets w) s) as [[| | |]|]; try discriminate.
    pose proof (beginHandleMessage_unseen jAlgo now data (trader w))
      as (Hk & _ & Hq).
    destruct (beginHandleMessage jAlgo now data (trader w))
      as [[tr1 effects] task].
    intros H; inversion H; subst; clear H. simpl in *.
    apply G; [reflexivity | | simpl; rewrite Hq; constructor].
    unfold connection in Hk. inversion Hk. unfold backoffInRange. simpl.
    repeat split; congruence.
  - destruct (nth_error (suspended w) j) as [task|]; [|discriminate].
    pose proof (resumeProcessCandle_unseen now task (trader w)) as (Hk & _ & Hq).
    destruct (resumeProcessCandle now task (trader w)) as [[tr1 effects] next].
    intros H; inversion H; subst; clear H. simpl in *.
    apply G; [reflexivity | | simpl; rewrite Hq; constructor].
    unfold connection in Hk. inversion Hk. unfold backoffInRange. simpl.
    repeat split; congruence.
  - destruct (nth_error (timers w) i) as [[ms|ms]|]; try discriminate;
      intros H; inversion H; subst; clear H.
    + apply G; [reflexivity | |].
      * unfold onConnectTimeout. destruct (negb _); repeat split; auto.
      * unfold onConnectTimeout. destruct (negb _); [|constructor].
        destruct (socket (trader w)); constructor.
    + apply G; [reflexivity | |].
      * unfold onReconnectTimer, connectWebSocket.
        destruct fetched; repeat split; auto.
      * unfold onReconnectTimer, connectWebSocket.
        destruct fetched; [|constructor]. simpl.
        destruct (socket (trader w)); constructor.
  - intros H; inversion H; subst; clear H.
    apply G; [reflexivity | |].
    + unfold stop. destruct (socket (trader w)); repeat split; auto.
    + unfold stop. destruct (socket (trader w)); constructor.
Qed.

Lemma run_inRange w evs w1 :
  run jAlgo w evs = Some w1 ->
  backoffInRange (trader w) ->
  Forall (fun ms => 1000 <= ms <= 30000)%Z (backoffDelays (trace w)) ->
  backoffInRange (trader w1)
  /\ Forall (fun ms => 1000 <= ms <= 30000)%Z (backoffDelays (trace w1)).
Proof.
  revert w. induction evs as [|ev evs IH]; intros w; simpl.
  - intros H; inversion H; subst. auto.
  - destruct (step jAlgo w ev) as [w'|] eqn:Hs; [|discriminate].
    intros H Hin Hd. destruct (step_inRange w ev w' Hs Hin Hd) as (A & B).
    exact (IH w' H A B).
Qed.

End RunFacts.

(** X14.  In every run of a trader just initialized the attempt counter
    stays within the maximum of 10 and the base delay stays 1000 ms, and
    every backoff wait that was set lasts between 1000 and 30000 ms. *)
Theorem X14_backoff_in_range jAlgo cfg snapshot st evs w :
  run jAlgo (initialWorld cfg snapshot st) evs = Some w ->
  reconnectAttempts (trader w) <= 10
  /\ maxReconnectAttempts (trader w) = 10
  /\ reconnectDelay (trader w) = 1000%Z
  /\ Forall (fun ms => 1000 <= ms <= 30000)%Z (backoffDelays (trace w)).
Proof.
  intros Hrun.
  destruct (run_inRange jAlgo _ _ _ Hrun) as ((H1 & H2 & H3) & Hd).
  - repeat split. apply Nat.le_0_l.
  - constructor.
  - repeat split; auto. lia.
Qed.

(** The sample trader after ten failed connections. *)
Lemma X14_backoff_in_range_witness :
  reconnectAttempts (trader Sample.afterTenFailures) <= 10
  /\ maxReconnectAttempts (trader Sample.afterTenFailures) = 10
  /\ reconnectDelay (trader Sample.afterTenFailures) = 1000%Z
  /\ Forall (fun ms => 1000 <= ms <= 30000)%Z
       (backoffDelays (trace Sample.afterTenFailures)).
Proof.
  apply (X14_backoff_in_range Sample.idleEngine Sample.defaultConfig
           (Sample.window 102.5 100.5 102) Sample.flat (Sample.failingRounds 10)).
  vm_compute. reflexivity.
Defined.

(** X15.  In every run of a trader just initialized at most one socket is
    not closed, and while a backoff wait is pending none is: the trader
    never holds two connections and never reconnects twice at once. *)
Theorem X15_single_connection jAlgo cfg snapshot st evs w :
  run jAlgo (initialWorld cfg snapshot st) evs = Some w ->
  openSockets (sockets w) + pendingReconnects (timers w) <= 1
  /\ openSockets (sockets w) <= 1
  /\ (1 <= pendingReconnects (timers w) -> openSockets (sockets w) = 0).
Proof.
  intros Hrun. pose proof (run_live jAlgo _ _ _ Hrun) as H.
  rewrite initialWorld_live in H. unfold live in H. lia.
Qed.

(** The sample trader in its first backoff wait: no socket is open. *)
Lemma X15_single_connection_witness :
  openSockets (sockets Sample.inBackoff) + pendingReconnects (timers Sample.inBackoff)
    <= 1
  /\ openSockets (sockets Sample.inBackoff) <= 1
  /\ (1 <= pendingReconnects (timers Sample.inBackoff) ->
      openSockets (sockets Sample.inBackoff) = 0).
Proof.
  apply (X15_single_connection Sample.idleEngine Sample.defaultConfig
           (Sample.window 102.5 100.5 102) Sample.flat [WsOpen 0; WsClose 0]).
  vm_compute. reflexivity.
Defined.

(** X16.  When the snapshot fetch of a reconnect attempt fails, the attempt
    is over and nothing follows it: the instance is as before (window
    included), no socket is open, no backoff wait is pending, and whatever
    happens afterwards no socket is created again. *)
Theorem X16_failed_refetch_ends_reconnection jAlgo cfg snapshot st evs w i ms w1 :
  run jAlgo (initialWorld cfg snapshot st) evs = Some w ->
  nth_error (timers w) i = Some (ReconnectTimer ms) ->
  step jAlgo w (TimerFires i None) = Some w1 ->
  trader w1 = trader w
  /\ openSockets (sockets w1) = 0
  /\ pendingReconnects (timers w1) = 0
  /\ connectionAttempts (trace w1) = connectionAttempts (trace w)
  /\ (forall evs' w2,
        run jAlgo w1 evs' = Some w2 ->
        connectionAttempts (trace w2) = connectionAttempts (trace w1)).
Proof.
  intros Hrun Hnth Hstep.
  pose proof (run_live jAlgo _ _ _ Hrun) as Hl. rewrite initialWorld_live in Hl.
  pose proof (pendingReconnects_removeNth i _ _ Hnth) as Hrem.
  revert Hstep. unfold step. destruct (crashed w); [discriminate|].
  rewrite Hnth. intros H; inversion H; subst; clear H.
  destruct (deliver_facts (withTimers (removeNth i (timers w)) w)
              (onReconnectTimer None (List.length (sockets w)) (trader w)))
    as (E1 & E2 & E3).
  set (w1 := deliver _ _) in *.
  assert (L0 : live w1 = 0).
  { rewrite E3. unfold live in *. simpl in *. lia. }
  split; [exact E1|].
  split; [unfold live in L0; lia|].
  split; [unfold live in L0; lia|].
  split.
  - rewrite E2, connectionAttempts_app. simpl. lia.
  - intros evs' w2 H. exact (run_quiet jAlgo w1 evs' w2 L0 H).
Qed.

(** The sample trader in its first backoff wait, the re-fetch failing. *)
Lemma X16_failed_refetch_ends_reconnection_witness :
  exists w1,
    step Sample.idleEngine Sample.inBackoff (TimerFires 1 None) = Some w1
    /\ trader w1 = trader Sample.inBackoff
    /\ openSockets (sockets w1) = 0
    /\ pendingReconnects (timers w1) = 0.
Proof.
  eexists. split; [vm_compute; reflexivity|].
  destruct (X16_failed_refetch_ends_reconnection Sample.idleEngine
              Sample.defaultConfig (Sample.window 102.5 100.5 102) Sample.flat
              [WsOpen 0; WsClose 0] Sample.inBackoff 1 1000%Z _
              ltac:(vm_compute; reflexivity) ltac:(reflexivity)
              ltac:(vm_compute; reflexivity))
    as (H1 & H2 & H3 & _).
  split; [exact H1|]. split; [exact H2 | exact H3].
Defined.

(** ** The 10 second guard *)

(** X17.  A guard that fires reads [this.socket] and [this.isConnected] as
    they are then, whichever connection set it: while the instance is
    connected it does nothing; otherwise it terminates the socket stored at
    that time, and leaves the instance and the other timers as they are. *)
Theorem X17_guard_acts_on_current_socket jAlgo w i ms fetched w1 :
  nth_error (timers w) i = Some (ConnectTimeout ms) ->
  step jAlgo w (TimerFires i fetched) = Some w1 ->
  trader w1 = trader w
  /\ timers w1 = removeNth i (timers w)
  /\ (isConnected (trader w) = true ->
      sockets w1 = sockets w /\ trace w1 = trace w)
  /\ (forall s,
        isConnected (trader w) = false ->
        socket (trader w) = Some s ->
        sockets w1 = terminateSocket s (sockets w)
        /\ crashed w1 = false
        /\ trace w1 = trace w ++ [ConsoleError "WebSocket connection timeout";
                                  Terminate s]).
Proof.
  intros Hnth. unfold step. destruct (crashed w) eqn:Hc; [discriminate|].
  rewrite Hnth. intros H; inversion H; subst; clear H.
  unfold onConnectTimeout.
  destruct (isConnected (trader w)) eqn:Hi; simpl.
  - split; [reflexivity|]. split; [reflexivity|].
    split; [intros _; split; reflexivity | intros s E; discriminate E].
  - destruct (socket (trader w)) as [s0|] eqn:Hs; simpl.
    + split; [reflexivity|]. split; [reflexivity|].
      split; [intros E; discriminate E|].
      intros s _ E. inversion E; subst. rewrite <- app_assoc.
      split; [reflexivity|]. split; [exact Hc | reflexivity].
    + split; [reflexivity|]. split; [reflexivity|].
      split; [intros E; discriminate E | intros s _ E; discriminate E].
Qed.

(** The first connection fails at once and the second socket is still
    connecting when the guard of the first fires: the second socket is
    terminated. *)
Lemma X17_guard_acts_on_current_socket_witness :
  exists w1,
    run Sample.idleEngine Sample.startWorld (Sample.failingRounds 1)
      = Some Scenario.secondConnecting
    /\ step Sample.idleEngine Scenario.secondConnecting (TimerFires 0 None) = Some w1
    /\ sockets Scenario.secondConnecting = [CLOSED; CONNECTING]
    /\ sockets w1 = [CLOSED; CLOSING].
Proof.
  eexists.
  split; [vm_compute; reflexivity|].
  split; [vm_compute; reflexivity|].
  split; [reflexivity|].
  destruct (X17_guard_acts_on_current_socket Sample.idleEngine
              Scenario.secondConnecting 0 10000%Z None _
              ltac:(reflexivity) ltac:(vm_compute; reflexivity))
    as (_ & _ & _ & H).
  destruct (H 1 ltac:(reflexivity) ltac:(reflexivity)) as (Hs & _).
  exact Hs.
Defined.


(** ** The call that nothing interrupts *)

(** Each stretch takes the call forward: a call is resumed at most eight
    times. *)
Lemma dailyStatsCheck_left now L tr :
  awaitsLeft (snd (dailyStatsCheck now L tr)) <= 1.
Proof. unfold dailyStatsCheck. destruct (heartbeatDue _ _); simpl; lia. Qed.

Lemma shortStopCheck_left now L tr :
  awaitsLeft (snd (shortStopCheck now L tr)) <= 2.
Proof.
  pose proof (dailyStatsCheck_left now L tr).
  unfold shortStopCheck. destruct (activeShortTrade tr); [|lia].
  destruct (JS.strict_neq _ _); simpl; lia.
Qed.

Lemma longStopCheck_left now L tr :
  awaitsLeft (snd (longStopCheck now L tr)) <= 3.
Proof.
  pose proof (shortStopCheck_left now L tr).
  unfold longStopCheck. destruct (activeLongTrade tr); [|lia].
  destruct (JS.strict_neq _ _); simpl; lia.
Qed.

Lemma entryCheck_left now L tr :
  awaitsLeft (snd (entryCheck now L tr)) <= 4.
Proof.
  pose proof (longStopCheck_left now L tr).
  unfold entryCheck. destruct (_ || _); [|lia].
  destruct (entryStep _ _ _ _ _). simpl. lia.
Qed.

Lemma shortExitCheck_left now L tr :
  awaitsLeft (snd (shortExitCheck now L tr)) <= 6.
Proof.
  pose proof (entryCheck_left now L tr).
  unfold shortExitCheck. destruct (_ && _); [|lia].
  destruct (shortExitOutcome _ _ _ _ _). simpl. lia.
Qed.

Lemma longExitCheck_left now L tr :
  awaitsLeft (snd (longExitCheck now L tr)) <= 8.
Proof.
  pose proof (shortExitCheck_left now L tr).
  unfold longExitCheck. destruct (_ && _); [|lia].
  destruct (longExitOutcome _ _ _ _ _). simpl. lia.
Qed.

Lemma resumeAt_left now L a tr :
  awaitsLeft (snd (resumeAt now L a tr)) < awaitsLeft (Some a).
Proof.
  destruct a; simpl; try lia.
  - pose proof (shortExitCheck_left now L (set_activeLongTrade None tr)). lia.
  - pose proof (entryCheck_left now L (set_activeShortTrade None tr)). lia.
  - pose proof (longStopCheck_left now L tr). lia.
  - destruct (activeLongTrade tr) as [trade|]; simpl; [|lia].
    match goal with
    | |- context [shortStopCheck now L ?t] =>
      pose proof (shortStopCheck_left now L t)
    end. lia.
  - destruct (activeShortTrade tr) as [trade|]; simpl; [|lia].
    match goal with
    | |- context [dailyStatsCheck now L ?t] =>
      pose proof (dailyStatsCheck_left now L t)
    end. lia.
Qed.

Lemma alone_ended fuel now L tr effects :
  alone fuel now L (tr, effects, None) = (tr, effects).
Proof. destruct fuel; reflexivity. Qed.

Lemma alone_suspended fuel now L tr effects a :
  alone (S fuel) now L (tr, effects, Some a)
  = let '(tr1, effects1) := alone fuel now L (resumeAt now L a tr) in
    (tr1, effects ++ effects1).
Proof.
  unfold alone. cbn [fst snd suspendedAt runAlone].
  unfold resumeProcessCandle. cbn [Task.locals Task.await].
  destruct (resumeAt now L a tr) as [[tr1 effects1] next]. reflexivity.
Qed.

(** Fuel beyond the awaits left changes nothing. *)
Lemma alone_enough fuel more now L r :
  awaitsLeft (snd r) <= fuel ->
  alone (more + fuel) now L r = alone fuel now L r.
Proof.
  revert r. induction fuel as [|fuel IH]; intros [[tr effects] [a|]] H;
    rewrite ?alone_ended; try reflexivity.
  - destruct a; simpl in H; lia.
  - rewrite Nat.add_succ_r, !alone_suspended.
    rewrite IH; [reflexivity|].
    pose proof (resumeAt_left now L a tr). cbn [snd] in H. lia.
Qed.

Lemma dailyStatsCheck_alone fuel now L tr :
  alone (S fuel) now L (dailyStatsCheck now L tr)
  = let '(tr6, heartbeat) :=
      heartbeatStep (Clock.atCheck now) (Clock.atStore now) (Locals.result L) tr in
    (tr6, [ConsoleLog "Processed candle"; ConsoleLog "Current capital"] ++ heartbeat).
Proof.
  unfold dailyStatsCheck, heartbeatStep, heartbeatDue. cbv zeta.
  destruct (statsNeverSent tr || _).
  - rewrite alone_suspended. cbn [resumeAt]. rewrite alone_ended. reflexivity.
  - apply alone_ended.
Qed.

Lemma shortStopCheck_alone fuel now L tr :
  alone (S (S fuel)) now L (shortStopCheck now L tr)
  = let '(tr5, updates) := shortStopStep (Locals.prevState L) tr in
    let '(tr6, rest) := alone (S fuel) now L (dailyStatsCheck now L tr5) in
    (tr6, updates ++ rest).
Proof.
  pose proof (alone_enough (S fuel) 1 now L (dailyStatsCheck now L tr)) as M.
  pose proof (dailyStatsCheck_left now L tr).
  unfold shortStopCheck, shortStopStep.
  destruct (activeShortTrade tr) as [a|] eqn:Ha.
  - destruct (JS.strict_neq _ _).
    + rewrite alone_suspended. cbn [resumeAt]. rewrite Ha. reflexivity.
    + simpl in M. rewrite M by lia. clear M. cbv beta iota.
      destruct (alone _ _ _ _). reflexivity.
  - simpl in M. rewrite M by lia. clear M. cbv beta iota.
      destruct (alone _ _ _ _). reflexivity.
Qed.

Lemma longStopCheck_alone fuel now L tr :
  alone (S (S (S fuel))) now L (longStopCheck now L tr)
  = let '(tr4, updates) := longStopStep (Locals.prevState L) tr in
    let '(tr6, rest) := alone (S (S fuel)) now L (shortStopCheck now L tr4) in
    (tr6, updates ++ rest).
Proof.
  pose proof (alone_enough (S (S fuel)) 1 now L (shortStopCheck now L tr)) as M.
  pose proof (shortStopCheck_left now L tr).
  unfold longStopCheck, longStopStep.
  destruct (activeLongTrade tr) as [a|] eqn:Ha.
  - destruct (JS.strict_neq _ _).
    + rewrite alone_suspended. cbn [resumeAt]. rewrite Ha. reflexivity.
    + simpl in M. rewrite M by lia. clear M. cbv beta iota.
      destruct (alone _ _ _ _). reflexivity.
  - simpl in M. rewrite M by lia. clear M. cbv beta iota.
      destruct (alone _ _ _ _). reflexivity.
Qed.

Lemma entryCheck_alone fuel now L tr :
  alone (S (S (S (S fuel)))) now L (entryCheck now L tr)
  = let '(tr3, entries) :=
      entryStep (Clock.atId now) (Locals.result L)
        (Locals.currentClose L) (Locals.currentTime L) tr in
    let '(tr6, rest) := alone (S (S (S fuel))) now L (longStopCheck now L tr3) in
    (tr6, entries ++ rest).
Proof.
  pose proof (alone_enough (S (S (S fuel))) 1 now L (longStopCheck now L tr)) as M.
  pose proof (longStopCheck_left now L tr).
  unfold entryCheck.
  destruct (signalIs _ "long" || signalIs _ "short") eqn:Hsig.
  - destruct (entryStep _ _ _ _ _) as [tr3 entries].
    rewrite alone_suspended. cbn [resumeAt]. reflexivity.
  - apply orb_false_elim in Hsig. destruct Hsig as [Hl Hs].
    unfold entryStep. unfold signalIs in Hl, Hs.
    destruct (Result.signal (Locals.result L)) as [sig|].
    + rewrite Hl, Hs. simpl in M. rewrite M by lia. clear M. cbv beta iota.
      destruct (alone _ _ _ _). reflexivity.
    + simpl in M. rewrite M by lia. clear M. cbv beta iota.
      destruct (alone _ _ _ _). reflexivity.
Qed.

Lemma shortExitCheck_alone fuel now L tr :
  alone (S (S (S (S (S (S fuel)))))) now L (shortExitCheck now L tr)
  = let '(tr2, exits) :=
      shortExitStep (Locals.prevState L) (Locals.result L)
        (Locals.currentClose L) (Locals.currentLow L) tr in
    let '(tr6, rest) := alone (S (S (S (S fuel)))) now L (entryCheck now L tr2) in
    (tr6, exits ++ rest).
Proof.
  pose proof (alone_enough (S (S (S (S fuel)))) 2 now L (entryCheck now L tr)) as M.
  pose proof (entryCheck_left now L tr).
  unfold shortExitCheck, shortExitStep.
  destruct (_ && _).
  - destruct (shortExitOutcome _ _ _ _ _) as [reason pl].
    clear M. rewrite alone_suspended. cbn [resumeAt].
    rewrite alone_suspended. cbn [resumeAt]. cbv beta iota.
    destruct (alone _ _ _ _). reflexivity.
  - simpl in M. rewrite M by lia. clear M. cbv beta iota.
      destruct (alone _ _ _ _). reflexivity.
Qed.

Lemma longExitCheck_alone fuel now L tr :
  alone (S (S (S (S (S (S (S (S fuel)))))))) now L (longExitCheck now L tr)
  = let '(tr1, exits) :=
      longExitStep (Locals.prevState L) (Locals.result L)
        (Locals.currentClose L) (Locals.currentHigh L) tr in
    let '(tr6, rest) :=
      alone (S (S (S (S (S (S fuel)))))) now L (shortExitCheck now L tr1) in
    (tr6, exits ++ rest).
Proof.
  pose proof (alone_enough (S (S (S (S (S (S fuel)))))) 2 now L
                (shortExitCheck now L tr)) as M.
  pose proof (shortExitCheck_left now L tr).
  unfold longExitCheck, longExitStep.
  destruct (_ && _).
  - destruct (longExitOutcome _ _ _ _ _) as [reason pl].
    clear M. rewrite alone_suspended. cbn [resumeAt].
    rewrite alone_suspended. cbn [resumeAt]. cbv beta iota.
    destruct (alone _ _ _ _). reflexivity.
  - simpl in M. rewrite M by lia. clear M. cbv beta iota.
      destruct (alone _ _ _ _). reflexivity.
Qed.

Lemma runAlone_prefix fuel now before tr effects task :
  runAlone fuel now (tr, before ++ effects, task)
  = let '(tr1, effects1) := runAlone fuel now (tr, effects, task) in
    (tr1, before ++ effects1).
Proof.
  destruct task as [task|], fuel as [|fuel]; cbn [runAlone]; try reflexivity.
  destruct (runAlone fuel now _) as [tr1 effects1]. now rewrite app_assoc.
Qed.

Section AloneFacts.

Variable jAlgo : Candles -> AlgorithmState -> Config -> option Result.t.

(** [processCandle] is the call that nothing interrupts: its stretches run
    one after the other, each on the instance the one before left. *)
Lemma processCandle_alone now tr :
  runAlone 8 now (beginProcessCandle jAlgo now tr) = processCandle jAlgo now tr.
Proof.
  unfold beginProcessCandle, processCandle.
  destruct (jAlgo _ _ _) as [r|]; [|reflexivity].
  destruct (Result.indicators r); [|reflexivity].
  cbv zeta.
  match goal with
  | |- context [longExitCheck now ?L ?t] =>
    pose proof (longExitCheck_alone 0 now L t) as E1;
      destruct (longExitCheck now L t) as [[tr1 effects] next] eqn:E0
  end.
  cbn [Locals.prevState Locals.result Locals.currentClose Locals.currentHigh] in E1.
  destruct (longExitStep _ _ _ _ _) as [t1 e1].
  rewrite (shortExitCheck_alone 0) in E1.
  cbn [Locals.prevState Locals.result Locals.currentClose Locals.currentLow] in E1.
  destruct (shortExitStep _ _ _ _ _) as [t2 e2].
  rewrite (entryCheck_alone 0) in E1.
  cbn [Locals.result Locals.currentClose Locals.currentTime] in E1.
  destruct (entryStep _ _ _ _ _) as [t3 e3].
  rewrite (longStopCheck_alone 0) in E1. cbn [Locals.prevState] in E1.
  destruct (longStopStep _ _) as [t4 e4].
  rewrite (shortStopCheck_alone 0) in E1. cbn [Locals.prevState] in E1.
  destruct (shortStopStep _ _) as [t5 e5].
  rewrite (dailyStatsCheck_alone 0) in E1. cbn [Locals.result] in E1.
  destruct (heartbeatStep _ _ _ _) as [t6 e6].
  unfold alone in E1. cbn [fst snd] in E1.
  rewrite (runAlone_prefix 8 now
             [CallJAlgo (candles tr) (state tr); ConsoleLog "Indicators:";
              ConsoleLog "Signal generated:"]), E1.
  reflexivity.
Qed.

(** Likewise [handleMessage] is the handling of a message whose call of
    [processCandle] nothing interrupts. *)
Lemma handleMessage_alone now data tr :
  runAlone 8 now (beginHandleMessage jAlgo now data tr)
  = handleMessage jAlgo now data tr.
Proof.
  destruct data as [| |k]; try reflexivity.
  unfold beginHandleMessage, handleMessage.
  destruct (lastCandleTime tr =? Kline.t k)%Z; [reflexivity|].
  destruct (Kline.x k); [|reflexivity].
  match goal with
  | |- context [beginProcessCandle jAlgo now ?t] =>
    pose proof (processCandle_alone now t) as E;
      destruct (beginProcessCandle jAlgo now t) as [[tr3 effects] task]
  end.
  destruct (processCandle _ _ _) as [tr4 effects4].
  change (ConsoleLog "Processing completed candle" :: effects)
    with ([ConsoleLog "Processing completed candle"] ++ effects).
  rewrite runAlone_prefix, E. reflexivity.
Qed.

End AloneFacts.

(** ** What a call does before its first await *)

(** The tests of the stop references and of the daily panel leave the
    instance as it is: what they change is stored when the call resumes. *)
Lemma dailyStatsCheck_instance now L tr : fst (fst (dailyStatsCheck now L tr)) = tr.
Proof. unfold dailyStatsCheck. now destruct (heartbeatDue _ _). Qed.

Lemma shortStopCheck_instance now L tr : fst (fst (shortStopCheck now L tr)) = tr.
Proof.
  unfold shortStopCheck.
  destruct (activeShortTrade tr); [|apply dailyStatsCheck_instance].
  destruct (JS.strict_neq _ _); [reflexivity | apply dailyStatsCheck_instance].
Qed.

Lemma longStopCheck_instance now L tr : fst (fst (longStopCheck now L tr)) = tr.
Proof.
  unfold longStopCheck.
  destruct (activeLongTrade tr); [|apply shortStopCheck_instance].
  destruct (JS.strict_neq _ _); [reflexivity | apply shortStopCheck_instance].
Qed.

(** They send no entry, and each only the stop update of its side. *)
Lemma dailyStatsCheck_sends now L tr :
  entriesOf (snd (fst (dailyStatsCheck now L tr))) = []
  /\ (forall side, updatesOf side (snd (fst (dailyStatsCheck now L tr))) = [])
  /\ statsPanels (snd (fst (dailyStatsCheck now L tr)))
     = (if heartbeatDue (Clock.atCheck now) tr then 1 else 0)
  /\ snd (dailyStatsCheck now L tr)
     = (if heartbeatDue (Clock.atCheck now) tr then Some AwaitDailyStats else None).
Proof.
  unfold dailyStatsCheck. destruct (heartbeatDue _ _); repeat split.
Qed.

Lemma shortStopCheck_sends now L tr :
  entriesOf (snd (fst (shortStopCheck now L tr))) = []
  /\ updatesOf "long" (snd (fst (shortStopCheck now L tr))) = [].
Proof.
  destruct (dailyStatsCheck_sends now L tr) as (E & U & _).
  unfold shortStopCheck. destruct (activeShortTrade tr); [|auto].
  destruct (JS.strict_neq _ _); [split; reflexivity | auto].
Qed.

Lemma longStopCheck_sends now L tr :
  entriesOf (snd (fst (longStopCheck now L tr))) = [].
Proof.
  destruct (shortStopCheck_sends now L tr) as (E & _).
  unfold longStopCheck. destruct (activeLongTrade tr); [|auto].
  destruct (JS.strict_neq _ _); [reflexivity | auto].
Qed.

Section FirstStretch.

Variable jAlgo : Candles -> AlgorithmState -> Config -> option Result.t.

(** The first stretch when the engine returns and the debug output goes
    through. *)
Lemma beginProcessCandle_returns now tr r ind :
  jAlgo (candles tr) (state tr) (config tr) = Some r ->
  Result.indicators r = Some ind ->
  let L := localsOf tr r in
  let rest := longExitCheck now L (set_state (Result.state r) tr) in
  beginProcessCandle jAlgo now tr
  = (fst (fst rest),
     [CallJAlgo (candles tr) (state tr);
      ConsoleLog "Indicators:"; ConsoleLog "Signal generated:"] ++ snd (fst rest),
     suspendedAt L (snd rest)).
Proof.
  intros He Hi. unfold beginProcessCandle. rewrite He, Hi. cbv zeta.
  destruct (longExitCheck _ _ _) as [[tr1 effects] next]. reflexivity.
Qed.

(** On a candle on which neither side leaves its trade the first stretch
    goes on to the entries. *)
Lemma longExitCheck_no_exit now tr r :
  inLongTrade (state tr) && negb (inLongTrade (Result.state r)) = false ->
  inShortTrade (state tr) && negb (inShortTrade (Result.state r)) = false ->
  longExitCheck now (localsOf tr r) (set_state (Result.state r) tr)
  = entryCheck now (localsOf tr r) (set_state (Result.state r) tr).
Proof.
  intros Hl Hs. unfold longExitCheck, shortExitCheck. cbn [localsOf Locals.prevState].
  change (state (set_state (Result.state r) tr)) with (Result.state r).
  now rewrite Hl, Hs.
Qed.

(** On a candle on which a side leaves its trade the first stretch ends with
    the exit of the long side, or else of the short side. *)
Lemma longExitCheck_exit now tr r :
  (inLongTrade (state tr) && negb (inLongTrade (Result.state r)))
  || (inShortTrade (state tr) && negb (inShortTrade (Result.state r))) = true ->
  let rest := longExitCheck now (localsOf tr r) (set_state (Result.state r) tr) in
  fst (fst rest) = set_state (Result.state r) tr
  /\ entriesOf (snd (fst rest)) = []
  /\ (forall side, updatesOf side (snd (fst rest)) = [])
  /\ statsPanels (snd (fst rest)) = 0
  /\ (snd rest = Some AwaitLongExit \/ snd rest = Some AwaitShortExit).
Proof.
  intros H. cbv zeta. unfold longExitCheck, shortExitCheck.
  cbn [localsOf Locals.prevState].
  change (state (set_state (Result.state r) tr)) with (Result.state r).
  destruct (inLongTrade (state tr) && negb (inLongTrade (Result.state r))).
  - destruct (longExitOutcome _ _ _ _ _). repeat split; auto.
  - simpl in H. rewrite H. destruct (shortExitOutcome _ _ _ _ _).
    repeat split; auto.
Qed.

End FirstStretch.

(** X8.  On a candle on which neither side leaves its trade, a long signal
    makes the call, before its first await, replace the active long trade by
    a new one and send one entry: both carry the close of the current candle
    and the long stop reference and target of the engine's new state, the
    trade has the risk amount of that state and the id (symbol, clock,
    counter + 1), the trade id counter grows by one, and the call waits for
    the entry to be sent.  A short signal does the same on the short side.
    Without signal, or with a signal of another position, the stretch sends
    no entry and the counter stays.  On a candle on which a side leaves its
    trade nothing of this happens before the first await: the call waits for
    the exit to be sent, and makes the entry when it has resumed. *)
Theorem X8_entry jAlgo now tr r ind :
  jAlgo (candles tr) (state tr) (config tr) = Some r ->
  Result.indicators r = Some ind ->
  let new := Result.state r in
  let first := beginProcessCandle jAlgo now tr in
  let after := fst (fst first) in
  let effects := snd (fst first) in
  let exits :=
    (inLongTrade (state tr) && negb (inLongTrade new))
    || (inShortTrade (state tr) && negb (inShortTrade new)) in
  let cc := JS.last_of (close (candles tr)) in
  let tid :=
    mkTradeId (symbol (config tr)) (Clock.atId now) (tradeIdCounter tr + 1) in
  (exits = false ->
   signalIs (Result.signal r) "long" = true ->
   entriesOf effects =
     [ {| EntrySignal.position := "long";
          EntrySignal.price := cc;
          EntrySignal.stopLevel := longStopReference new;
          EntrySignal.targetLevel := longTargetLevel new |} ]
   /\ activeLongTrade after =
        Some {| ActiveTrade.id := tid;
                ActiveTrade.entryTime := JS.last_of (closeTime (candles tr));
                ActiveTrade.entryPrice := cc;
                ActiveTrade.stopLevel := longStopReference new;
                ActiveTrade.targetLevel := longTargetLevel new;
                ActiveTrade.riskAmount := riskAmount new |}
   /\ tradeIdCounter after = (tradeIdCounter tr + 1)%Z
   /\ option_map Task.await (snd first) = Some AwaitEntry)
  /\
  (exits = false ->
   signalIs (Result.signal r) "long" = false ->
   signalIs (Result.signal r) "short" = true ->
   entriesOf effects =
     [ {| EntrySignal.position := "short";
          EntrySignal.price := cc;
          EntrySignal.stopLevel := shortStopReference new;
          EntrySignal.targetLevel := shortTargetLevel new |} ]
   /\ activeShortTrade after =
        Some {| ActiveTrade.id := tid;
                ActiveTrade.entryTime := JS.last_of (closeTime (candles tr));
                ActiveTrade.entryPrice := cc;
                ActiveTrade.stopLevel := shortStopReference new;
                ActiveTrade.targetLevel := shortTargetLevel new;
                ActiveTrade.riskAmount := riskAmount new |}
   /\ tradeIdCounter after = (tradeIdCounter tr + 1)%Z
   /\ option_map Task.await (snd first) = Some AwaitEntry)
  /\
  (exits = false ->
   signalIs (Result.signal r) "long" = false ->
   signalIs (Result.signal r) "short" = false ->
   entriesOf effects = [] /\ tradeIdCounter after = tradeIdCounter tr)
  /\
  (exits = true ->
   entriesOf effects = []
   /\ tradeIdCounter after = tradeIdCounter tr
   /\ activeLongTrade after = activeLongTrade tr
   /\ activeShortTrade after = activeShortTrade tr
   /\ (option_map Task.await (snd first) = Some AwaitLongExit
       \/ option_map Task.await (snd first) = Some AwaitShortExit)).
Proof.
  intros He Hi new first after effects exits cc tid.
  subst new first after effects.
  rewrite (beginProcessCandle_returns jAlgo now tr r ind He Hi).
  cbv zeta. cbn [fst snd entriesOf app].
  assert (Hno : exits = false ->
                longExitCheck now (localsOf tr r) (set_state (Result.state r) tr)
                = entryCheck now (localsOf tr r) (set_state (Result.state r) tr)).
  { intros H. apply orb_false_elim in H. destruct H.
    now apply longExitCheck_no_exit. }
  split; [|split; [|split]].
  - intros Hx Hl. rewrite (Hno Hx). unfold entryCheck.
    cbn [localsOf Locals.result Locals.currentClose Locals.currentTime].
    rewrite Hl. cbn [orb]. rewrite entryStep_long by exact Hl.
    repeat split.
  - intros Hx Hl Hs. rewrite (Hno Hx). unfold entryCheck.
    cbn [localsOf Locals.result Locals.currentClose Locals.currentTime].
    rewrite Hl, Hs. cbn [orb]. rewrite entryStep_short by assumption.
    repeat split.
  - intros Hx Hl Hs. rewrite (Hno Hx). unfold entryCheck.
    cbn [localsOf Locals.result]. rewrite Hl, Hs. cbn [orb].
    rewrite longStopCheck_instance, longStopCheck_sends. split; reflexivity.
  - intros Hx. destruct (longExitCheck_exit now tr r Hx) as (I & E & _ & _ & A).
    cbv zeta in I, E, A. rewrite I, E.
    repeat split.
    destruct A as [-> | ->]; [left | right]; reflexivity.
Qed.

(** A long signal on the sample trader without trades, a candle without
    signal, and the candle on which the long trade of the sample trader gives
    way to a short one. *)
Lemma X8_entry_witness :
  (entriesOf
     (snd (fst (beginProcessCandle
                  (Sample.engineReturning Sample.longOpen (Some (mkSignal "long")))
                  (Clock.mk 1200000 1200040 1200080)
                  (Sample.freshTrader Sample.flat))))
     = [ {| EntrySignal.position := "long";
            EntrySignal.price := Some 102%float;
            EntrySignal.stopLevel := 95;
            EntrySignal.targetLevel := 105 |} ]
   /\ activeLongTrade
        (fst (fst (beginProcessCandle
                     (Sample.engineReturning Sample.longOpen (Some (mkSignal "long")))
                     (Clock.mk 1200000 1200040 1200080)
                     (Sample.freshTrader Sample.flat))))
      = Some {| ActiveTrade.id := mkTradeId "BTCUSDT" 1200000 1;
                ActiveTrade.entryTime := Some 1199999%Z;
                ActiveTrade.entryPrice := Some 102%float;
                ActiveTrade.stopLevel := 95;
                ActiveTrade.targetLevel := 105;
                ActiveTrade.riskAmount := 10 |})
  /\ entriesOf
       (snd (fst (beginProcessCandle Sample.idleEngine (Clock.every 1200000)
                    (Sample.freshTrader Sample.flat)))) = []
  /\ entriesOf
       (snd (fst (beginProcessCandle
                    (Sample.engineReturning Sample.flippedShort
                       (Some (mkSignal "short")))
                    (Clock.every 1200000) (Sample.longTrader 104 102 103)))) = [].
Proof.
  split; [|split].
  - destruct (proj1 (X8_entry
                       (Sample.engineReturning Sample.longOpen (Some (mkSignal "long")))
                       (Clock.mk 1200000 1200040 1200080)
                       (Sample.freshTrader Sample.flat)
                       (Sample.resultWith Sample.longOpen (Some (mkSignal "long")))
                       Sample.someIndicators eq_refl eq_refl)
                eq_refl eq_refl) as (H1 & H2 & _).
    split; [exact H1 | exact H2].
  - apply (proj1 (proj2 (proj2 (X8_entry Sample.idleEngine (Clock.every 1200000)
                                  (Sample.freshTrader Sample.flat)
                                  (Sample.resultWith Sample.flat None)
                                  Sample.someIndicators eq_refl eq_refl))));
      reflexivity.
  - apply (proj2 (proj2 (proj2 (X8_entry
                                  (Sample.engineReturning Sample.flippedShort
                                     (Some (mkSignal "short")))
                                  (Clock.every 1200000)
                                  (Sample.longTrader 104 102 103)
                                  (Sample.resultWith Sample.flippedShort
                                     (Some (mkSignal "short")))
                                  Sample.someIndicators eq_refl eq_refl))));
      reflexivity.
Defined.

Lemma resumeProcessCandle_fst now task tr :
  fst (resumeProcessCandle now task tr)
  = fst (resumeAt now (Task.locals task) (Task.await task) tr).
Proof.
  unfold resumeProcessCandle.
  destruct (resumeAt _ _ _ _) as [[tr1 effects] next]. reflexivity.
Qed.

(** What the call does when it resumes after a stop update was sent. *)
Lemma resume_after_long_update now L tr :
  match activeLongTrade tr with
  | Some trade =>
    activeLongTrade
      (fst (fst (resumeProcessCandle now (Task.mk AwaitLongUpdate L) tr)))
    = Some (ActiveTrade.set_stopLevel (longStopReference (state tr)) trade)
  | None =>
    resumeProcessCandle now (Task.mk AwaitLongUpdate L) tr
    = (tr, [ConsoleError "Error processing candle:"], None)
  end.
Proof.
  destruct (activeLongTrade tr) as [trade|] eqn:Ha.
  - rewrite resumeProcessCandle_fst. cbn [Task.locals Task.await resumeAt].
    rewrite Ha, shortStopCheck_instance. reflexivity.
  - unfold resumeProcessCandle. cbn [Task.locals Task.await resumeAt].
    rewrite Ha. reflexivity.
Qed.

Lemma resume_after_short_update now L tr :
  match activeShortTrade tr with
  | Some trade =>
    activeShortTrade
      (fst (fst (resumeProcessCandle now (Task.mk AwaitShortUpdate L) tr)))
    = Some (ActiveTrade.set_stopLevel (shortStopReference (state tr)) trade)
  | None =>
    resumeProcessCandle now (Task.mk AwaitShortUpdate L) tr
    = (tr, [ConsoleError "Error processing candle:"], None)
  end.
Proof.
  destruct (activeShortTrade tr) as [trade|] eqn:Ha.
  - rewrite resumeProcessCandle_fst. cbn [Task.locals Task.await resumeAt].
    rewrite Ha, dailyStatsCheck_instance. reflexivity.
  - unfold resumeProcessCandle. cbn [Task.locals Task.await resumeAt].
    rewrite Ha. reflexivity.
Qed.

(** X9.  On a candle on which neither side leaves its trade and no trade
    is opened, the stop references are tested before the first await, on
    the engine's new state.  A long trade whose reference changed gets one
    stop update, with both references and the entry price and target of the
    active trade, and the call waits for it to be sent: the stop level
    stored in the active trade is not yet changed, and the short side is
    not yet tested.  When the call resumes, the reference that [this.state]
    holds by then is stored in the long trade that is active by then; when
    there is none any more, the assignment throws, the error is logged and
    the call ends.  When the reference did not change, no update is sent.
    The short side is treated alike once the long side has sent no
    update. *)
Theorem X9_stop_update jAlgo now tr r ind a :
  jAlgo (candles tr) (state tr) (config tr) = Some r ->
  Result.indicators r = Some ind ->
  let prev := state tr in
  let new := Result.state r in
  let first := beginProcessCandle jAlgo now tr in
  let effects := snd (fst first) in
  inLongTrade prev && negb (inLongTrade new) = false ->
  inShortTrade prev && negb (inShortTrade new) = false ->
  signalIs (Result.signal r) "long" = false ->
  signalIs (Result.signal r) "short" = false ->
  (activeLongTrade tr = Some a ->
   if JS.strict_neq (longStopReference prev) (longStopReference new) then
     updatesOf "long" effects =
       [ {| StopUpdate.position := "long";
            StopUpdate.previousStop := longStopReference prev;
            StopUpdate.newStop := longStopReference new;
            StopUpdate.entryPrice := ActiveTrade.entryPrice a;
            StopUpdate.targetLevel := ActiveTrade.targetLevel a |} ]
     /\ updatesOf "short" effects = []
     /\ activeLongTrade (fst (fst first)) = Some a
     /\ (exists task,
           snd first = Some task
           /\ Task.await task = AwaitLongUpdate
           /\ forall later tr',
                match activeLongTrade tr' with
                | Some trade =>
                  activeLongTrade (fst (fst (resumeProcessCandle later task tr')))
                  = Some (ActiveTrade.set_stopLevel
                            (longStopReference (state tr')) trade)
                | None =>
                  resumeProcessCandle later task tr'
                  = (tr', [ConsoleError "Error processing candle:"], None)
                end)
   else updatesOf "long" effects = [] /\ activeLongTrade (fst (fst first)) = Some a)
  /\
  ((forall trade, activeLongTrade tr = Some trade ->
                  JS.strict_neq (longStopReference prev) (longStopReference new)
                  = false) ->
   activeShortTrade tr = Some a ->
   if JS.strict_neq (shortStopReference prev) (shortStopReference new) then
     updatesOf "short" effects =
       [ {| StopUpdate.position := "short";
            StopUpdate.previousStop := shortStopReference prev;
            StopUpdate.newStop := shortStopReference new;
            StopUpdate.entryPrice := ActiveTrade.entryPrice a;
            StopUpdate.targetLevel := ActiveTrade.targetLevel a |} ]
     /\ activeShortTrade (fst (fst first)) = Some a
     /\ (exists task,
           snd first = Some task
           /\ Task.await task = AwaitShortUpdate
           /\ forall later tr',
                match activeShortTrade tr' with
                | Some trade =>
                  activeShortTrade (fst (fst (resumeProcessCandle later task tr')))
                  = Some (ActiveTrade.set_stopLevel
                            (shortStopReference (state tr')) trade)
                | None =>
                  resumeProcessCandle later task tr'
                  = (tr', [ConsoleError "Error processing candle:"], None)
                end)
   else updatesOf "short" effects = []
        /\ activeShortTrade (fst (fst first)) = Some a).
Proof.
  intros He Hi prev new first effects Hxl Hxs Hl Hs.
  subst prev new first effects.
  rewrite (beginProcessCandle_returns jAlgo now tr r ind He Hi). cbv zeta.
  rewrite (longExitCheck_no_exit now tr r Hxl Hxs).
  unfold entryCheck. cbn [localsOf Locals.result]. rewrite Hl, Hs. cbn [orb].
  fold (localsOf tr r). set (L := localsOf tr r).
  set (tr0 := set_state (Result.state r) tr).
  cbn [fst snd].
  change ([CallJAlgo (candles tr) (state tr); ConsoleLog "Indicators:";
           ConsoleLog "Signal generated:"] ++ ?e)
    with (CallJAlgo (candles tr) (state tr) :: ConsoleLog "Indicators:"
            :: ConsoleLog "Signal generated:" :: e).
  cbn [updatesOf].
  split.
  - intros Ha. unfold longStopCheck.
    change (activeLongTrade tr0) with (activeLongTrade tr). rewrite Ha.
    change (longStopReference (Locals.prevState L))
      with (longStopReference (state tr)).
    change (state tr0) with (Result.state r).
    destruct (JS.strict_neq (longStopReference (state tr))
                (longStopReference (Result.state r))).
    + cbn [fst snd suspendedAt updatesOf StopUpdate.position String.eqb Ascii.eqb
             Bool.eqb andb].
      split; [reflexivity|]. split; [reflexivity|]. split; [exact Ha|].
      eexists. split; [reflexivity|]. split; [reflexivity|].
      intros later tr'. apply resume_after_long_update.
    + rewrite shortStopCheck_instance, (proj2 (shortStopCheck_sends now L tr0)).
      split; [reflexivity | exact Ha].
  - intros Hquiet Ha.
    assert (Hgo : longStopCheck now L tr0 = shortStopCheck now L tr0).
    { unfold longStopCheck. change (activeLongTrade tr0) with (activeLongTrade tr).
      destruct (activeLongTrade tr) as [trade|]; [|reflexivity].
      change (longStopReference (Locals.prevState L))
        with (longStopReference (state tr)).
      change (state tr0) with (Result.state r).
      now rewrite (Hquiet trade eq_refl). }
    rewrite Hgo. unfold shortStopCheck.
    change (activeShortTrade tr0) with (activeShortTrade tr). rewrite Ha.
    change (shortStopReference (Locals.prevState L))
      with (shortStopReference (state tr)).
    change (state tr0) with (Result.state r).
    destruct (JS.strict_neq (shortStopReference (state tr))
                (shortStopReference (Result.state r))).
    + cbn [fst snd suspendedAt updatesOf StopUpdate.position String.eqb Ascii.eqb
             Bool.eqb andb].
      split; [reflexivity|]. split; [exact Ha|].
      eexists. split; [reflexivity|]. split; [reflexivity|].
      intros later tr'. apply resume_after_short_update.
    + rewrite dailyStatsCheck_instance.
      rewrite (proj1 (proj2 (dailyStatsCheck_sends now L tr0)) "short").
      split; [reflexivity | exact Ha].
Qed.

(** The sample long trader on a candle that trails its stop from 95 to 97:
    the update is sent before the first await and the stored stop level is
    still 95 then. *)
Lemma X9_stop_update_witness :
  updatesOf "long"
    (snd (fst (beginProcessCandle (Sample.engineReturning Scenario.longTrailed None)
                 (Clock.every 1200000) (Sample.longTrader 104 102 103))))
    = [ {| StopUpdate.position := "long";
           StopUpdate.previousStop := 95;
           StopUpdate.newStop := 97;
           StopUpdate.entryPrice := Some 100%float;
           StopUpdate.targetLevel := 105 |} ]
  /\ option_map ActiveTrade.stopLevel
       (activeLongTrade
          (fst (fst (beginProcessCandle
                       (Sample.engineReturning Scenario.longTrailed None)
                       (Clock.every 1200000) (Sample.longTrader 104 102 103)))))
     = Some 95%float.
Proof.
  pose proof (proj1 (X9_stop_update
                       (Sample.engineReturning Scenario.longTrailed None)
                       (Clock.every 1200000) (Sample.longTrader 104 102 103)
                       (Sample.resultWith Scenario.longTrailed None)
                       Sample.someIndicators
                       {| ActiveTrade.id := mkTradeId "BTCUSDT" 600000 1;
                          ActiveTrade.entryTime := Some 899999%Z;
                          ActiveTrade.entryPrice := Some 100%float;
                          ActiveTrade.stopLevel := 95;
                          ActiveTrade.targetLevel := 105;
                          ActiveTrade.riskAmount := 10 |}
                       eq_refl eq_refl eq_refl eq_refl eq_refl eq_refl)
                eq_refl) as H.
  cbv zeta in H.
  change (JS.strict_neq (longStopReference (state (Sample.longTrader 104 102 103)))
            (longStopReference
               (Result.state (Sample.resultWith Scenario.longTrailed None))))
    with true in H.
  cbv iota in H. destruct H as (H1 & _ & H3 & _).
  split; [exact H1|]. rewrite H3. reflexivity.
Defined.

(** ** The daily stats panel *)





(** ** The socket the instance holds *)

Lemma fold_perform_inward effects w :
  forallb inward effects = true ->
  sockets (fold_left perform effects w) = sockets w
  /\ timers (fold_left perform effects w) = timers w
  /\ crashed (fold_left perform effects w) = crashed w
  /\ suspended (fold_left perform effects w) = suspended w.
Proof.
  revert w. induction effects as [|e effects IH]; intros w H; [repeat split|].
  simpl in H. apply andb_prop in H. destruct H as [He Hr].
  cbn [fold_left]. destruct (IH (perform w e) Hr) as (I1 & I2 & I3 & I4).
  rewrite I1, I2, I3, I4. destruct e; try discriminate He; repeat split.
Qed.

Lemma outputs_inward effects :
  forallb isOutput effects = true -> forallb inward effects = true.
Proof.
  induction effects as [|e effects IH]; [reflexivity|]. simpl. intros H.
  apply andb_prop in H. destruct H as [He Hr]. rewrite (IH Hr).
  destruct e; try discriminate He; reflexivity.
Qed.

Lemma resumeProcessCandle_inward now task tr :
  forallb inward (snd (fst (resumeProcessCandle now task tr))) = true.
Proof.
  rewrite resumeProcessCandle_fst. apply outputs_inward, resumeAt_tidy.
Qed.

Lemma beginHandleMessage_inward jAlgo now data tr :
  forallb inward (snd (fst (beginHandleMessage jAlgo now data tr))) = true.
Proof.
  destruct data as [| |k]; try reflexivity. unfold beginHandleMessage.
  destruct (lastCandleTime tr =? Kline.t k)%Z; [reflexivity|].
  destruct (Kline.x k); [|reflexivity].
  match goal with
  | |- context [beginProcessCandle jAlgo now ?t] =>
    destruct (beginProcessCandle_tidy jAlgo now t) as (_ & rest & E & O);
      destruct (beginProcessCandle jAlgo now t) as [[tr3 effects] task]
  end.
  simpl in *. subst effects. simpl. now apply outputs_inward.
Qed.

Lemma nth_error_setReadyState s r socks s' :
  nth_error (setReadyState s r socks) s' = Some CONNECTING ->
  r <> CONNECTING ->
  s' <> s /\ nth_error socks s' = Some CONNECTING.
Proof.
  revert s s'. induction socks as [|r0 socks IH]; intros [|s] [|s'] H Hr;
    simpl in *; try discriminate; try (split; [lia | exact H]).
  - inversion H. congruence.
  - destruct (IH s s' H Hr). split; [lia | assumption].
Qed.

Lemma nth_error_terminateSocket s socks s' :
  nth_error (terminateSocket s socks) s' = Some CONNECTING ->
  s' <> s /\ nth_error socks s' = Some CONNECTING.
Proof.
  unfold terminateSocket. intros H.
  destruct (nth_error socks s) as [r|] eqn:Hs.
  - destruct r; try (apply nth_error_setReadyState in H; [exact H | discriminate]).
    split; [|exact H]. intros ->. congruence.
  - split; [|exact H]. intros ->. congruence.
Qed.

Lemma length_setReadyState s r socks :
  List.length (setReadyState s r socks) = List.length socks.
Proof.
  revert s. induction socks as [|r0 socks IH]; intros [|s]; simpl; auto.
Qed.

Lemma length_terminateSocket s socks :
  List.length (terminateSocket s socks) = List.length socks.
Proof.
  unfold terminateSocket. destruct (nth_error socks s) as [[| | |]|];
    auto using length_setReadyState.
Qed.

Lemma initialWorld_held cfg snapshot st : held (initialWorld cfg snapshot st).
Proof.
  split.
  - intros [|[|s]] H; simpl in H; [reflexivity | discriminate | discriminate].
  - discriminate.
Qed.

Section HeldFacts.

Variable jAlgo : Candles -> AlgorithmState -> Config -> option Result.t.

Lemma step_held w ev w1 :
  step jAlgo w ev = Some w1 -> held w -> held w1.
Proof.
  unfold step. destruct (crashed w); [discriminate|].
  intros Hstep (HI & HJ).
  destruct ev as [s|s|s|s now data|j now|i fetched|].
  - destruct (nth_error (sockets w) s) as [[| | |]|] eqn:Hs; try discriminate.
    inversion Hstep; subst; clear Hstep. pose proof (HI s Hs) as Hcur.
    split; simpl.
    + intros s' H. apply nth_error_setReadyState in H; [|discriminate].
      apply HI, H.
    + congruence.
  - destruct (nth_error (sockets w) s) as [r|] eqn:Hs; [|discriminate].
    assert (G : held (deliver (withSockets (setReadyState s CLOSING (sockets w)) w)
                        (onError (trader w)))).
    { split; simpl.
      - intros s' H. apply nth_error_setReadyState in H; [|discriminate].
        apply HI, H.
      - reflexivity. }
    destruct r; try discriminate; inversion Hstep; subst; exact G.
  - destruct (nth_error (sockets w) s) as [r|] eqn:Hs; [|discriminate].
    assert (G : held (deliver (withSockets (setReadyState s CLOSED (sockets w)) w)
                        (onClose (trader w)))).
    { unfold onClose, attemptReconnect.
      destruct (_ <=? _)%nat; (split; simpl;
        [intros s' H; apply nth_error_setReadyState in H; [|discriminate];
         apply HI, H | reflexivity]). }
    destruct r; try discriminate; inversion Hstep; subst; exact G.
  - destruct (nth_error (sockets w) s) as [[| | |]|] eqn:Hs; try discriminate.
    pose proof (beginHandleMessage_unseen jAlgo now data (trader w)) as (Hk & _).
    pose proof (beginHandleMessage_inward jAlgo now data (trader w)) as Hin.
    destruct (beginHandleMessage jAlgo now data (trader w))
      as [[tr1 effects] task].
    inversion Hstep; subst; clear Hstep. simpl in Hk, Hin.
    unfold connection in Hk. inversion Hk as [[K1 K2 K3 K4 K5]].
    unfold deliver. cbn [fst snd].
    match goal with
    | |- held (fold_left perform effects ?w0) =>
      destruct (fold_perform_inward effects w0 Hin) as (S1 & _);
        destruct (fold_perform_facts effects w0) as (T1 & _)
    end.
    split; rewrite ?S1, ?T1; simpl.
    + intros s' H. rewrite K1. apply HI, H.
    + rewrite K1, K2. exact HJ.
  - destruct (nth_error (suspended w) j) as [task|]; [|discriminate].
    pose proof (resumeProcessCandle_unseen now task (trader w)) as (Hk & _).
    pose proof (resumeProcessCandle_inward now task (trader w)) as Hin.
    destruct (resumeProcessCandle now task (trader w)) as [[tr1 effects] next].
    inversion Hstep; subst; clear Hstep. simpl in Hk, Hin.
    unfold connection in Hk. inversion Hk as [[K1 K2 K3 K4 K5]].
    unfold deliver. cbn [fst snd].
    match goal with
    | |- held (fold_left perform effects ?w0) =>
      destruct (fold_perform_inward effects w0 Hin) as (S1 & _);
        destruct (fold_perform_facts effects w0) as (T1 & _)
    end.
    split; rewrite ?S1, ?T1; simpl.
    + intros s' H. rewrite K1. apply HI, H.
    + rewrite K1, K2. exact HJ.
  - destruct (nth_error (timers w) i) as [[ms|ms]|] eqn:Hi; try discriminate;
      inversion Hstep; subst; clear Hstep.
    + unfold onConnectTimeout. destruct (negb (isConnected (trader w))).
      * destruct (socket (trader w)) as [s0|] eqn:Hs0; (split; simpl;
          [|rewrite ?Hs0; try discriminate; exact HJ]).
        -- intros s' H. apply nth_error_terminateSocket in H.
           rewrite Hs0. apply HI, H.
        -- intros s' H. rewrite Hs0. apply HI, H.
      * split; [exact HI | exact HJ].
    + unfold onReconnectTimer.
      destruct fetched as [c|]; [|split; [exact HI | exact HJ]].
      unfold connectWebSocket. cbn [socket set_candles].
      destruct (socket (trader w)) as [s0|] eqn:Hs0; (split; simpl; [|discriminate]).
      * intros s' H.
        destruct (Nat.eq_dec s' (List.length (sockets w))) as [->|Hne];
          [reflexivity|].
        assert (Hlt : s' < List.length (terminateSocket s0 (sockets w))).
        { destruct (Nat.lt_ge_cases s' (List.length (terminateSocket s0 (sockets w))))
            as [Hlt|Hge]; [exact Hlt|].
          rewrite nth_error_app2 in H by exact Hge.
          rewrite length_terminateSocket in *.
          destruct (s' - List.length (sockets w)) as [|[|n]] eqn:E; simpl in H;
            try discriminate; lia. }
        rewrite nth_error_app1 in H by exact Hlt.
        apply nth_error_terminateSocket in H. destruct H as (Hd & Hc).
        pose proof (HI s' Hc). congruence.
      * intros s' H.
        destruct (Nat.eq_dec s' (List.length (sockets w))) as [->|Hne];
          [reflexivity|].
        assert (Hlt : s' < List.length (sockets w)).
        { destruct (Nat.lt_ge_cases s' (List.length (sockets w)))
            as [Hlt|Hge]; [exact Hlt|].
          rewrite nth_error_app2 in H by exact Hge.
          destruct (s' - List.length (sockets w)) as [|[|n]] eqn:E; simpl in H;
            try discriminate; lia. }
        rewrite nth_error_app1 in H by exact Hlt.
        pose proof (HI s' H). congruence.
  - inversion Hstep; subst; clear Hstep. unfold stop.
    destruct (socket (trader w)) as [s0|] eqn:Hs0; (split; simpl; [|reflexivity]).
    + intros s' H. apply nth_error_terminateSocket in H. destruct H as (Hd & Hc).
      pose proof (HI s' Hc). congruence.
    + intros s' H. pose proof (HI s' H). congruence.
Qed.

Lemma run_held w evs w1 :
  run jAlgo w evs = Some w1 -> held w -> held w1.
Proof.
  revert w. induction evs as [|ev evs IH]; intros w; simpl.
  - intros H; inversion H; subst. auto.
  - destruct (step jAlgo w ev) as [w'|] eqn:Hs; [|discriminate].
    intros H Hw. exact (IH w' H (step_held w ev w' Hs Hw)).
Qed.

(** Only a reconnect attempt whose fetch succeeds gives an instance without
    socket a socket again. *)
Lemma step_keeps_no_socket w ev w1 :
  step jAlgo w ev = Some w1 ->
  socket (trader w) = None ->
  socket (trader w1) = None \/ exists i c, ev = TimerFires i (Some c).
Proof.
  unfold step. destruct (crashed w); [discriminate|]. intros Hstep Hnone.
  assert (G : forall w0 r, socket (fst r) = None -> socket (trader (deliver w0 r)) = None).
  { intros w0 r H. now rewrite (proj1 (deliver_facts w0 r)). }
  destruct ev as [s|s|s|s now data|j now|i fetched|].
  - destruct (nth_error (sockets w) s) as [[| | |]|]; try discriminate.
    inversion Hstep; subst. left. apply G. exact Hnone.
  - destruct (nth_error (sockets w) s) as [[| | |]|]; try discriminate;
      inversion Hstep; subst; left; apply G; exact Hnone.
  - assert (H : socket (fst (onClose (trader w))) = None).
    { unfold onClose, attemptReconnect. destruct (_ <=? _)%nat; exact Hnone. }
    destruct (nth_error (sockets w) s) as [[| | |]|]; try discriminate;
      inversion Hstep; subst; left; apply G; exact H.
  - destruct (nth_error (sockets w) s) as [[| | |]|]; try discriminate.
    pose proof (beginHandleMessage_unseen jAlgo now data (trader w)) as (Hk & _).
    destruct (beginHandleMessage jAlgo now data (trader w))
      as [[tr1 effects] task].
    inversion Hstep; subst. left. apply G. simpl in *.
    unfold connection in Hk. inversion Hk. congruence.
  - destruct (nth_error (suspended w) j) as [task|]; [|discriminate].
    pose proof (resumeProcessCandle_unseen now task (trader w)) as (Hk & _).
    destruct (resumeProcessCandle now task (trader w)) as [[tr1 effects] next].
    inversion Hstep; subst. left. apply G. simpl in *.
    unfold connection in Hk. inversion Hk. congruence.
  - destruct fetched as [c|]; [right; now exists i, c|].
    destruct (nth_error (timers w) i) as [[ms|ms]|]; try discriminate;
      inversion Hstep; subst; left; apply G.
    + unfold onConnectTimeout. destruct (negb _); exact Hnone.
    + exact Hnone.
  - inversion Hstep; subst. left. apply G. unfold stop. rewrite Hnone. exact Hnone.
Qed.

End HeldFacts.

(** X18.  [stop] does not cancel the guard either, and leaves
    [this.socket] at [null].  In every run of a trader just initialized, as
    long as [this.socket] is [null], which it stays until a reconnect
    attempt whose fetch succeeds stores a new socket, the instance is not
    connected, and a guard that fires calls [terminate] on [null]: a
    TypeError that nothing catches, after which no event is handled. *)
Theorem X18_guard_after_stop_throws jAlgo cfg snapshot st evs w :
  run jAlgo (initialWorld cfg snapshot st) evs = Some w ->
  (forall w1,
     step jAlgo w CallStop = Some w1 ->
     socket (trader w1) = None /\ timers w1 = timers w /\ crashed w1 = false)
  /\ (forall ev w1,
        step jAlgo w ev = Some w1 ->
        socket (trader w) = None ->
        socket (trader w1) = None \/ exists i c, ev = TimerFires i (Some c))
  /\ (forall i ms fetched,
        crashed w = false ->
        socket (trader w) = None ->
        nth_error (timers w) i = Some (ConnectTimeout ms) ->
        exists w2,
          step jAlgo w (TimerFires i fetched) = Some w2
          /\ trace w2 = trace w ++ [ConsoleError "WebSocket connection timeout";
                                    UncaughtTypeError]
          /\ crashed w2 = true
          /\ (forall ev, step jAlgo w2 ev = None)).
Proof.
  intros Hrun.
  pose proof (run_held jAlgo _ _ _ Hrun (initialWorld_held cfg snapshot st))
    as (_ & HJ).
  split; [|split].
  - intros w1. unfold step. destruct (crashed w) eqn:Hc; [discriminate|].
    intros H; inversion H; subst; clear H. unfold stop.
    destruct (socket (trader w)) eqn:Hs; simpl; repeat split;
      first [exact Hc | exact Hs | reflexivity].
  - intros ev w1 Hstep Hnone. exact (step_keeps_no_socket jAlgo w ev w1 Hstep Hnone).
  - intros i ms fetched Hc Hnone Hnth.
    eexists. split; [unfold step; rewrite Hc, Hnth; reflexivity|].
    unfold onConnectTimeout. rewrite (HJ Hnone), Hnone. simpl.
    rewrite <- app_assoc. repeat split.
Qed.

(** [stop] called on the sample trader right after it connected: the guard
    of the connection is still pending, and throws when it fires. *)
Lemma X18_guard_after_stop_throws_witness :
  run Sample.idleEngine Sample.startWorld [WsOpen 0; CallStop]
    = Some Scenario.stoppedConnected
  /\ exists w2,
       step Sample.idleEngine Scenario.stoppedConnected (TimerFires 0 None) = Some w2
       /\ crashed w2 = true.
Proof.
  split; [vm_compute; reflexivity|].
  destruct (X18_guard_after_stop_throws Sample.idleEngine Sample.defaultConfig
              (Sample.window 102.5 100.5 102) Sample.flat [WsOpen 0; CallStop]
              Scenario.stoppedConnected ltac:(vm_compute; reflexivity))
    as (_ & _ & H).
  destruct (H 0 10000%Z None eq_refl eq_refl eq_refl) as (w2 & H1 & _ & H3 & _).
  exists w2. split; [exact H1 | exact H3].
Defined.

(** ** The window over a stream *)

Lemma handleMessages_sorted_appended jAlgo msgs tr :
  StronglySorted Z.lt
    (openTime (candles tr) ++ map Kline.t (appended (lastCandleTime tr) msgs)) ->
  StronglySorted Z.lt (openTime (candles (fst (handleMessages jAlgo msgs tr)))).
Proof.
  revert tr. induction msgs as [|[now data] rest IH]; intros tr H.
  - simpl in *. now rewrite app_nil_r in H.
  - rewrite handleMessages_cons. apply IH.
    rewrite handleMessage_candles, handleMessage_lastCandleTime.
    destruct data as [| |k]; cbn [appended] in H; try exact H.
    destruct (Z.eqb_spec (lastCandleTime tr) (Kline.t k)) as [E|E].
    + rewrite <- E. exact H.
    + destruct (Kline.x k); [|exact H].
      cbn [map] in H. cbn [appendCandle openTime]. now apply sorted_shift_push.
Qed.

(** X19.  Whatever messages are handled, each array of the window keeps its
    length, which so stays at most N when the snapshot had at most N
    candles.  The stored open times stay strictly increasing, hence without
    duplicate, as long as the klines that pass the check against
    [lastCandleTime] and are closed, those that are appended, follow the
    stored ones in strictly increasing order of open time.  A kline with the
    open time of the closed kline handled just before it changes nothing. *)
Theorem X19_window_invariants jAlgo msgs tr :
  lengths (candles (fst (handleMessages jAlgo msgs tr))) = lengths (candles tr)
  /\ (forall N, Forall (fun n => n <= N) (lengths (candles tr)) ->
        Forall (fun n => n <= N)
          (lengths (candles (fst (handleMessages jAlgo msgs tr)))))
  /\ (StronglySorted Z.lt
        (openTime (candles tr)
           ++ map Kline.t (appended (lastCandleTime tr) msgs)) ->
      StronglySorted Z.lt (openTime (candles (fst (handleMessages jAlgo msgs tr))))
      /\ NoDup (openTime (candles (fst (handleMessages jAlgo msgs tr)))))
  /\ (forall now k now' k',
        Kline.x k = true ->
        Kline.t k' = Kline.t k ->
        handleMessage jAlgo now' (KlineEvent k')
          (fst (handleMessage jAlgo now (KlineEvent k) tr))
        = (fst (handleMessage jAlgo now (KlineEvent k) tr), [])).
Proof.
  split; [apply handleMessages_lengths|].
  split; [intros N H; now rewrite handleMessages_lengths|].
  split.
  - intros H. pose proof (handleMessages_sorted_appended jAlgo msgs tr H) as Hs.
    split; [exact Hs | now apply sorted_NoDup].
  - intros now k now' k' Hx Hk. apply handleMessage_repeated.
    now rewrite handleMessage_closed_lastCandleTime.
Qed.

(** Two candles closing in order on the sample window, the first one
    delivered twice: the repeated tick is dropped, and the window keeps
    three strictly increasing open times. *)
Lemma X19_window_invariants_witness :
  StronglySorted Z.lt
    (openTime
       (candles
          (fst (handleMessages Sample.idleEngine
                  [(Clock.every 1500000, KlineEvent (Sample.closedTick 1200000));
                   (Clock.every 1500001, KlineEvent (Sample.closedTick 1200000));
                   (Clock.every 1800000, KlineEvent (Sample.closedTick 1500000))]
                  (Sample.freshTrader Sample.flat)))))
  /\ Forall (fun n => n <= 3)
       (lengths
          (candles
             (fst (handleMessages Sample.idleEngine
                     [(Clock.every 1500000, KlineEvent (Sample.closedTick 1200000));
                      (Clock.every 1500001, KlineEvent (Sample.closedTick 1200000));
                      (Clock.every 1800000, KlineEvent (Sample.closedTick 1500000))]
                     (Sample.freshTrader Sample.flat))))).
Proof.
  pose proof (X19_window_invariants Sample.idleEngine
                [(Clock.every 1500000, KlineEvent (Sample.closedTick 1200000));
                 (Clock.every 1500001, KlineEvent (Sample.closedTick 1200000));
                 (Clock.every 1800000, KlineEvent (Sample.closedTick 1500000))]
                (Sample.freshTrader Sample.flat)) as (_ & Hlen & Hsorted & _).
  split.
  - apply Hsorted. simpl.
    repeat (constructor; [|repeat (constructor; try lia)]). constructor.
  - apply Hlen. simpl. repeat (constructor; try lia).
Defined.

(** X20.  A call of [processCandle] ends after at most eight resumptions,
    and when no other handler runs between its stretches it comes to what
    [processCandle] gives: the steps of the method one after the other, each
    on the instance the step before left.  So does the handling of a
    message. *)
Theorem X20_uninterrupted_call jAlgo now tr more :
  runAlone 8 now (beginProcessCandle jAlgo now tr) = processCandle jAlgo now tr
  /\ runAlone (more + 8) now (beginProcessCandle jAlgo now tr)
     = runAlone 8 now (beginProcessCandle jAlgo now tr)
  /\ (forall data,
        runAlone 8 now (beginHandleMessage jAlgo now data tr)
        = handleMessage jAlgo now data tr).
Proof.
  split; [apply processCandle_alone|].
  split; [|intros data; apply handleMessage_alone].
  unfold beginProcessCandle.
  destruct (jAlgo _ _ _) as [r|]; [|now rewrite Nat.add_comm].
  destruct (Result.indicators r); [|now rewrite Nat.add_comm].
  cbv zeta.
  pose proof (longExitCheck_left now (localsOf tr r)
                (set_state (Result.state r) tr)) as Hleft.
  pose proof (alone_enough 8 more now (localsOf tr r)
                (longExitCheck now (localsOf tr r) (set_state (Result.state r) tr))
                Hleft) as E.
  destruct (longExitCheck _ _ _) as [[tr1 effects] next].
  unfold alone in E. cbn [fst snd] in E.
  now rewrite !runAlone_prefix, E.
Qed.

(** ** The window when calls overlap *)

Section OverlapFacts.

Variable jAlgo : Candles -> AlgorithmState -> Config -> option Result.t.

(** Up to its first await the handling of a message has done to the window
    and to [lastCandleTime] all that it does, and has made its call of the
    engine. *)
Lemma beginHandleMessage_window now data tr :
  candles (fst (fst (beginHandleMessage jAlgo now data tr)))
  = candles (fst (handleMessage jAlgo now data tr))
  /\ lastCandleTime (fst (fst (beginHandleMessage jAlgo now data tr)))
     = lastCandleTime (fst (handleMessage jAlgo now data tr))
  /\ engineCalls (snd (fst (beginHandleMessage jAlgo now data tr)))
     = engineCalls (snd (handleMessage jAlgo now data tr)).
Proof.
  destruct data as [| |k]; try (repeat split; reflexivity).
  unfold beginHandleMessage, handleMessage.
  destruct (lastCandleTime tr =? Kline.t k)%Z; [repeat split; reflexivity|].
  destruct (Kline.x k); [|repeat split; reflexivity].
  match goal with
  | |- context [beginProcessCandle jAlgo now ?t] =>
    destruct (beginProcessCandle_tidy jAlgo now t) as (F & rest & E & O);
      pose proof (processCandle_frame jAlgo now t) as F';
      pose proof (processCandle_engineCalls jAlgo now t) as C';
      destruct (beginProcessCandle jAlgo now t) as [[tr3 effects] task];
      destruct (processCandle jAlgo now t) as [tr4 effects4]
  end.
  simpl in *. subst effects. apply fixedPart_fields in F, F'.
  destruct F as (_ & F1 & _ & F2), F' as (_ & F1' & _ & F2').
  split; [congruence|]. split; [congruence|].
  simpl. rewrite C'. now rewrite (proj1 (outputs_quiet rest O)).
Qed.

(** What a message does to the window depends on the window and on
    [lastCandleTime] only. *)
Lemma handleMessage_window_ext now now' data a b :
  candles a = candles b ->
  lastCandleTime a = lastCandleTime b ->
  candles (fst (handleMessage jAlgo now data a))
  = candles (fst (handleMessage jAlgo now' data b))
  /\ lastCandleTime (fst (handleMessage jAlgo now data a))
     = lastCandleTime (fst (handleMessage jAlgo now' data b)).
Proof.
  intros Hc Hl. rewrite !handleMessage_candles, !handleMessage_lastCandleTime.
  rewrite Hc, Hl. split; reflexivity.
Qed.

Lemma run_window evs : forall w w1 tr,
  run jAlgo w evs = Some w1 ->
  forallb handlerEvent evs = true ->
  candles tr = candles (trader w) ->
  lastCandleTime tr = lastCandleTime (trader w) ->
  candles (trader w1) = candles (fst (handleMessages jAlgo (messagesOf evs) tr))
  /\ lastCandleTime (trader w1)
     = lastCandleTime (fst (handleMessages jAlgo (messagesOf evs) tr))
  /\ engineCalls (trace w1)
     = engineCalls (trace w)
       + engineCalls (snd (handleMessages jAlgo (messagesOf evs) tr)).
Proof.
  induction evs as [|ev evs IH]; intros w w1 tr Hrun Hev Hc Hl.
  - simpl in *. inversion Hrun; subst. repeat split; auto.
  - simpl in Hrun, Hev. apply andb_prop in Hev. destruct Hev as [He Hrest].
    destruct (step jAlgo w ev) as [w'|] eqn:Hstep; [|discriminate].
    revert Hstep. unfold step. destruct (crashed w); [discriminate|].
    destruct ev as [s|s|s|s now data|j now|i fetched|]; try discriminate He.
    + destruct (nth_error (sockets w) s) as [[| | |]|]; try discriminate.
      destruct (beginHandleMessage_window now data (trader w)) as (B1 & B2 & B3).
      destruct (handleMessage_window_ext now now data tr (trader w) Hc Hl)
        as (X1 & X2).
      destruct (beginHandleMessage jAlgo now data (trader w))
        as [[tr1 effects] task].
      intros H; inversion H; subst; clear H. cbn [fst snd] in *.
      match type of Hrun with
      | context [deliver ?w0 ?r0] =>
        destruct (deliver_facts w0 r0) as (T1 & T2 & _)
      end.
      cbn [fst snd] in T1, T2.
      cbn [messagesOf]. rewrite handleMessages_cons, handleMessages_snd_cons.
      destruct (IH _ w1 (fst (handleMessage jAlgo now data tr)) Hrun Hrest)
        as (I1 & I2 & I3).
      * rewrite T1. congruence.
      * rewrite T1. congruence.
      * split; [exact I1|]. split; [exact I2|].
        rewrite I3, T2. cbn [trace withSuspended].
        rewrite !engineCalls_app, B3.
        assert (E : engineCalls (snd (handleMessage jAlgo now data tr))
                    = engineCalls (snd (handleMessage jAlgo now data (trader w)))).
        { pose proof (handleMessages_engineCalls jAlgo [(now, data)] tr) as E1.
          pose proof (handleMessages_engineCalls jAlgo [(now, data)] (trader w)) as E2.
          rewrite handleMessages_snd_cons in E1, E2. simpl in E1, E2.
          rewrite !app_nil_r in *. rewrite E1, E2, Hl. reflexivity. }
        rewrite E. lia.
    + destruct (nth_error (suspended w) j) as [task|]; [|discriminate].
      pose proof (resumeProcessCandle_fst now task (trader w)) as Hf.
      destruct (resumeAt_tidy now (Task.locals task) (Task.await task) (trader w))
        as (F & O).
      destruct (resumeProcessCandle now task (trader w)) as [[tr1 effects] next].
      intros H; inversion H; subst; clear H. cbn [fst snd] in *.
      rewrite <- Hf in F, O. cbn [fst snd] in F, O.
      apply fixedPart_fields in F. destruct F as (_ & F1 & _ & F2).
      match type of Hrun with
      | context [deliver ?w0 ?r0] =>
        destruct (deliver_facts w0 r0) as (T1 & T2 & _)
      end.
      cbn [fst snd] in T1, T2. cbn [messagesOf].
      destruct (IH _ w1 tr Hrun Hrest) as (I1 & I2 & I3).
      * rewrite T1. congruence.
      * rewrite T1. congruence.
      * split; [exact I1|]. split; [exact I2|].
        rewrite I3, T2. cbn [trace withSuspended].
        rewrite engineCalls_app, (proj1 (outputs_quiet effects O)). lia.
Qed.

End OverlapFacts.

(** X21.  However the calls of [processCandle] overlap, the window and
    [lastCandleTime] after a run of messages and resumptions are those that
    the same messages give when each is handled to its end before the next,
    and the engine is called as often: once for each kline appended. *)
Theorem X21_window_when_calls_overlap jAlgo w evs w1 :
  run jAlgo w evs = Some w1 ->
  forallb handlerEvent evs = true ->
  candles (trader w1)
  = candles (fst (handleMessages jAlgo (messagesOf evs) (trader w)))
  /\ lastCandleTime (trader w1)
     = lastCandleTime (fst (handleMessages jAlgo (messagesOf evs) (trader w)))
  /\ engineCalls (trace w1)
     = engineCalls (trace w)
       + List.length (appended (lastCandleTime (trader w)) (messagesOf evs)).
Proof.
  intros Hrun Hev.
  destruct (run_window jAlgo evs w w1 (trader w) Hrun Hev eq_refl eq_refl)
    as (H1 & H2 & H3).
  split; [exact H1|]. split; [exact H2|].
  now rewrite H3, handleMessages_engineCalls.
Qed.

(** The sample run in which the second candle closes while the call of the
    first is suspended: both candles are in the window, in order, and the
    engine was called twice. *)
Lemma X21_window_when_calls_overlap_witness :
  run Overlap.engine Overlap.start Overlap.events = Some Overlap.overlapped
  /\ openTime (candles (trader Overlap.overlapped)) = [900000; 1200000; 1500000]%Z
  /\ engineCalls (trace Overlap.overlapped) = 2.
Proof.
  assert (Hrun : run Overlap.engine Overlap.start Overlap.events
                 = Some Overlap.overlapped) by (vm_compute; reflexivity).
  destruct (X21_window_when_calls_overlap Overlap.engine Overlap.start
              Overlap.events Overlap.overlapped Hrun eq_refl) as (H1 & _ & H3).
  split; [exact Hrun|]. split.
  - rewrite H1. reflexivity.
  - rewrite H3. reflexivity.
Defined.

(** ** The entry on a candle that also closes a trade *)

(** X22.  On a candle on which a side leaves its trade, the entry is made
    when the call resumes from the stats panel of the exit, and takes its
    levels from [this.state] as it is then, which the call of a later candle
    may have replaced meanwhile: the entry sent and the active trade created
    carry the stop reference, the target and the risk amount of that state,
    with the close and the close time of the call's own candle; the id is
    (symbol, clock, counter + 1) on the counter as it is then.  The active
    trade of the side that left is cleared in the same stretch. *)
Theorem X22_entry_after_exit now L tr :
  let cc := Locals.currentClose L in
  let tid :=
    mkTradeId (symbol (config tr)) (Clock.atId now) (tradeIdCounter tr + 1) in
  (signalIs (Result.signal (Locals.result L)) "long" = true ->
   let r := resumeAt now L AwaitShortStats tr in
   entriesOf (snd (fst r)) =
     [ {| EntrySignal.position := "long";
          EntrySignal.price := cc;
          EntrySignal.stopLevel := longStopReference (state tr);
          EntrySignal.targetLevel := longTargetLevel (state tr) |} ]
   /\ activeLongTrade (fst (fst r)) =
        Some {| ActiveTrade.id := tid;
                ActiveTrade.entryTime := Locals.currentTime L;
                ActiveTrade.entryPrice := cc;
                ActiveTrade.stopLevel := longStopReference (state tr);
                ActiveTrade.targetLevel := longTargetLevel (state tr);
                ActiveTrade.riskAmount := riskAmount (state tr) |}
   /\ activeShortTrade (fst (fst r)) = None
   /\ snd r = Some AwaitEntry)
  /\
  (signalIs (Result.signal (Locals.result L)) "long" = false ->
   signalIs (Result.signal (Locals.result L)) "short" = true ->
   inShortTrade (Locals.prevState L) && negb (inShortTrade (state tr)) = false ->
   let r := resumeAt now L AwaitLongStats tr in
   entriesOf (snd (fst r)) =
     [ {| EntrySignal.position := "short";
          EntrySignal.price := cc;
          EntrySignal.stopLevel := shortStopReference (state tr);
          EntrySignal.targetLevel := shortTargetLevel (state tr) |} ]
   /\ activeShortTrade (fst (fst r)) =
        Some {| ActiveTrade.id := tid;
                ActiveTrade.entryTime := Locals.currentTime L;
                ActiveTrade.entryPrice := cc;
                ActiveTrade.stopLevel := shortStopReference (state tr);
                ActiveTrade.targetLevel := shortTargetLevel (state tr);
                ActiveTrade.riskAmount := riskAmount (state tr) |}
   /\ activeLongTrade (fst (fst r)) = None
   /\ snd r = Some AwaitEntry).
Proof.
  cbv zeta. split.
  - intros Hl. cbn [resumeAt]. unfold entryCheck. rewrite Hl. cbn [orb].
    rewrite entryStep_long by exact Hl. repeat split.
  - intros Hl Hs Hx. cbn [resumeAt]. unfold shortExitCheck.
    change (state (set_activeLongTrade None tr)) with (state tr). rewrite Hx.
    unfold entryCheck. rewrite Hl, Hs. cbn [orb].
    rewrite entryStep_short by assumption. repeat split.
Qed.

(** The sample run: the call of the candle on which the engine closed the
    short trade and opened a long one with its stop at 95 resumes after the
    engine, called for the next candle, has moved that stop to 97.  The
    entry it sends gives 97 as stop. *)
Lemma X22_entry_after_exit_witness :
  exists task,
    nth_error (suspended Overlap.overlapped) 0 = Some task
    /\ Task.await task = AwaitShortStats
    /\ longStopReference (Result.state (Locals.result (Task.locals task)))
       = 95%float
    /\ entriesOf
         (snd (fst (resumeAt (Clock.every 1500120) (Task.locals task)
                      AwaitShortStats (trader Overlap.overlapped))))
       = [ {| EntrySignal.position := "long";
              EntrySignal.price := Some 103%float;
              EntrySignal.stopLevel := 97;
              EntrySignal.targetLevel := 105 |} ].
Proof.
  eexists. split; [reflexivity|]. split; [reflexivity|]. split; [reflexivity|].
  match goal with
  | |- context [resumeAt ?c ?L AwaitShortStats ?t] =>
    destruct (proj1 (X22_entry_after_exit c L t) eq_refl) as (H & _)
  end.
  exact H.
Defined.

(** ** The exits of a candle, await by await *)

(** The steps that follow the exit checks send no exit. *)
Lemma exitsOf_dailyStatsCheck side now L tr :
  exitsOf side (snd (fst (dailyStatsCheck now L tr))) = [].
Proof. unfold dailyStatsCheck. now destruct (heartbeatDue _ _). Qed.

Lemma exitsOf_shortStopCheck side now L tr :
  exitsOf side (snd (fst (shortStopCheck now L tr))) = [].
Proof.
  unfold shortStopCheck.
  destruct (activeShortTrade tr); [|apply exitsOf_dailyStatsCheck].
  destruct (JS.strict_neq _ _); [reflexivity | apply exitsOf_dailyStatsCheck].
Qed.

Lemma exitsOf_longStopCheck side now L tr :
  exitsOf side (snd (fst (longStopCheck now L tr))) = [].
Proof.
  unfold longStopCheck.
  destruct (activeLongTrade tr); [|apply exitsOf_shortStopCheck].
  destruct (JS.strict_neq _ _); [reflexivity | apply exitsOf_shortStopCheck].
Qed.

Lemma exitsOf_entryCheck side now L tr :
  exitsOf side (snd (fst (entryCheck now L tr))) = [].
Proof.
  unfold entryCheck.
  destruct (signalIs _ "long" || signalIs _ "short"); [|apply exitsOf_longStopCheck].
  pose proof (exitsOf_entryStep side (Clock.atId now) (Locals.result L)
                (Locals.currentClose L) (Locals.currentTime L) tr) as H.
  destruct (entryStep _ _ _ _ tr) as [tr1 effects]. exact H.
Qed.

(** The exit check of a side sends the exit that the exit step of that side
    sends on the same instance. *)
Lemma exitsOf_shortExitCheck side now L tr :
  exitsOf side (snd (fst (shortExitCheck now L tr)))
  = exitsOf side
      (snd (shortExitStep (Locals.prevState L) (Locals.result L)
              (Locals.currentClose L) (Locals.currentLow L) tr)).
Proof.
  unfold shortExitCheck, shortExitStep.
  destruct (inShortTrade (Locals.prevState L) && negb (inShortTrade (state tr))).
  - destruct (shortExitOutcome _ _ _ _ _). cbn [fst snd exitsOf ExitSignal.position].
    destruct (String.eqb "short" side); reflexivity.
  - apply exitsOf_entryCheck.
Qed.

Lemma exitsOf_long_shortExitStep prev r cc cl tr :
  exitsOf "long" (snd (shortExitStep prev r cc cl tr)) = [].
Proof.
  unfold shortExitStep. destruct (inShortTrade prev && _); [|reflexivity].
  destruct (shortExitOutcome _ _ _ _ _). reflexivity.
Qed.

Lemma exitsOf_short_longExitStep prev r cc ch tr :
  exitsOf "short" (snd (longExitStep prev r cc ch tr)) = [].
Proof.
  unfold longExitStep. destruct (inLongTrade prev && _); [|reflexivity].
  destruct (longExitOutcome _ _ _ _ _). reflexivity.
Qed.

Lemma exitsOf_long_longExitCheck now L tr :
  exitsOf "long" (snd (fst (longExitCheck now L tr)))
  = exitsOf "long"
      (snd (longExitStep (Locals.prevState L) (Locals.result L)
              (Locals.currentClose L) (Locals.currentHigh L) tr)).
Proof.
  unfold longExitCheck, longExitStep.
  destruct (inLongTrade (Locals.prevState L) && negb (inLongTrade (state tr))).
  - destruct (longExitOutcome _ _ _ _ _). reflexivity.
  - rewrite exitsOf_shortExitCheck. apply exitsOf_long_shortExitStep.
Qed.

(** X23.  The exits that the theorems on [processCandle] describe are sent
    before the call first awaits, so whatever other handlers do meanwhile:
    the exit of the long side always, and the exit of the short side when
    the long side does not leave its trade on the same candle.  When it
    does, the call waits for the exit of the long side to be sent, and the
    short side is tested once the stats panel of that exit was sent and
    [activeLongTrade] cleared, on [this.state] as it is then. *)
Theorem X23_exits_before_first_await jAlgo now tr r ind :
  jAlgo (candles tr) (state tr) (config tr) = Some r ->
  Result.indicators r = Some ind ->
  let first := beginProcessCandle jAlgo now tr in
  let whole := processCandle jAlgo now tr in
  let longExits := inLongTrade (state tr) && negb (inLongTrade (Result.state r)) in
  exitsOf "long" (snd (fst first)) = exitsOf "long" (snd whole)
  /\ (longExits = false ->
      exitsOf "short" (snd (fst first)) = exitsOf "short" (snd whole))
  /\ (longExits = true ->
      exitsOf "short" (snd (fst first)) = []
      /\ option_map Task.await (snd first) = Some AwaitLongExit)
  /\ (forall later L tr',
        exitsOf "short" (snd (fst (resumeAt later L AwaitLongStats tr')))
        = exitsOf "short"
            (snd (shortExitStep (Locals.prevState L) (Locals.result L)
                    (Locals.currentClose L) (Locals.currentLow L)
                    (set_activeLongTrade None tr')))).
Proof.
  intros He Hi first whole longExits.
  pose proof (beginProcessCandle_returns jAlgo now tr r ind He Hi) as Hb.
  cbv zeta in Hb. subst first whole.
  split; [|split; [|split]].
  - rewrite Hb, (exitsOf_processCandle jAlgo "long" now tr r ind He Hi).
    cbv zeta. cbn [fst snd app exitsOf].
    rewrite exitsOf_long_shortExitStep, app_nil_r.
    apply exitsOf_long_longExitCheck.
  - intros Hl. subst longExits.
    rewrite Hb, (exitsOf_processCandle jAlgo "short" now tr r ind He Hi).
    cbv zeta. cbn [fst snd app exitsOf].
    rewrite exitsOf_short_longExitStep. cbn [app].
    unfold longExitCheck, longExitStep. cbn [localsOf Locals.prevState].
    change (state (set_state (Result.state r) tr)) with (Result.state r).
    rewrite Hl. cbn [fst]. apply exitsOf_shortExitCheck.
  - intros Hl. subst longExits. rewrite Hb. cbn [fst snd app exitsOf].
    unfold longExitCheck. cbn [localsOf Locals.prevState].
    change (state (set_state (Result.state r) tr)) with (Result.state r).
    rewrite Hl. destruct (longExitOutcome _ _ _ _ _). split; reflexivity.
  - intros later L tr'. cbn [resumeAt]. apply exitsOf_shortExitCheck.
Qed.

(** The sample long trade that leaves at its target: the exit with the
    profit of 15 is sent before the first await. *)
Lemma X23_exits_before_first_await_witness :
  exists e,
    exitsOf "long"
      (snd (fst (beginProcessCandle (Sample.engineReturning Sample.longClosed None)
                   (Clock.every 1200000) (Sample.longTrader 106 104 105.5)))) = [e]
    /\ ExitSignal.reason e = "Target Hit"
    /\ ExitSignal.profitLoss e = 15%float.
Proof.
  rewrite (proj1 (X23_exits_before_first_await
                    (Sample.engineReturning Sample.longClosed None)
                    (Clock.every 1200000) (Sample.longTrader 106 104 105.5)
                    (Sample.resultWith Sample.longClosed None)
                    Sample.someIndicators eq_refl eq_refl)).
  eexists. split; [reflexivity|]. split; reflexivity.
Defined.
